(** * adwscan: scoring and policy of the Android adware triage tool

    A shallow embedding of [adwscan.py]: the text scanners of the
    signal collector, [is_allowlisted], [score_package], [count_recent]
    and [apply_policy], followed by the properties of the scoring
    engine, the activity window and the policy ledger.

    Text model.  A Python [str] is a [string] holding its UTF-8 bytes.
    Line breaks and white space follow Python's tables (the characters
    outside ASCII appear as their UTF-8 byte sequences).  Letter case
    and the word class [\w] are decided on ASCII: a byte above 127 has
    no case and is not a word character. *)

From Stdlib Require Import String Ascii ZArith QArith List Bool Lia DecimalString Sorted.
From stdpp Require Import gmap strings.
Import ListNotations.

Local Open Scope string_scope.
Local Open Scope Z_scope.

(** ** Text primitives *)

Module Text.

Definition code (c : ascii) : N := N_of_ascii c.

Definition between (lo hi : N) (c : ascii) : bool :=
  (N.leb lo (code c) && N.leb (code c) hi)%bool.

Definition is_upper (c : ascii) : bool := between 65 90 c.
Definition is_lower (c : ascii) : bool := between 97 122 c.
Definition is_digit (c : ascii) : bool := between 48 57 c.

(** [c.lower()] on one character, for the letters of ASCII; every other
    byte is left as it is.  Python also folds letters outside ASCII (the
    Kelvin sign U+212A to k, the long s U+017F under [re.IGNORECASE]):
    the model agrees with the code on text that holds no such letter. *)
Definition lower_char (c : ascii) : ascii :=
  if is_upper c then ascii_of_N (code c + 32) else c.

(** [s.lower()] *)
Fixpoint lower (s : string) : string :=
  match s with
  | EmptyString => EmptyString
  | String c t => String (lower_char c) (lower t)
  end.

(** [s.startswith(pfx)] *)
Definition startswith (s pfx : string) : bool := String.prefix pfx s.

(** [needle in hay] on strings. *)
Fixpoint contains (needle hay : string) : bool :=
  (startswith hay needle ||
   match hay with
   | EmptyString => false
   | String _ t => contains needle t
   end)%bool.

Fixpoint drop (n : nat) (s : string) : string :=
  match n, s with
  | O, _ => s
  | S k, EmptyString => EmptyString
  | S k, String _ t => drop k t
  end.

Definition head (s : string) : option ascii :=
  match s with
  | EmptyString => None
  | String c _ => Some c
  end.

Definition is_empty (s : string) : bool :=
  match s with
  | EmptyString => true
  | String _ _ => false
  end.

(** [x in l] on a list or set of strings. *)
Definition mem (x : string) (l : list string) : bool :=
  existsb (String.eqb x) l.

(** [str(n)] for an integer. *)
Definition str_of_int (n : Z) : string := NilZero.string_of_int (Z.to_int n).

(** Bytes of the string as numbers, to recognise multi-byte characters. *)
Definition bytes3 (s : string) : N * N * N :=
  match s with
  | String a (String b (String c _)) => (code a, code b, code c)
  | String a (String b EmptyString) => (code a, code b, 0%N)
  | String a EmptyString => (code a, 0%N, 0%N)
  | EmptyString => (0%N, 0%N, 0%N)
  end.

(** Length in bytes of the line boundary that starts [s], 0 when none
    does.  The boundaries of [str.splitlines]: LF, VT, FF, CR, CR LF,
    FS, GS, RS, NEL (U+0085), LS (U+2028), PS (U+2029). *)
Definition linebreak_len (s : string) : nat :=
  match s with
  | EmptyString => O
  | String _ _ =>
    let '(a, b, c) := bytes3 s in
    if (N.eqb a 13 && N.eqb b 10)%bool then 2%nat
    else if (N.leb 10 a && N.leb a 13)%bool then 1%nat
    else if (N.leb 28 a && N.leb a 30)%bool then 1%nat
    else if (N.eqb a 194 && N.eqb b 133)%bool then 2%nat
    else if (N.eqb a 226 && N.eqb b 128 && (N.eqb c 168 || N.eqb c 169))%bool then 3%nat
    else O
  end.

Fixpoint splitlines_go (skip : nat) (cur s : string) : list string :=
  match s with
  | EmptyString => if is_empty cur then [] else [cur]
  | String c t =>
    match skip with
    | S k => splitlines_go k cur t
    | O =>
      match linebreak_len s with
      | O => splitlines_go O (cur ++ String c EmptyString) t
      | S k => cur :: splitlines_go k EmptyString t
      end
    end
  end.

(** [s.splitlines()] *)
Definition splitlines (s : string) : list string :=
  splitlines_go O EmptyString s.

(** Length in bytes of the white-space character that starts [s], 0
    when none does: the characters of [str.isspace], which [str.strip]
    removes and the pattern [\s] matches. *)
Definition space_len (s : string) : nat :=
  match s with
  | EmptyString => O
  | String _ _ =>
    let '(a, b, c) := bytes3 s in
    if (N.leb 9 a && N.leb a 13)%bool then 1%nat
    else if (N.leb 28 a && N.leb a 32)%bool then 1%nat
    else if (N.eqb a 194 && (N.eqb b 133 || N.eqb b 160))%bool then 2%nat
    else if (N.eqb a 225 && N.eqb b 154 && N.eqb c 128)%bool then 3%nat
    else if (N.eqb a 226 && N.eqb b 128 &&
             (N.leb 128 c && N.leb c 138 || N.eqb c 168 || N.eqb c 169 || N.eqb c 175))%bool
         then 3%nat
    else if (N.eqb a 226 && N.eqb b 129 && N.eqb c 159)%bool then 3%nat
    else if (N.eqb a 227 && N.eqb b 128 && N.eqb c 128)%bool then 3%nat
    else O
  end.

Fixpoint lstrip_go (skip : nat) (s : string) : string :=
  match s with
  | EmptyString => EmptyString
  | String _ t =>
    match skip with
    | S k => lstrip_go k t
    | O =>
      match space_len s with
      | O => s
      | S k => lstrip_go k t
      end
    end
  end.

(** [s.lstrip()], also the rest of the text after a greedy [\s*]. *)
Definition lstrip (s : string) : string := lstrip_go O s.

(** The string holds white space only. *)
Definition all_space (s : string) : bool := is_empty (lstrip s).

(** [s.rstrip()] *)
Fixpoint rstrip (s : string) : string :=
  match s with
  | EmptyString => EmptyString
  | String c t => if all_space s then EmptyString else String c (rstrip t)
  end.

(** [s.strip()] *)
Definition strip (s : string) : string := rstrip (lstrip s).

(** [s.isupper()]: no lower-case letter and at least one upper-case one. *)
Fixpoint has_upper (s : string) : bool :=
  match s with
  | EmptyString => false
  | String c t => (is_upper c || has_upper t)%bool
  end.

Fixpoint has_lower (s : string) : bool :=
  match s with
  | EmptyString => false
  | String c t => (is_lower c || has_lower t)%bool
  end.

Definition isupper (s : string) : bool := (has_upper s && negb (has_lower s))%bool.

(** [s.split(".")[-1]]: the text after the last dot. *)
Fixpoint last_dot_field (s : string) : string :=
  match s with
  | EmptyString => EmptyString
  | String c t =>
    if contains "." t then last_dot_field t
    else if Ascii.eqb c "."%char then t
    else s
  end.

(** The word class [\w] and the boundary [\b] between two neighbours
    ([None] is the start or the end of the text), for the letters and
    digits of ASCII.  Python counts letters and digits outside ASCII as
    word characters too: the model agrees with the code where no such
    character stands next to the word. *)
Definition is_word (c : ascii) : bool :=
  (is_upper c || is_lower c || is_digit c || Ascii.eqb c "_"%char)%bool.

Definition is_word_opt (c : option ascii) : bool :=
  match c with
  | None => false
  | Some x => is_word x
  end.

Definition word_boundary (prev next : option ascii) : bool :=
  xorb (is_word_opt prev) (is_word_opt next).

(** [pfx] matches at the start of [s] under [re.IGNORECASE]. *)
Definition startswith_ci (s pfx : string) : bool :=
  startswith (lower s) (lower pfx).

Fixpoint last_char (s : string) : option ascii :=
  match s with
  | EmptyString => None
  | String c EmptyString => Some c
  | String _ t => last_char t
  end.

End Text.

Import Text.

(** ** Configuration tables *)

Definition DEFAULT_WARN_THRESHOLD : Z := 45.
Definition DEFAULT_QUAR_THRESHOLD : Z := 80.
Definition DEFAULT_REMOVE_THRESHOLD : Z := 105.

Definition BUILTIN_ALLOWLIST_PREFIXES : list string :=
  ["com.android."; "com.google.android."; "com.google."; "android."].

(** Listed as [sorted(BUILTIN_ALLOWLIST_EXACT)] gives them. *)
Definition BUILTIN_ALLOWLIST_EXACT : list string :=
  ["com.android.packageinstaller"; "com.android.settings"; "com.android.systemui";
   "com.google.android.gms"; "com.google.android.gsf";
   "com.google.android.packageinstaller"].

(** The alternatives of [SUSPICIOUS_NAME_RE]. *)
Definition SUSPICIOUS_NAME_WORDS : list string :=
  ["ad"; "ads"; "advert"; "offer"; "promo"; "boost"; "cleaner"; "junk";
   "speed"; "battery"; "vpn"; "browser"].

Definition PERM_SIGNALS : list (string * Z) :=
  [("SYSTEM_ALERT_WINDOW", 35);
   ("BIND_ACCESSIBILITY_SERVICE", 35);
   ("PACKAGE_USAGE_STATS", 15);
   ("RECEIVE_BOOT_COMPLETED", 12);
   ("FOREGROUND_SERVICE", 8);
   ("POST_NOTIFICATIONS", 5);
   ("WAKE_LOCK", 5);
   ("REQUEST_INSTALL_PACKAGES", 20)].

Definition APPOPS_SIGNALS : list (string * Z) :=
  [("SYSTEM_ALERT_WINDOW", 25);
   ("GET_USAGE_STATS", 15);
   ("REQUEST_INSTALL_PACKAGES", 10)].

Definition BEHAVIOR_TEXT_SIGNALS : list (string * (string * Z)) :=
  [("android.intent.action.BOOT_COMPLETED", ("BOOT_COMPLETED receiver/intent", 15));
   ("android.intent.action.USER_PRESENT", ("USER_PRESENT receiver/intent", 20));
   ("INSTALL_SHORTCUT", ("shortcut creation behavior", 10));
   ("android.intent.action.PACKAGE_ADDED", ("PACKAGE_ADDED receiver/intent", 8));
   ("android.intent.action.PACKAGE_REPLACED", ("PACKAGE_REPLACED receiver/intent", 8))].

(** The set [trusted_installers] of [score_package]. *)
Definition trusted_installers : list string :=
  ["com.android.vending";
   "com.google.android.packageinstaller";
   "com.android.packageinstaller";
   "com.sec.android.app.samsungapps";
   "com.huawei.appmarket";
   "com.xiaomi.market"].

(** ** Python values and dictionaries *)

(** The objects stored in [ScoreResult.details]. *)
Inductive pyval : Type :=
| VNone
| VBool (b : bool)
| VInt (n : Z)
| VStr (s : string)
| VStrList (l : list string)
| VFlags (d : list (string * bool)).

(** A [dict] with string keys, in insertion order. *)
Definition dict (V : Type) : Type := list (string * V).

(** [d.get(k)] *)
Fixpoint dict_get {V : Type} (d : dict V) (k : string) : option V :=
  match d with
  | [] => None
  | (k', v) :: t => if String.eqb k k' then Some v else dict_get t k
  end.

(** [d[k] = v]: an existing key keeps its place, a new one goes last. *)
Fixpoint dict_set {V : Type} (d : dict V) (k : string) (v : V) : dict V :=
  match d with
  | [] => [(k, v)]
  | (k', v') :: t =>
    if String.eqb k k' then (k', v) :: t else (k', v') :: dict_set t k v
  end.

(** [bool(x)] *)
Definition truthy (x : pyval) : bool :=
  match x with
  | VNone => false
  | VBool b => b
  | VInt n => negb (Z.eqb n 0)
  | VStr s => negb (is_empty s)
  | VStrList l => match l with [] => false | _ => true end
  | VFlags d => match d with [] => false | _ => true end
  end.

(** [bool(d.get(k))] *)
Definition truthy_get (d : dict pyval) (k : string) : bool :=
  match dict_get d k with
  | None => false
  | Some v => truthy v
  end.

(** ** Data classes *)

Record Event : Type := mkEvent {
  ts : Q;
  ev_pkg : string;
  activity : string;
  raw : string
}.

Record ScoreResult : Type := mkScoreResult {
  pkg : string;
  score : Z;
  reasons : list string;
  details : dict pyval
}.

(** The file [allowlist.json] as [_load_allowlist] returns it. *)
Record Allowlist : Type := mkAllowlist {
  exact : list string;
  prefixes : list string
}.

Definition default_allowlist : Allowlist :=
  {| exact := BUILTIN_ALLOWLIST_EXACT; prefixes := BUILTIN_ALLOWLIST_PREFIXES |}.

(** [AdwScan.is_allowlisted] *)
Definition is_allowlisted (allowlist : Allowlist) (p : string) : bool :=
  if mem p (exact allowlist) then true
  else existsb (fun pfx => startswith p pfx) (prefixes allowlist).

(** ** Scanners of the signal collector *)

(** [SUSPICIOUS_NAME_RE.search(pkg)] is not [None]. *)
Definition suspicious_name (p : string) : bool :=
  existsb (fun w => contains w (lower p)) SUSPICIOUS_NAME_WORDS.

(** The class [[A-Z_]]. *)
Definition is_AZ_ (c : ascii) : bool := (is_upper c || Ascii.eqb c "_"%char)%bool.

(** The longest prefix of [s] in [[A-Z_]*]. *)
Fixpoint span_AZ_ (s : string) : string :=
  match s with
  | EmptyString => EmptyString
  | String c t => if is_AZ_ c then String c (span_AZ_ t) else EmptyString
  end.

(** One match of [([A-Z_]{3,}|android\.permission\.[A-Z_]+)] at the
    start of [s]: the first alternative is tried first, both are greedy. *)
Definition match_perm_token (s : string) : option string :=
  let run := span_AZ_ s in
  if (3 <=? String.length run)%nat then Some run
  else if startswith s "android.permission." then
    let run2 := span_AZ_ (drop 19 s) in
    if (1 <=? String.length run2)%nat then Some ("android.permission." ++ run2)
    else None
  else None.

Fixpoint findall_perm_go (skip : nat) (s : string) : list string :=
  match s with
  | EmptyString => []
  | String _ t =>
    match skip with
    | S k => findall_perm_go k t
    | O =>
      match match_perm_token s with
      | Some tok => tok :: findall_perm_go (String.length tok - 1) t
      | None => findall_perm_go O t
      end
    end
  end.

(** [re.findall(r"([A-Z_]{3,}|android\.permission\.[A-Z_]+)", line)] *)
Definition findall_perm (line : string) : list string := findall_perm_go O line.

(** [perms.add(x)] on a set kept as a duplicate-free list. *)
Definition set_add (x : string) (s : list string) : list string :=
  if mem x s then s else x :: s.

Fixpoint insert_sorted (x : string) (l : list string) : list string :=
  match l with
  | [] => [x]
  | y :: t => if String.leb x y then x :: l else y :: insert_sorted x t
  end.

(** [sorted(s)] *)
Definition sorted (s : list string) : list string := fold_right insert_sorted [] s.

(** The test that selects a line of the dump. *)
Definition perm_line (line : string) : bool :=
  (contains "permission." line
   || startswith (strip line) "android.permission."
   || startswith (strip line) "com.android.")%bool.

(** The body of [for x in m]. *)
Definition add_token (perms : list string) (x : string) : list string :=
  if startswith x "android.permission." then set_add (last_dot_field x) perms
  else if isupper x then set_add x perms
  else perms.

(** The body of [for line in dumpsys_txt.splitlines()]. *)
Definition add_line (perms : list string) (line : string) : list string :=
  if perm_line line then fold_left add_token (findall_perm line) perms else perms.

(** [AdwScan.parse_requested_permissions] *)
Definition parse_requested_permissions (dumpsys_txt : string) : list string :=
  let perms := fold_left add_line (splitlines dumpsys_txt) [] in
  let perms :=
    if contains "BIND_ACCESSIBILITY_SERVICE" dumpsys_txt
    then set_add "BIND_ACCESSIBILITY_SERVICE" perms
    else perms in
  sorted perms.

(** [AdwScan.parse_behavior_text_signals] *)
Definition parse_behavior_text_signals (dumpsys_txt : string) : dict bool :=
  let low := lower dumpsys_txt in
  map (fun e => (fst e, contains (lower (fst e)) low)) BEHAVIOR_TEXT_SIGNALS.

(** The pattern [\b{op}\b\s*:\s*allow\b] under [re.IGNORECASE], tried
    where [s] starts and [prev] is the character before it. *)
Definition appop_allow_at (op : string) (prev : option ascii) (s : string) : bool :=
  (word_boundary prev (head s) && startswith_ci s op &&
   let s1 := drop (String.length op) s in
   word_boundary (last_char op) (head s1) &&
   match lstrip s1 with
   | String c s2 =>
     Ascii.eqb c ":"%char &&
     let s3 := lstrip s2 in
     startswith_ci s3 "allow" &&
     word_boundary (Some "w"%char) (head (drop 5 s3))
   | EmptyString => false
   end)%bool.

Fixpoint appop_search_go (op : string) (prev : option ascii) (s : string) : bool :=
  (appop_allow_at op prev s ||
   match s with
   | EmptyString => false
   | String c t => appop_search_go op (Some c) t
   end)%bool.

(** [re.search(rf"\b{re.escape(op)}\b\s*:\s*allow\b", appops_txt, flags=re.IGNORECASE)] *)
Definition appop_allowed (op appops_txt : string) : bool :=
  appop_search_go op None appops_txt.

(** ** The scoring engine *)

(** What a call that may raise gives back: its value, or the text of
    the exception that [except Exception as ex] catches. *)
Inductive outcome (A : Type) : Type :=
| Returned (a : A)
| Raised (ex : string).

Arguments Returned {A} a.
Arguments Raised {A} ex.

(** The device behind [self.adb], as the five queries of
    [score_package] see it at the time of a call. *)
Record Device : Type := mkDevice {
  get_pkg_installer : string -> outcome (option string);
  get_pkg_paths : string -> outcome (list string);
  query_launcher_presence : string -> outcome (option bool);
  dumpsys_package : string -> outcome string;
  appops_get : string -> outcome string
}.

(** The two locals [score] and [reasons]. *)
Abbreviation tally := (Z * list string)%type (only parsing).

(** [score += pts; reasons.append(reason)] *)
Definition bump (st : tally) (pts : Z) (reason : string) : tally :=
  (fst st + pts, (snd st ++ [reason])%list).

(** [reasons.append(reason)] *)
Definition note (st : tally) (reason : string) : tally :=
  (fst st, (snd st ++ [reason])%list).

(** [try: x = q except Exception as ex: reasons.append(f"{label}: {ex}")] *)
Definition try_get {A : Type} (q : outcome A) (dflt : A) (label : string)
    (st : tally) : A * tally :=
  match q with
  | Returned a => (a, st)
  | Raised ex => (dflt, note st (label ++ ": " ++ ex))
  end.

Definition freq_rule (n : Z) (st : tally) : tally :=
  if 8 <=? n then bump st 30 ("front-display頻度が高い (" ++ str_of_int n ++ "/10min)")
  else if 5 <=? n then bump st 20 ("front-display頻度がやや高い (" ++ str_of_int n ++ "/10min)")
  else if 3 <=? n then bump st 10 ("front-display頻度シグナル (" ++ str_of_int n ++ "/10min)")
  else st.

Definition name_rule (p : string) (st : tally) : tally :=
  if suspicious_name p then bump st 5 "パッケージ名に広告/最適化系の弱いシグナル" else st.

(** [installer not in trusted_installers] *)
Definition not_trusted (installer : option string) : bool :=
  match installer with
  | None => true
  | Some i => negb (mem i trusted_installers)
  end.

Definition installer_rule (installer : option string) (st : tally) : tally :=
  match installer with
  | None => bump st 10 "インストーラ不明"
  | Some i =>
    if negb (mem i trusted_installers)
    then bump st 15 ("非標準/未知のインストーラ: " ++ i)
    else st
  end.

Definition user_path (p : string) : bool := startswith p "/data/app/".

Definition system_path (p : string) : bool :=
  (contains "/system/" p || contains "/product/" p || contains "/vendor/" p)%bool.

Definition is_nil {A : Type} (l : list A) : bool :=
  match l with
  | [] => true
  | _ :: _ => false
  end.

(** The block under [if paths:], on the score, the reasons and [details]. *)
Definition location_rule (paths : list string) (st : tally) (d : dict pyval)
    : tally * dict pyval :=
  if is_nil paths then (st, d)
  else
    let d := if existsb user_path paths then dict_set d "user_app_like" (VBool true) else d in
    if existsb system_path paths
    then ((Z.max 0 (fst st - 10),
           (snd st ++ ["システム領域アプリの可能性（自動削除は慎重）"])%list),
          dict_set d "system_like" (VBool true))
    else (st, d).

(** The body of [for p in requested_perms]. *)
Definition perm_step (st : tally) (p : string) : tally :=
  match dict_get PERM_SIGNALS p with
  | Some pts => bump st pts ("権限シグナル: " ++ p ++ " (+" ++ str_of_int pts ++ ")")
  | None => st
  end.

Definition a11y_trace (dumpsys_txt : string) (requested_perms : list string) : bool :=
  (negb (is_empty dumpsys_txt) && contains "AccessibilityService" dumpsys_txt
   && negb (mem "BIND_ACCESSIBILITY_SERVICE" requested_perms))%bool.

Definition a11y_rule (dumpsys_txt : string) (requested_perms : list string)
    (st : tally) : tally :=
  if a11y_trace dumpsys_txt requested_perms
  then bump st 15 "AccessibilityService 定義の痕跡 (+15)"
  else st.

(** The body of [for op, pts in APPOPS_SIGNALS.items()], on the score,
    the reasons and [appops_found]. *)
Definition appops_step (appops_txt : string) (acc : tally * list string)
    (e : string * Z) : tally * list string :=
  let '(op, pts) := e in
  if appop_allowed op appops_txt
  then (bump (fst acc) pts ("AppOps許可: " ++ op ++ " (+" ++ str_of_int pts ++ ")"),
        (snd acc ++ [op])%list)
  else acc.

(** The body of [for key, is_found in behavior_found.items()]. *)
Definition behavior_step (st : tally) (e : string * bool) : tally :=
  if snd e then
    match dict_get BEHAVIOR_TEXT_SIGNALS (fst e) with
    | Some (label, pts) =>
      bump st pts ("挙動シグナル: " ++ label ++ " (+" ++ str_of_int pts ++ ")")
    | None => st
    end
  else st.

(** [bool(behavior_found.get(key))] *)
Definition flag_get (behavior_found : dict bool) (key : string) : bool :=
  match dict_get behavior_found key with
  | Some b => b
  | None => false
  end.

Definition launcher_rule (launcher_present : option bool) (n : Z) (st : tally) : tally :=
  match launcher_present with
  | Some false =>
    if 3 <=? n then bump st 15 "ランチャー無し/非通常 + 前面表示頻度 (HiddenAds系シグナル)" else st
  | None =>
    if 5 <=? n then bump st 8 "ランチャー不明 + 前面表示高頻度" else st
  | Some true => st
  end.

Definition when_rule (cond : bool) (pts : Z) (reason : string) (st : tally) : tally :=
  if cond then bump st pts reason else st.

Definition launcher_val (l : option bool) : pyval :=
  match l with
  | None => VNone
  | Some b => VBool b
  end.

Definition installer_val (i : option string) : pyval :=
  match i with
  | None => VNone
  | Some s => VStr s
  end.

Definition not_true (l : option bool) : bool :=
  match l with
  | Some true => false
  | _ => true
  end.

(** [AdwScan.score_package].  [time_iso] is what [ts_iso()] returns when
    the call builds [details]. *)
Definition score_package (allowlist : Allowlist) (adb : Device) (time_iso : string)
    (p : string) (recent_count_10m : Z) : ScoreResult :=
  let details : dict pyval :=
    [("pkg", VStr p);
     ("time", VStr time_iso);
     ("allowlisted", VBool (is_allowlisted allowlist p));
     ("recent_count_10m", VInt recent_count_10m)] in
  if is_allowlisted allowlist p
  then mkScoreResult p 0 ["allowlisted"] details
  else
    let st : tally := (0, []) in
    let st := freq_rule recent_count_10m st in
    let st := name_rule p st in
    let '(installer, st) := try_get (get_pkg_installer adb p) None "installer取得失敗" st in
    let '(paths, st) := try_get (get_pkg_paths adb p) [] "path取得失敗" st in
    let '(launcher_present, st) :=
      try_get (query_launcher_presence adb p) None "launcher判定失敗" st in
    let '(dumpsys_txt, st) := try_get (dumpsys_package adb p) "" "dumpsys失敗" st in
    let '(appops_txt, st) := try_get (appops_get adb p) "" "appops取得失敗" st in
    let details := dict_set details "installer" (installer_val installer) in
    let details := dict_set details "paths" (VStrList paths) in
    let details := dict_set details "launcher_present" (launcher_val launcher_present) in
    let st := installer_rule installer st in
    let '(st, details) := location_rule paths st details in
    let requested_perms :=
      if is_empty dumpsys_txt then [] else parse_requested_permissions dumpsys_txt in
    let details := dict_set details "requested_permissions" (VStrList requested_perms) in
    let st := fold_left perm_step requested_perms st in
    let st := a11y_rule dumpsys_txt requested_perms st in
    let '(st, appops_found) :=
      fold_left (appops_step appops_txt) APPOPS_SIGNALS (st, []) in
    let details := dict_set details "appops_allow_signals" (VStrList appops_found) in
    let behavior_found : dict bool :=
      if is_empty dumpsys_txt then [] else parse_behavior_text_signals dumpsys_txt in
    let details :=
      if is_empty dumpsys_txt then details
      else dict_set details "behavior_text_signals" (VFlags behavior_found) in
    let st := fold_left behavior_step behavior_found st in
    let has_overlay_perm :=
      (mem "SYSTEM_ALERT_WINDOW" requested_perms || mem "SYSTEM_ALERT_WINDOW" appops_found)%bool in
    let has_a11y :=
      (mem "BIND_ACCESSIBILITY_SERVICE" requested_perms
       || (negb (is_empty dumpsys_txt) && contains "AccessibilityService" dumpsys_txt))%bool in
    let has_usage :=
      (mem "PACKAGE_USAGE_STATS" requested_perms || mem "GET_USAGE_STATS" appops_found)%bool in
    let boot_rx := flag_get behavior_found "android.intent.action.BOOT_COMPLETED" in
    let user_present_rx := flag_get behavior_found "android.intent.action.USER_PRESENT" in
    let st := launcher_rule launcher_present recent_count_10m st in
    let st := when_rule (has_overlay_perm && has_a11y) 30
                "overlay + accessibility の組み合わせ (+30)" st in
    let st := when_rule (has_overlay_perm && has_usage) 15
                "overlay + usage stats の組み合わせ (+15)" st in
    let st := when_rule (user_present_rx && not_true launcher_present) 20
                "USER_PRESENT監視 + ランチャー非通常 (HiddenAds疑い)" st in
    let st := when_rule (boot_rx && has_overlay_perm) 12
                "BOOT_COMPLETED + overlay (再起動後継続広告の疑い)" st in
    let st := when_rule ((5 <=? recent_count_10m) && has_overlay_perm && not_trusted installer)
                15 "高頻度前面表示 + 非標準インストーラ + overlay" st in
    let details :=
      dict_set details "composite_flags"
        (VFlags [("has_overlay_perm", has_overlay_perm);
                 ("has_a11y", has_a11y);
                 ("has_usage", has_usage);
                 ("boot_receiver", boot_rx);
                 ("user_present_receiver", user_present_rx)]) in
    let final := if 180 <? fst st then 180 else fst st in
    let details := dict_set details "score" (VInt final) in
    mkScoreResult p final (snd st) details.

(** ** The activity window *)

Section Window.

(** [t - e.ts] on two floats: the rounded difference, as the rational
    it denotes.  Its rounding is left open. *)
Variable float_sub : Q -> Q -> Q.

(** [(t - e.ts) <= seconds], a float against an integer. *)
Definition is_recent (t : Q) (seconds : Z) (e : Event) : bool :=
  Qle_bool (float_sub t (ts e)) (inject_Z seconds).

(** [AdwScan.count_recent]; [t] is what [now_ts()] returns. *)
Definition count_recent (events_by_pkg : gmap string (list Event)) (t : Q)
    (p : string) (seconds : Z) : Z :=
  let dq := default [] (events_by_pkg !! p) in
  Z.of_nat (List.length (List.filter (is_recent t seconds) dq)).

End Window.

(** ** The policy engine *)

(** One entry of [state["actioned"]]. *)
Record ActionRecord : Type := mkActionRecord {
  ar_time : string;
  ar_action : string;
  ar_score : Z;
  ar_reasons : list string
}.

(** [self.state]: the content of [state.json]; a key may be missing. *)
Record State : Type := mkState {
  actioned : option (gmap string ActionRecord);
  last_seen : option (gmap string Q)
}.

(** What a call does to the outside, in order. *)
Inductive effect : Type :=
| Print (line : string)
    (** [print(line)] *)
| PrintSkip (p : string) (r : ActionRecord)
    (** [print(f"[SKIP] {pkg} は既に actioned ({actioned[pkg]})")] *)
| Shell (args : list string)
    (** [self.adb.shell] called with [args] *)
| SaveState (s : State)
    (** [self.save_state()] writing [s] *).

Definition dry_suffix (dry_run : bool) : string :=
  if dry_run then " (dry-run)" else "".

(** [AdwScan.force_stop] *)
Definition force_stop (p : string) (dry_run : bool) : list effect :=
  (Print ("[ACTION] force-stop " ++ p ++ dry_suffix dry_run)
   :: if dry_run then [] else [Shell ["am"; "force-stop"; p]])%list.

(** [AdwScan.disable_user] *)
Definition disable_user (p : string) (dry_run : bool) : list effect :=
  (Print ("[ACTION] disable-user --user 0 " ++ p ++ dry_suffix dry_run)
   :: if dry_run then [] else [Shell ["pm"; "disable-user"; "--user"; "0"; p]])%list.

(** [AdwScan.uninstall_user0] *)
Definition uninstall_user0 (p : string) (dry_run : bool) : list effect :=
  (Print ("[ACTION] uninstall --user 0 " ++ p ++ dry_suffix dry_run)
   :: if dry_run then [] else [Shell ["pm"; "uninstall"; "--user"; "0"; p]])%list.

(** [AdwScan.cmd_quarantine] *)
Definition cmd_quarantine (p : string) (dry_run : bool) : list effect :=
  (force_stop p dry_run ++ disable_user p dry_run)%list.

(** [AdwScan.cmd_remove] *)
Definition cmd_remove (p : string) (dry_run : bool) : list effect :=
  (force_stop p dry_run ++ disable_user p dry_run ++ uninstall_user0 p dry_run)%list.

(** The ledger a state holds; a missing key reads as the empty map. *)
Definition ledger (s : State) : gmap string ActionRecord :=
  default ∅ (actioned s).

(** [self.state.setdefault("actioned", {})] *)
Definition setdefault_actioned (s : State) : State :=
  match actioned s with
  | Some _ => s
  | None => mkState (Some ∅) (last_seen s)
  end.

(** [actioned[pkg] = r] *)
Definition record_action (s : State) (p : string) (r : ActionRecord) : State :=
  mkState (Some (<[p := r]> (ledger s))) (last_seen s).

(** The name written under ["action"]. *)
Definition action_name (name : string) (dry_run : bool) : string :=
  if dry_run then name ++ "(dry-run)" else name.

(** The tail shared by the three acting branches: announce, run the
    commands, write the ledger entry, save. *)
Definition act (s : State) (time_iso : string) (res : ScoreResult)
    (dry_run : bool) (label name : string) (cmds : list effect)
    (log : list effect) : State * list effect :=
  let s' := record_action s (pkg res)
              (mkActionRecord time_iso (action_name name dry_run)
                 (score res) (reasons res)) in
  (s', (log ++ [Print ("[POLICY] " ++ label)] ++ cmds ++ [SaveState s'])%list).

(** [AdwScan.apply_policy].  [time_iso] is what [ts_iso()] returns when
    the ledger entry is written. *)
Definition apply_policy (self : State) (time_iso : string) (res : ScoreResult)
    (dry_run : bool) (warn_threshold quar_threshold remove_threshold : Z)
    (aggressive_remove : bool) : State * list effect :=
  let p := pkg res in
  let self := setdefault_actioned self in
  match ledger self !! p with
  | Some r => (self, [PrintSkip p r])
  | None =>
    let log :=
      (Print ("[SCORE] " ++ p ++ " = " ++ str_of_int (score res))
       :: map (fun r => Print ("  - " ++ r)) (reasons res))%list in
    if score res <? warn_threshold
    then (self, (log ++ [Print "[POLICY] 記録のみ"])%list)
    else
      let system_like := truthy_get (details res) "system_like" in
      let log :=
        if (system_like && (remove_threshold <=? score res))%bool
        then (log ++ [Print "[SAFETY] system_like のため REMOVE を抑止して QUARANTINE に格下げ"])%list
        else log in
      if ((remove_threshold <=? score res) && aggressive_remove && negb system_like)%bool
      then act self time_iso res dry_run "REMOVE" "remove" (cmd_remove p dry_run) log
      else if quar_threshold <=? score res
      then act self time_iso res dry_run "QUARANTINE" "quarantine"
             (cmd_quarantine p dry_run) log
      else act self time_iso res dry_run "force-stop only" "force-stop"
             (force_stop p dry_run) log
  end.

(** ** The event parser *)

(** The class of the package group of [DISPLAYED_RE]: letters, digits,
    dot and underscore. *)
Definition is_pkg_char (c : ascii) : bool :=
  (is_upper c || is_lower c || is_digit c
   || Ascii.eqb c "."%char || Ascii.eqb c "_"%char)%bool.

(** The class of the activity group: the same with dollar, slash and
    hyphen. *)
Definition is_act_char (c : ascii) : bool :=
  (is_upper c || is_lower c || is_digit c
   || Ascii.eqb c "."%char || Ascii.eqb c "$"%char || Ascii.eqb c "_"%char
   || Ascii.eqb c "/"%char || Ascii.eqb c "-"%char)%bool.

(** The longest prefix of [s] whose characters satisfy [f]: a greedy
    character class. *)
Fixpoint span (f : ascii -> bool) (s : string) : string :=
  match s with
  | EmptyString => EmptyString
  | String c t => if f c then String c (span f t) else EmptyString
  end.

(** [DISPLAYED_RE] tried where [s] starts: the word, at least one white
    space, the package group, a slash, the activity group. *)
Definition displayed_at (s : string) : option (string * string) :=
  if startswith s "Displayed" then
    let s1 := drop 9 s in
    let s2 := lstrip s1 in
    if (String.length s2 <? String.length s1)%nat then
      let g1 := span is_pkg_char s2 in
      if is_empty g1 then None
      else
        match drop (String.length g1) s2 with
        | String c s3 =>
          if Ascii.eqb c "/"%char then
            let g2 := span is_act_char s3 in
            if is_empty g2 then None else Some (g1, g2)
          else None
        | EmptyString => None
        end
    else None
  else None.

(** [DISPLAYED_RE.search(line)]: the first place where the pattern matches. *)
Fixpoint displayed_search (s : string) : option (string * string) :=
  match displayed_at s with
  | Some m => Some m
  | None =>
    match s with
    | EmptyString => None
    | String _ t => displayed_search t
    end
  end.

(** [AdwScan.parse_displayed_line]; [now] is what [now_ts()] returns. *)
Definition parse_displayed_line (now : Q) (line : string) : option Event :=
  match displayed_search line with
  | None => None
  | Some (p, a) => Some (mkEvent now p a (rstrip line))
  end.

(** ** Inventory *)

Module Inventory.

(** [line.split(":", 1)[1]] for a line that holds a colon: the text
    after the first one. *)
Fixpoint after_colon (s : string) : string :=
  match s with
  | EmptyString => EmptyString
  | String c t => if Ascii.eqb c ":"%char then t else after_colon t
  end.

(** The loop shared by [get_pkg_paths] and [list_user_packages]: the
    stripped text after [package:] of every line that starts with it. *)
Definition package_lines (stdout : string) : list string :=
  flat_map (fun line =>
              let line := strip line in
              if startswith line "package:" then [strip (after_colon line)] else [])
           (splitlines stdout).

(** [AdwScan.get_pkg_paths] on the output of [pm path]. *)
Definition get_pkg_paths (stdout : string) : list string := package_lines stdout.

(** [set(pkgs)] *)
Definition to_set (l : list string) : list string :=
  fold_left (fun s x => set_add x s) l [].

(** [AdwScan.list_user_packages] on the output of [pm list packages -3]. *)
Definition list_user_packages (stdout : string) : list string :=
  sorted (to_set (package_lines stdout)).

End Inventory.

(** ** The monitor loop and the automatic loop *)

Definition DEQUE_MAXLEN : nat := 500.

(** [dq.append(e)] on a [deque(maxlen=500)]: a full deque drops its
    oldest entry. *)
Definition deque_append (dq : list Event) (e : Event) : list Event :=
  if (DEQUE_MAXLEN <=? List.length dq)%nat then (tl dq ++ [e])%list else (dq ++ [e])%list.

(** The mutable part of [AdwScan]: [self.state] and [self.events_by_pkg]. *)
Record Tool : Type := mkTool {
  tool_state : State;
  tool_events : gmap string (list Event)
}.

(** [self.state.setdefault("last_seen", {})[pkg] = t] *)
Definition set_last_seen (s : State) (p : string) (t : Q) : State :=
  mkState (actioned s) (Some (<[p := t]> (default ∅ (last_seen s)))).

(** The two updates both loops make for a parsed event:
    [self.events_by_pkg[evt.pkg].append(evt)] and the last-seen time. *)
Definition record_event (tool : Tool) (evt : Event) : Tool :=
  let dq := default [] (tool_events tool !! ev_pkg evt) in
  mkTool (set_last_seen (tool_state tool) (ev_pkg evt) (ts evt))
         (<[ev_pkg evt := deque_append dq evt]> (tool_events tool)).

(** What an iteration of a loop does to the outside, in order. *)
Inductive loop_effect : Type :=
| Logged (evt : Event)
    (** [self.append_event_log(evt)] *)
| Saved (s : State)
    (** [self.save_state()] *)
| Status (evt : Event) (recent : Z)
    (** the status line with the package, the activity and the count *)
| RawLine (line : string)
    (** [print("  raw:", evt.raw)] *)
| Policy (e : effect)
    (** an effect of [apply_policy] *).

(** The clock readings of one iteration: [now_ts()] in
    [parse_displayed_line], in [count_recent] and before the cooldown
    test, and [ts_iso()] in [score_package] and in [apply_policy]. *)
Record Ticks : Type := mkTicks {
  at_parse : Q;
  at_count : Q;
  at_eval : Q;
  iso_score : string;
  iso_policy : string
}.

(** The arguments of [cmd_auto]. *)
Record AutoConfig : Type := mkAutoConfig {
  cfg_dry_run : bool;
  cfg_min_count_for_inspect : Z;
  cfg_warn_threshold : Z;
  cfg_quar_threshold : Z;
  cfg_remove_threshold : Z;
  cfg_aggressive_remove : bool;
  cfg_cool_down_sec : Z
}.

Section Loops.

(** [t - x] on floats, as in [count_recent]. *)
Variable float_sub : Q -> Q -> Q.

(** [a < b], a float against an integer. *)
Definition float_lt (a : Q) (b : Z) : bool := negb (Qle_bool (inject_Z b) a).

(** The body of the loop of [cmd_monitor]. *)
Definition monitor_step (show_raw : bool) (tool : Tool) (line : string) (tk : Ticks)
    : Tool * list loop_effect :=
  match parse_displayed_line (at_parse tk) line with
  | None => (tool, [])
  | Some evt =>
    let tool := record_event tool evt in
    let recent := count_recent float_sub (tool_events tool) (at_count tk) (ev_pkg evt) 600 in
    (tool,
     ([Logged evt; Saved (tool_state tool); Status evt recent]
      ++ if show_raw then [RawLine (raw evt)] else [])%list)
  end.

(** The body of the loop of [cmd_auto]; [last_eval] is its local map. *)
Definition auto_step (allowlist : Allowlist) (adb : Device) (cfg : AutoConfig)
    (st : Tool * gmap string Q) (line : string) (tk : Ticks)
    : (Tool * gmap string Q) * list loop_effect :=
  let '(tool, last_eval) := st in
  match parse_displayed_line (at_parse tk) line with
  | None => (st, [])
  | Some evt =>
    let tool := record_event tool evt in
    let recent := count_recent float_sub (tool_events tool) (at_count tk) (ev_pkg evt) 600 in
    let out := [Logged evt; Status evt recent] in
    if is_allowlisted allowlist (ev_pkg evt) then ((tool, last_eval), out)
    else if recent <? cfg_min_count_for_inspect cfg then ((tool, last_eval), out)
    else
      let t := at_eval tk in
      if float_lt (float_sub t (default 0%Q (last_eval !! ev_pkg evt))) (cfg_cool_down_sec cfg)
      then ((tool, last_eval), out)
      else
        let last_eval := <[ev_pkg evt := t]> last_eval in
        let res := score_package allowlist adb (iso_score tk) (ev_pkg evt) recent in
        let '(s, acts) :=
          apply_policy (tool_state tool) (iso_policy tk) res (cfg_dry_run cfg)
            (cfg_warn_threshold cfg) (cfg_quar_threshold cfg) (cfg_remove_threshold cfg)
            (cfg_aggressive_remove cfg) in
        ((mkTool s (tool_events tool), last_eval),
         (out ++ map Policy acts ++ [Saved s])%list)
  end.

(** [AdwScan.cmd_auto] once the device is ready: the loop over the
    lines the stream has produced so far, each with the clock readings
    of its iteration and the device as it answers during it.  The
    commands of the policy and the writes to the files are taken to
    return: one that raises ends the program. *)
Fixpoint cmd_auto (allowlist : Allowlist) (cfg : AutoConfig)
    (st : Tool * gmap string Q) (lines : list (string * Ticks * Device))
    : (Tool * gmap string Q) * list loop_effect :=
  match lines with
  | [] => (st, [])
  | (line, tk, adb) :: rest =>
    let '(st1, out1) := auto_step allowlist adb cfg st line tk in
    let '(st2, out2) := cmd_auto allowlist cfg st1 rest in
    (st2, (out1 ++ out2)%list)
  end.

(** [AdwScan.cmd_monitor], likewise. *)
Fixpoint cmd_monitor (show_raw : bool) (tool : Tool) (lines : list (string * Ticks))
    : Tool * list loop_effect :=
  match lines with
  | [] => (tool, [])
  | (line, tk) :: rest =>
    let '(tool1, out1) := monitor_step show_raw tool line tk in
    let '(tool2, out2) := cmd_monitor show_raw tool1 rest in
    (tool2, (out1 ++ out2)%list)
  end.

End Loops.

(** * Vocabulary of the properties *)

(** The score so far is not negative. *)
Definition nonneg (st : tally) : Prop := 0 <= fst st.

(** A step never lowers the score. *)
Definition grows (f : tally -> tally) : Prop := forall st, fst st <= fst (f st).

(** [details] with its ["time"] entry replaced. *)
Definition retime (t : string) (d : dict pyval) : dict pyval :=
  dict_set d "time" (VStr t).

(** [k in d] *)
Definition has_key {V : Type} (d : dict V) (k : string) : Prop :=
  dict_get d k <> None.

(** Two dictionaries that agree but for the time entry. *)
Definition retimed (t : string) (d1 d2 : dict pyval) : Prop :=
  has_key d2 "time" /\ d1 = retime t d2.

(** What the [try] block leaves in the variable. *)
Definition answer {A : Type} (q : outcome A) (dflt : A) : A :=
  match q with
  | Returned a => a
  | Raised _ => dflt
  end.

(** [r] starts with one of the prefixes. *)
Definition tagged (pfxs : list string) (r : string) : bool :=
  existsb (fun pfx => startswith r pfx) pfxs.

(** From [s] to [s'] only reasons with these prefixes were appended. *)
Definition adds (pfxs : list string) (s s' : Z * list string) : Prop :=
  exists out, snd s' = (snd s ++ out)%list /\ forall r, In r out -> tagged pfxs r = true.

(** The [[POLICY]] lines a call printed. *)
Definition policy_lines (out : list effect) : list string :=
  flat_map (fun e => match e with
                     | Print l => if startswith l "[POLICY] " then [l] else []
                     | _ => []
                     end) out.

(** The [[ACTION]] lines a call printed. *)
Definition action_lines (out : list effect) : list string :=
  flat_map (fun e => match e with
                     | Print l => if startswith l "[ACTION] " then [l] else []
                     | _ => []
                     end) out.

(** The device commands a call issued. *)
Definition shell_calls (out : list effect) : list (list string) :=
  flat_map (fun e => match e with Shell a => [a] | _ => [] end) out.

(** The states a call wrote to [state.json]. *)
Definition saved_states (out : list effect) : list State :=
  flat_map (fun e => match e with SaveState s => [s] | _ => [] end) out.

(** The lines printed before the policy is chosen. *)
Definition score_log (res : ScoreResult) : list effect :=
  Print ("[SCORE] " ++ pkg res ++ " = " ++ str_of_int (score res))
  :: map (fun r => Print ("  - " ++ r)) (reasons res).

(** The line printed when REMOVE is held back for a system-like package. *)
Definition safety_notice : effect :=
  Print "[SAFETY] system_like のため REMOVE を抑止して QUARANTINE に格下げ".

(** One call of [apply_policy] with all its arguments. *)
Record policy_call : Type := mkCall {
  call_time : string;
  call_res : ScoreResult;
  call_dry_run : bool;
  call_warn : Z;
  call_quar : Z;
  call_remove : Z;
  call_aggressive : bool
}.

(** [apply_policy] on the arguments of one call. *)
Definition apply_call (st : State) (c : policy_call) : State * list effect :=
  apply_policy st (call_time c) (call_res c) (call_dry_run c)
    (call_warn c) (call_quar c) (call_remove c) (call_aggressive c).

(** A sequence of calls, each on the state the previous one left; the
    result keeps what every call did. *)
Fixpoint run_policy (st : State) (calls : list policy_call) : State * list (list effect) :=
  match calls with
  | [] => (st, [])
  | c :: rest =>
    let '(st1, out) := apply_call st c in
    let '(st2, outs) := run_policy st1 rest in
    (st2, out :: outs)
  end.

(** The command is the one [uninstall_user0] issues. *)
Definition is_uninstall (args : list string) : bool :=
  match args with
  | a :: b :: _ => (String.eqb a "pm" && String.eqb b "uninstall")%bool
  | _ => false
  end.

(** What a step adds to the score does not depend on the score so far. *)
Definition additive (f : Z * list string -> Z * list string) : Prop :=
  forall s, fst (f s) = fst s + fst (f (0, [])).

(** The weight of a permission in the catalogue, 0 outside it. *)
Definition perm_weight (p : string) : Z :=
  match dict_get PERM_SIGNALS p with
  | Some k => k
  | None => 0
  end.

(** ** Concrete devices, states and results *)

(** A device that answers every query with nothing. *)
Definition quiet_device : Device :=
  {| get_pkg_installer := fun _ => Returned None;
     get_pkg_paths := fun _ => Returned [];
     query_launcher_presence := fun _ => Returned None;
     dumpsys_package := fun _ => Returned "";
     appops_get := fun _ => Returned "" |}.

(** A dump that requests the overlay permission and declares an
    accessibility service, from a package with no installer on record
    and no launcher entry that resolves. *)
Definition overlay_dump : string :=
  "requested permissions:" ++ String "010"%char
    ("  android.permission.SYSTEM_ALERT_WINDOW" ++ String "010"%char
       "  service: com.example/.Helper AccessibilityService").

(** The device that answers with [overlay_dump]. *)
Definition overlay_device : Device :=
  {| get_pkg_installer := fun _ => Returned None;
     get_pkg_paths := fun _ => Returned ["/data/app/org.example.app-1/base.apk"];
     query_launcher_presence := fun _ => Returned (Some false);
     dumpsys_package := fun _ => Returned overlay_dump;
     appops_get := fun _ => Returned "" |}.

(** The same package installed under the system tree. *)
Definition preinstalled_device : Device :=
  {| get_pkg_installer := fun _ => Returned None;
     get_pkg_paths := fun _ => Returned ["/system/priv-app/Helper/Helper.apk"];
     query_launcher_presence := fun _ => Returned (Some false);
     dumpsys_package := fun _ => Returned overlay_dump;
     appops_get := fun _ => Returned "" |}.

(** A state with an empty ledger, one with an entry, and results to
    apply the policy to. *)
Definition fresh_state : State := mkState (Some ∅) (Some ∅).

Definition sample_record : ActionRecord :=
  mkActionRecord "2024-05-01 10:00:00" "quarantine(dry-run)" 120 ["r"].

Definition handled_state : State :=
  mkState (Some (<["org.example.app" := sample_record]> ∅)) (Some ∅).

Definition system_result : ScoreResult :=
  mkScoreResult "org.example.app" 150 ["r"] [("system_like", VBool true)].

Definition low_result : ScoreResult :=
  mkScoreResult "org.example.app" 30 ["r"] [].

(** Three recorded events of one package. *)
Definition sample_events : gmap string (list Event) :=
  {[ "org.example.app" :=
       [mkEvent (100 # 1) "org.example.app" "org.example.app.Main" "";
        mkEvent (500 # 1) "org.example.app" "org.example.app.Main" "";
        mkEvent (900 # 1) "org.example.app" "org.example.app.Main" ""] ]}.

(** ** The evidence and the sum of the rules *)

(** The answers of the five queries, as the rules see them. *)
Record Evidence : Type := mkEvidence {
  seen_installer : option string;
  seen_paths : list string;
  seen_launcher : option bool;
  seen_dump : string;
  seen_appops : string
}.

Definition evidence (adb : Device) (p : string) : Evidence :=
  {| seen_installer := answer (get_pkg_installer adb p) None;
     seen_paths := answer (get_pkg_paths adb p) [];
     seen_launcher := answer (query_launcher_presence adb p) None;
     seen_dump := answer (dumpsys_package adb p) "";
     seen_appops := answer (appops_get adb p) "" |}.

(** What a step adds to an empty tally. *)
Definition points (f : Z * list string -> Z * list string) : Z := fst (f (0, [])).

(** What the AppOps loop adds to an empty tally, and the operations it
    finds allowed. *)
Definition appops_points (appops_txt : string) : Z :=
  fst (fst (fold_left (appops_step appops_txt) APPOPS_SIGNALS ((0, []), []))).

Definition appops_allowed_list (appops_txt : string) : list string :=
  snd (fold_left (appops_step appops_txt) APPOPS_SIGNALS ((0, []), [])).

(** The score the location rule leaves, for the score it finds. *)
Definition located (paths : list string) (base : Z) : Z :=
  fst (fst (location_rule paths (base, []) [])).

Definition seen_perms (e : Evidence) : list string :=
  if is_empty (seen_dump e) then [] else parse_requested_permissions (seen_dump e).

Definition seen_flags (e : Evidence) : dict bool :=
  if is_empty (seen_dump e) then [] else parse_behavior_text_signals (seen_dump e).

Definition overlay_evidence (e : Evidence) : bool :=
  (mem "SYSTEM_ALERT_WINDOW" (seen_perms e)
   || mem "SYSTEM_ALERT_WINDOW" (appops_allowed_list (seen_appops e)))%bool.

Definition a11y_evidence (e : Evidence) : bool :=
  (mem "BIND_ACCESSIBILITY_SERVICE" (seen_perms e)
   || (negb (is_empty (seen_dump e)) && contains "AccessibilityService" (seen_dump e)))%bool.

Definition usage_evidence (e : Evidence) : bool :=
  (mem "PACKAGE_USAGE_STATS" (seen_perms e)
   || mem "GET_USAGE_STATS" (appops_allowed_list (seen_appops e)))%bool.

(** The points of the composite rules. *)
Definition composite_points (e : Evidence) (n : Z) : Z :=
  points (launcher_rule (seen_launcher e) n)
  + (if (overlay_evidence e && a11y_evidence e)%bool then 30 else 0)
  + (if (overlay_evidence e && usage_evidence e)%bool then 15 else 0)
  + (if (flag_get (seen_flags e) "android.intent.action.USER_PRESENT"
         && not_true (seen_launcher e))%bool then 20 else 0)
  + (if (flag_get (seen_flags e) "android.intent.action.BOOT_COMPLETED"
         && overlay_evidence e)%bool then 12 else 0)
  + (if ((5 <=? n) && overlay_evidence e && not_trusted (seen_installer e))%bool
     then 15 else 0).

(** The score before the cap: what each rule yields on its own, the
    location rule acting on the frequency, name and installer points. *)
Definition score_sum (e : Evidence) (p : string) (n : Z) : Z :=
  located (seen_paths e)
    (points (freq_rule n) + points (name_rule p) + points (installer_rule (seen_installer e)))
  + points (fold_left perm_step (seen_perms e))
  + points (a11y_rule (seen_dump e) (seen_perms e))
  + appops_points (seen_appops e)
  + points (fold_left behavior_step (seen_flags e))
  + composite_points e n.

(** Every point has a reason: a positive score comes with a reason. *)
Definition explained (s : Z * list string) : Prop := 0 < fst s -> snd s <> [].

(** ** The commands of the policy *)

(** The commands of [cmd_remove], in the order it issues them;
    [cmd_quarantine] issues the first two, [force_stop] the first. *)
Definition escalation (p : string) : list (list string) :=
  [["am"; "force-stop"; p];
   ["pm"; "disable-user"; "--user"; "0"; p];
   ["pm"; "uninstall"; "--user"; "0"; p]].

(** The test of the REMOVE branch. *)
Definition remove_test (res : ScoreResult) (remove_threshold : Z) (aggressive_remove : bool)
    : bool :=
  ((remove_threshold <=? score res) && aggressive_remove
   && negb (truthy_get (details res) "system_like"))%bool.

(** The last argument of a command: the package it targets. *)
Definition target (args : list string) : string := List.last args "".

(** The text ends with the suffix. *)
Definition endswith (s sfx : string) : bool :=
  (String.length sfx <=? String.length s)%nat
  && String.eqb (drop (String.length s - String.length sfx) s) sfx.

(** ** Observations on a loop *)

(** The effects of [apply_policy] among those of a loop. *)
Definition policy_effects (out : list loop_effect) : list effect :=
  flat_map (fun e => match e with Policy x => [x] | _ => [] end) out.

(** The remediation commands a loop issued: the calls of [adb.shell]
    that [apply_policy] makes.  The queries of [score_package] are
    answers of the device in the model, not effects. *)
Definition loop_shell_calls (out : list loop_effect) : list (list string) :=
  shell_calls (policy_effects out).

(** The commands among [calls] that target the package. *)
Definition calls_on (p : string) (calls : list (list string)) : list (list string) :=
  List.filter (fun args => String.eqb (target args) p) calls.

(** No deque holds more than [DEQUE_MAXLEN] events. *)
Definition bounded (events_by_pkg : gmap string (list Event)) : Prop :=
  forall p dq, events_by_pkg !! p = Some dq -> (List.length dq <= DEQUE_MAXLEN)%nat.

(** ** Shapes of text *)

(** Every character of the text is in the class. *)
Fixpoint all_chars (f : ascii -> bool) (s : string) : bool :=
  match s with
  | EmptyString => true
  | String c t => (f c && all_chars f t)%bool
  end.

(** The text does not go on with a character of the class. *)
Definition stops (f : ascii -> bool) (rest : string) : bool :=
  match rest with
  | EmptyString => true
  | String c _ => negb (f c)
  end.

(** A name as the permission parser reports it: not empty, of capital
    letters and underscores. *)
Definition perm_name (x : string) : Prop := x <> "" /\ all_chars is_AZ_ x = true.

(** In ascending order of the code points, with no value twice. *)
Definition ascending (l : list string) : Prop :=
  Sorted (fun a b => String.leb a b = true) l /\ List.NoDup l.

(** The events of the package among [evts], in the order of arrival. *)
Definition events_of (p : string) (evts : list Event) : list Event :=
  List.filter (fun e => String.eqb (ev_pkg e) p) evts.

(** The last [n] entries of a list. *)
Definition latest {A : Type} (n : nat) (l : list A) : list A :=
  skipn (List.length l - n) l.

(** ** The sum without one rule *)

(** [score_sum] without the points of the accessibility trace. *)
Definition score_sum_without_a11y_trace (e : Evidence) (p : string) (n : Z) : Z :=
  located (seen_paths e)
    (points (freq_rule n) + points (name_rule p) + points (installer_rule (seen_installer e)))
  + points (fold_left perm_step (seen_perms e))
  + appops_points (seen_appops e)
  + points (fold_left behavior_step (seen_flags e))
  + composite_points e n.

(** The points of the composite rules but the one on frequency, overlay
    and installer. *)
Definition composite_points_without_installer (e : Evidence) (n : Z) : Z :=
  points (launcher_rule (seen_launcher e) n)
  + (if (overlay_evidence e && a11y_evidence e)%bool then 30 else 0)
  + (if (overlay_evidence e && usage_evidence e)%bool then 15 else 0)
  + (if (flag_get (seen_flags e) "android.intent.action.USER_PRESENT"
         && not_true (seen_launcher e))%bool then 20 else 0)
  + (if (flag_get (seen_flags e) "android.intent.action.BOOT_COMPLETED"
         && overlay_evidence e)%bool then 12 else 0).

(** [score_sum] without the points of that composite rule. *)
Definition score_sum_without_composite_installer (e : Evidence) (p : string) (n : Z) : Z :=
  located (seen_paths e)
    (points (freq_rule n) + points (name_rule p) + points (installer_rule (seen_installer e)))
  + points (fold_left perm_step (seen_perms e))
  + points (a11y_rule (seen_dump e) (seen_perms e))
  + appops_points (seen_appops e)
  + points (fold_left behavior_step (seen_flags e))
  + composite_points_without_installer e n.

(** The catalogue weights of the permissions of a list, [b] apart. *)
Definition weights_but (b : string) (perms : list string) : Z :=
  fold_right (fun x acc => (if String.eqb x b then 0 else perm_weight x) + acc) 0 perms.

(** ** Output of the package manager *)

(** A printable character of ASCII that is no blank. *)
Definition visible (c : ascii) : bool := between 33 126 c.

(** A line of the output of [pm path] or [pm list packages]: the value
    after [package:], or a line of another kind. *)
Definition output_line (e : bool * string) : string :=
  if fst e then "package:" ++ snd e else snd e.

(** The lines of an output, each closed by a line feed. *)
Definition listing (lines : list string) : string :=
  fold_right (fun l out => l ++ String "010"%char out) "" lines.

(** The entry is made of visible characters, and a line of another kind
    does not start like a package line. *)
Definition plain_entry (e : bool * string) : bool :=
  (all_chars visible (snd e) && (fst e || negb (startswith (snd e) "package:")))%bool.

(** ** Concrete inputs of the loops *)

(** A device whose every query raises. *)
Definition silent_device : Device :=
  {| get_pkg_installer := fun _ => Raised "timeout";
     get_pkg_paths := fun _ => Raised "timeout";
     query_launcher_presence := fun _ => Raised "timeout";
     dumpsys_package := fun _ => Raised "timeout";
     appops_get := fun _ => Raised "timeout" |}.

Definition high_result : ScoreResult :=
  mkScoreResult "org.example.app" 120 ["r"] [].

(** A line of the log as [logcat] prints it, and the event it holds. *)
Definition sample_line : string :=
  "I ActivityTaskManager: Displayed org.example.app/.Main: +350ms".

Definition sample_event (t : Z) : Event :=
  mkEvent (t # 1) "org.example.app" ".Main" sample_line.

(** The clock of an iteration that takes no time. *)
Definition sample_ticks (t : Z) : Ticks :=
  mkTicks (t # 1) (t # 1) (t # 1) "2024-05-01 10:00:00" "2024-05-01 10:00:00".

(** The tool as [AdwScan.__init__] leaves it when no state file exists. *)
Definition fresh_tool : Tool := mkTool fresh_state ∅.

(** The arguments of [cmd_auto] by default, but for the count that
    triggers an inspection, and the same outside dry-run mode. *)
Definition dry_config : AutoConfig := mkAutoConfig true 1 45 80 105 false 600.

Definition live_config : AutoConfig := mkAutoConfig false 1 45 80 105 false 600.

(** The default thresholds with the aggressive flag, outside dry-run mode. *)
Definition aggressive_config : AutoConfig := mkAutoConfig false 3 45 80 105 true 600.

(** Four events of the package, one second apart, each with the device
    that answers during its iteration. *)
Definition four_events (adb : Device) : list (string * Ticks * Device) :=
  [(sample_line, sample_ticks 1000000, adb);
   (sample_line, sample_ticks 1000001, adb);
   (sample_line, sample_ticks 1000002, adb);
   (sample_line, sample_ticks 1000003, adb)].

(** A device whose installer and AppOps queries time out. *)
Definition flaky_device : Device :=
  {| get_pkg_installer := fun _ => Raised "timeout";
     get_pkg_paths := fun _ => Returned ["/data/app/org.example.app-1/base.apk"];
     query_launcher_presence := fun _ => Returned (Some false);
     dumpsys_package := fun _ => Returned overlay_dump;
     appops_get := fun _ => Raised "timeout" |}.

(** The scoring of the package of [preinstalled_device] after ten
    displays. *)
Definition preinstalled_result : ScoreResult :=
  score_package default_allowlist preinstalled_device "2024-05-01 10:00:00"
    "org.example.app" 10.

(** The output of [pm path] for a package with a split, after a line of
    the linker. *)
Definition sample_entries : list (bool * string) :=
  [(true, "/data/app/org.example.app-1/base.apk");
   (false, "WARNING:linker");
   (true, "/data/app/org.example.app-1/split_config.en.apk")].

(** * Properties *)

(** ** Membership and the allowlist *)

Lemma mem_In (x : string) (l : list string) : mem x l = true <-> In x l.
Proof.
  unfold mem. rewrite existsb_exists. split.
  - intros [y [Hy Heq]]. apply String.eqb_eq in Heq. now subst.
  - intros H. exists x. split; [assumption | apply String.eqb_refl].
Qed.

Lemma mem_not_In (x : string) (l : list string) : mem x l = false <-> ~ In x l.
Proof.
  rewrite <- mem_In. destruct (mem x l); split; congruence.
Qed.

Lemma is_allowlisted_spec (al : Allowlist) (p : string) :
  is_allowlisted al p = true <->
  In p (exact al) \/ exists pfx, In pfx (prefixes al) /\ startswith p pfx = true.
Proof.
  unfold is_allowlisted. destruct (mem p (exact al)) eqn:E.
  - apply mem_In in E. tauto.
  - apply mem_not_In in E. rewrite existsb_exists. tauto.
Qed.

(** ** The tally only grows *)

Lemma bump_fst st pts r : fst (bump st pts r) = fst st + pts.
Proof. reflexivity. Qed.

Lemma freq_rule_grows n : grows (freq_rule n).
Proof.
  intros st. unfold freq_rule.
  repeat match goal with |- context [if ?b then _ else _] => destruct b end;
    rewrite ?bump_fst; lia.
Qed.

Lemma name_rule_grows p : grows (name_rule p).
Proof. intros st. unfold name_rule. destruct (suspicious_name p); rewrite ?bump_fst; lia. Qed.

Lemma installer_rule_grows i : grows (installer_rule i).
Proof.
  intros st. unfold installer_rule. destruct i as [i|]; [destruct (negb _)|];
    rewrite ?bump_fst; lia.
Qed.

Lemma a11y_rule_grows txt perms : grows (a11y_rule txt perms).
Proof. intros st. unfold a11y_rule. destruct (a11y_trace _ _); rewrite ?bump_fst; lia. Qed.

Lemma launcher_rule_grows l n : grows (launcher_rule l n).
Proof.
  intros st. unfold launcher_rule. destruct l as [[|]|];
    try destruct (_ <=? n); rewrite ?bump_fst; lia.
Qed.

Lemma when_rule_grows c pts r : 0 <= pts -> grows (when_rule c pts r).
Proof. intros H st. unfold when_rule. destruct c; rewrite ?bump_fst; lia. Qed.

Lemma try_get_fst {A : Type} (q : outcome A) (d : A) (l : string) (st : tally) :
  fst (snd (try_get q d l st)) = fst st.
Proof. destruct q; reflexivity. Qed.

Lemma PERM_SIGNALS_pos p pts : dict_get PERM_SIGNALS p = Some pts -> 0 < pts.
Proof.
  unfold PERM_SIGNALS. cbn [dict_get].
  repeat (destruct (String.eqb p _); [intros [= <-]; lia |]). discriminate.
Qed.

Lemma perm_step_grows p : grows (fun st => perm_step st p).
Proof.
  intros st. unfold perm_step. destruct (dict_get PERM_SIGNALS p) eqn:E; [|lia].
  apply PERM_SIGNALS_pos in E. rewrite bump_fst. lia.
Qed.

Lemma perm_fold_grows l : grows (fold_left perm_step l).
Proof.
  induction l as [|p l IH]; intros st; cbn [fold_left]; [lia|].
  etransitivity; [apply (perm_step_grows p) | apply IH].
Qed.

Lemma appops_step_grows txt acc e :
  In e APPOPS_SIGNALS -> fst (fst acc) <= fst (fst (appops_step txt acc e)).
Proof.
  intros He. unfold appops_step. destruct e as [op pts]. cbv beta iota.
  destruct (appop_allowed op txt); [|lia]. cbn [fst]. rewrite bump_fst.
  unfold APPOPS_SIGNALS in He. cbn [In] in He.
  repeat destruct He as [He|He]; try (injection He as <- <-; lia). contradiction.
Qed.

Lemma appops_fold_grows_gen txt l acc :
  incl l APPOPS_SIGNALS ->
  fst (fst acc) <= fst (fst (fold_left (appops_step txt) l acc)).
Proof.
  revert acc. induction l as [|e l IH]; intros acc Hl; cbn [fold_left]; [lia|].
  etransitivity; [apply (appops_step_grows txt acc e); apply Hl; now left |].
  apply IH. intros x Hx. apply Hl. now right.
Qed.

Lemma appops_fold_grows txt st :
  fst st <= fst (fst (fold_left (appops_step txt) APPOPS_SIGNALS (st, []))).
Proof. apply (appops_fold_grows_gen txt APPOPS_SIGNALS (st, [])). apply incl_refl. Qed.

Lemma BEHAVIOR_pos k label pts :
  dict_get BEHAVIOR_TEXT_SIGNALS k = Some (label, pts) -> 0 < pts.
Proof.
  unfold BEHAVIOR_TEXT_SIGNALS. cbn [dict_get].
  repeat (destruct (String.eqb k _); [intros [= <- <-]; lia |]). discriminate.
Qed.

Lemma behavior_step_grows e : grows (fun st => behavior_step st e).
Proof.
  intros st. unfold behavior_step. destruct (snd e); [|lia].
  destruct (dict_get _ _) as [[label pts]|] eqn:E; [|lia].
  apply BEHAVIOR_pos in E. rewrite bump_fst. lia.
Qed.

Lemma behavior_fold_grows l : grows (fold_left behavior_step l).
Proof.
  induction l as [|e l IH]; intros st; cbn [fold_left]; [lia|].
  etransitivity; [apply (behavior_step_grows e) | apply IH].
Qed.

Lemma location_rule_fst paths st d :
  fst st - 10 <= fst (fst (location_rule paths st d)) /\
  (nonneg st -> nonneg (fst (location_rule paths st d))) /\
  (existsb system_path paths = false -> fst (fst (location_rule paths st d)) = fst st).
Proof.
  unfold location_rule, nonneg. destruct (is_nil paths) eqn:En.
  - cbn [fst]. repeat split; lia.
  - destruct (existsb system_path paths); cbn [fst]; repeat split; intros; try lia; congruence.
Qed.

Lemma location_rule_cases paths st d :
  fst (fst (location_rule paths st d)) = fst st \/
  fst (fst (location_rule paths st d)) = Z.max 0 (fst st - 10).
Proof.
  unfold location_rule. destruct (is_nil paths); [now left|].
  destruct (existsb system_path paths); cbn [fst]; [now right | now left].
Qed.

(** ** Opening [score_package] *)

Lemma try_get_eq_fst {A : Type} (q : outcome A) (d a : A) (l : string) (s s' : Z * list string) :
  try_get q d l s = (a, s') -> fst s' = fst s.
Proof. intros E. rewrite <- (try_get_fst q d l s), E. reflexivity. Qed.

Lemma location_rule_eq_fst paths s d s' d' :
  location_rule paths s d = (s', d') ->
  fst s' = fst s \/ fst s' = Z.max 0 (fst s - 10).
Proof. intros E. generalize (location_rule_cases paths s d). rewrite E. exact (fun H => H). Qed.

Lemma appops_fold_eq_fst txt s s' found :
  fold_left (appops_step txt) APPOPS_SIGNALS (s, []) = (s', found) -> fst s <= fst s'.
Proof. intros E. generalize (appops_fold_grows txt s). rewrite E. exact (fun H => H). Qed.

(** Split the pairs that the steps of [score_package] return. *)
Ltac open_score :=
  unfold score_package;
  repeat match goal with
         | |- context [match ?e with pair _ _ => _ end] =>
           let E := fresh "E" in destruct e as [? ?] eqn:E; cbv beta iota
         end.

(** Walk down the chain of steps that built the tally [s] and record
    how each one moves the score. *)
Ltac score_facts s :=
  lazymatch s with
  | freq_rule ?n ?s' => pose proof (freq_rule_grows n s'); score_facts s'
  | name_rule ?p ?s' => pose proof (name_rule_grows p s'); score_facts s'
  | installer_rule ?i ?s' => pose proof (installer_rule_grows i s'); score_facts s'
  | a11y_rule ?t ?r ?s' => pose proof (a11y_rule_grows t r s'); score_facts s'
  | launcher_rule ?l ?n ?s' => pose proof (launcher_rule_grows l n s'); score_facts s'
  | when_rule ?c ?k ?r ?s' =>
    pose proof (when_rule_grows c k r ltac:(lia) s'); score_facts s'
  | fold_left perm_step ?l ?s' => pose proof (perm_fold_grows l s'); score_facts s'
  | fold_left behavior_step ?l ?s' => pose proof (behavior_fold_grows l s'); score_facts s'
  | (0, []) => idtac
  | _ =>
    lazymatch goal with
    | E : try_get _ _ _ ?s' = (_, s) |- _ =>
      pose proof (try_get_eq_fst _ _ _ _ _ _ E); score_facts s'
    | E : location_rule _ ?s' _ = (s, _) |- _ =>
      pose proof (location_rule_eq_fst _ _ _ _ _ E); score_facts s'
    | E : fold_left (appops_step _) APPOPS_SIGNALS (?s', []) = (s, _) |- _ =>
      pose proof (appops_fold_eq_fst _ _ _ _ E); score_facts s'
    end
  end.

(** ** The score stays within its bounds *)

(** C3: whatever the evidence and the recent count, the score that
    [score_package] returns lies between 0 and 180. *)
Theorem score_package_range (al : Allowlist) (adb : Device) (t p : string) (n : Z) :
  0 <= score (score_package al adb t p n) <= 180.
Proof.
  open_score. destruct (is_allowlisted al p); [cbn [score]; lia|].
  cbn [score].
  match goal with
  | |- context [180 <? fst ?s] => score_facts s; destruct (Z.ltb_spec 180 (fst s))
  end; cbn [fst] in *; lia.
Qed.

(** ** Allowlisted packages *)

(** C6: a package that matches the allowlist, by its exact name or by a
    prefix of it, scores 0 with the single reason "allowlisted",
    whatever the recent count and the rest of the evidence. *)
Theorem allowlisted_scores_zero (al : Allowlist) (adb : Device) (t p : string) (n : Z) :
  In p (exact al) \/ (exists pfx, In pfx (prefixes al) /\ startswith p pfx = true) ->
  score (score_package al adb t p n) = 0 /\
  reasons (score_package al adb t p n) = ["allowlisted"].
Proof.
  intros H. apply is_allowlisted_spec in H.
  unfold score_package. rewrite H. split; reflexivity.
Qed.

(** ** What a second call can change *)

Lemma has_key_set {V : Type} (d : dict V) (k k' : string) (v : V) :
  has_key d k -> has_key (dict_set d k' v) k.
Proof.
  unfold has_key. induction d as [|[k0 v0] d IH]; cbn [dict_get dict_set]; [congruence|].
  destruct (String.eqb k' k0) eqn:E'; cbn [dict_get];
    destruct (String.eqb k k0); auto; congruence.
Qed.

Lemma retime_set (t : string) (d : dict pyval) (k : string) (v : pyval) :
  has_key d "time" -> String.eqb k "time" = false ->
  retime t (dict_set d k v) = dict_set (retime t d) k v.
Proof.
  unfold retime, has_key. intros Hd Hk.
  induction d as [|[k0 v0] d IH]; cbn [dict_get dict_set] in *; [congruence|].
  destruct (String.eqb k k0) eqn:Ek, (String.eqb "time" k0) eqn:Et;
    cbn [dict_set]; rewrite ?Ek, ?Et; try reflexivity.
  - apply String.eqb_eq in Ek, Et. subst. rewrite String.eqb_refl in Hk. discriminate.
  - f_equal. apply IH. exact Hd.
Qed.

Lemma retimed_set t d1 d2 k v :
  String.eqb k "time" = false -> retimed t d1 d2 ->
  retimed t (dict_set d1 k v) (dict_set d2 k v).
Proof.
  intros Hk [Hd ->]. split; [now apply has_key_set|].
  symmetry. now apply retime_set.
Qed.

Lemma location_rule_fst_indep paths st d d' :
  fst (location_rule paths st d) = fst (location_rule paths st d').
Proof.
  unfold location_rule. destruct (is_nil paths); [reflexivity|].
  destruct (existsb system_path paths); reflexivity.
Qed.

Lemma location_rule_retimed t paths st d1 d2 :
  retimed t d1 d2 ->
  retimed t (snd (location_rule paths st d1)) (snd (location_rule paths st d2)).
Proof.
  intros H. unfold location_rule. destruct (is_nil paths); [exact H|].
  destruct (existsb user_path paths), (existsb system_path paths); cbn [snd];
    repeat (apply retimed_set; [reflexivity|]); exact H.
Qed.

Lemma pair_eta {A B : Type} (e : A * B) : e = (fst e, snd e).
Proof. destruct e; reflexivity. Qed.

(** C1, as the code has it: two calls of [score_package] on the same
    evidence and the same recent count return the same package, the
    same score and the same reasons in the same order, and the same
    [details] but for the entry ["time"], which holds the clock reading
    of each call. *)
Theorem score_package_repeatable (al : Allowlist) (adb : Device) (t1 t2 p : string) (n : Z) :
  let r1 := score_package al adb t1 p n in
  let r2 := score_package al adb t2 p n in
  pkg r1 = pkg r2 /\ score r1 = score r2 /\ reasons r1 = reasons r2 /\
  details r1 = dict_set (details r2) "time" (VStr t1).
Proof.
  cbv zeta. unfold score_package.
  destruct (is_allowlisted al p); [repeat split; reflexivity|].
  repeat match goal with
         | |- context [try_get ?q ?d ?l ?s] =>
           lazymatch goal with
           | |- context [match try_get q d l s with pair _ _ => _ end] =>
             destruct (try_get q d l s) as [? ?]; cbv beta iota
           end
         end.
  repeat match goal with
         | |- context [location_rule ?ps ?s ?d] =>
           lazymatch goal with
           | |- context [match location_rule ps s d with pair _ _ => _ end] =>
             rewrite (pair_eta (location_rule ps s d)); cbv beta iota
           end
         end.
  match goal with
  | |- context [fst (location_rule ?ps ?s ?d1)] =>
    match goal with
    | |- context [fst (location_rule ps s ?d2)] =>
      lazymatch d1 with d2 => fail | _ => idtac end;
      rewrite (location_rule_fst_indep ps s d1 d2)
    end
  end.
  repeat match goal with
         | |- context [match ?e with pair _ _ => _ end] =>
           destruct e as [? ?]; cbv beta iota
         end.
  cbn [pkg score reasons details].
  repeat split.
  refine (proj2 (_ : retimed t1 _ _)).
  match goal with |- context [is_empty ?x] => destruct (is_empty x) end;
    repeat (apply retimed_set; [reflexivity|]);
    apply location_rule_retimed;
    repeat (apply retimed_set; [reflexivity|]);
    (split; [cbn; discriminate | reflexivity]).
Qed.

(** C1 as stated fails: the same evidence, read at two different clock
    seconds, gives two results whose [details] differ. *)
Lemma score_package_details_differ :
  details (score_package default_allowlist quiet_device "2024-05-01 10:00:00"
             "org.example.app" 0)
  <> details (score_package default_allowlist quiet_device "2024-05-01 10:00:01"
                "org.example.app" 0) /\
  score_package default_allowlist quiet_device "2024-05-01 10:00:00" "org.example.app" 0
  <> score_package default_allowlist quiet_device "2024-05-01 10:00:01" "org.example.app" 0.
Proof. split; vm_compute; discriminate. Qed.

(** ** Where a reason comes from *)

Lemma try_get_answer {A : Type} (q : outcome A) (d a : A) (l : string)
    (s s' : Z * list string) :
  try_get q d l s = (a, s') -> a = answer q d.
Proof. destruct q; cbn; congruence. Qed.

Lemma startswith_app (pfx x : string) : startswith (pfx ++ x) pfx = true.
Proof.
  unfold startswith. induction pfx as [|c pfx IH]; [destruct x; reflexivity|].
  change (String.prefix (String c pfx) (String c (pfx ++ x)) = true).
  cbn [String.prefix]. destruct (ascii_dec c c); [exact IH | congruence].
Qed.

Lemma startswith_refl (s : string) : startswith s s = true.
Proof.
  unfold startswith. induction s as [|c s IH]; [reflexivity|].
  cbn [String.prefix]. destruct (ascii_dec c c); [exact IH | congruence].
Qed.

Lemma append_inj_r (a x y : string) : a ++ x = a ++ y -> x = y.
Proof.
  induction a as [|c a IH]; [exact (fun H => H)|].
  change (String c (a ++ x) = String c (a ++ y) -> x = y). intros [= H]. auto.
Qed.

Lemma adds_refl pfxs s : adds pfxs s s.
Proof. exists []. split; [now rewrite app_nil_r | intros r []]. Qed.

Lemma adds_trans pfxs s1 s2 s3 : adds pfxs s1 s2 -> adds pfxs s2 s3 -> adds pfxs s1 s3.
Proof.
  intros [o1 [E1 H1]] [o2 [E2 H2]]. exists (o1 ++ o2)%list. split.
  - rewrite E2, E1. now rewrite app_assoc.
  - intros r Hr. apply in_app_or in Hr. destruct Hr; auto.
Qed.

Lemma adds_note pfxs s r : tagged pfxs r = true -> adds pfxs s (note s r).
Proof. intros H. exists [r]. split; [reflexivity|]. intros x [<-|[]]. exact H. Qed.

Lemma adds_bump pfxs s k r : tagged pfxs r = true -> adds pfxs s (bump s k r).
Proof. intros H. exists [r]. split; [reflexivity|]. intros x [<-|[]]. exact H. Qed.

Lemma adds_fold {X : Type} pfxs (step : Z * list string -> X -> Z * list string) l :
  (forall s x, adds pfxs s (step s x)) -> forall s, adds pfxs s (fold_left step l s).
Proof.
  intros H. induction l as [|x l IH]; intros s; cbn [fold_left]; [apply adds_refl|].
  eapply adds_trans; [apply H | apply IH].
Qed.

Lemma adds_skip pfxs s s' r0 :
  adds pfxs s s' -> tagged pfxs r0 = false -> (In r0 (snd s') <-> In r0 (snd s)).
Proof.
  intros [out [E H]] Hr. rewrite E, in_app_iff. split; [|tauto].
  intros [?|Hin]; [assumption|]. apply H in Hin. congruence.
Qed.

Ltac by_cases_adds :=
  repeat match goal with
         | |- context [if ?b then _ else _] => destruct b
         | |- context [match ?o with Some _ => _ | None => _ end] => destruct o
         end;
  first [ apply adds_refl | apply adds_bump; reflexivity ].

Lemma freq_rule_adds n s : adds ["front-display"] s (freq_rule n s).
Proof. unfold freq_rule. by_cases_adds. Qed.

Lemma name_rule_adds p s : adds ["パッケージ名"] s (name_rule p s).
Proof. unfold name_rule. by_cases_adds. Qed.

Lemma installer_rule_adds i s :
  adds ["インストーラ不明"; "非標準/未知のインストーラ"] s (installer_rule i s).
Proof. unfold installer_rule. destruct i as [i|]; by_cases_adds. Qed.

Lemma a11y_rule_adds t perms s :
  adds ["AccessibilityService 定義の痕跡"] s (a11y_rule t perms s).
Proof. unfold a11y_rule. by_cases_adds. Qed.

Lemma launcher_rule_adds l n s : adds ["ランチャー"] s (launcher_rule l n s).
Proof. unfold launcher_rule. destruct l as [[|]|]; by_cases_adds. Qed.

Lemma when_rule_adds c k r s : adds [r] s (when_rule c k r s).
Proof.
  unfold when_rule. destruct c; [|apply adds_refl].
  apply adds_bump. cbn. now rewrite startswith_refl.
Qed.

Lemma perm_fold_adds l s : adds ["権限シグナル"] s (fold_left perm_step l s).
Proof. apply adds_fold. intros s' x. unfold perm_step. by_cases_adds. Qed.

Lemma behavior_fold_adds l s : adds ["挙動シグナル"] s (fold_left behavior_step l s).
Proof.
  apply adds_fold. intros s' x. unfold behavior_step.
  destruct (snd x); [|apply adds_refl].
  destruct (dict_get _ _) as [[label pts]|]; [|apply adds_refl].
  apply adds_bump. reflexivity.
Qed.

Lemma try_get_adds {A : Type} (q : outcome A) (d a : A) (l : string) s s' :
  try_get q d l s = (a, s') -> adds [l] s s'.
Proof.
  destruct q as [x|ex]; cbn; intros [= _ <-]; [apply adds_refl|].
  apply adds_note. cbn. now rewrite startswith_app.
Qed.

Lemma location_rule_adds paths s d s' d' :
  location_rule paths s d = (s', d') -> adds ["システム領域アプリ"] s s'.
Proof.
  unfold location_rule. destruct (is_nil paths); [intros [= <- _]; apply adds_refl|].
  destruct (existsb system_path paths); intros [= <- _]; [|apply adds_refl].
  exists ["システム領域アプリの可能性（自動削除は慎重）"]. split; [reflexivity|].
  intros r [<-|[]]. reflexivity.
Qed.

Lemma appops_fold_adds_gen txt l acc :
  adds ["AppOps許可"] (fst acc) (fst (fold_left (appops_step txt) l acc)).
Proof.
  revert acc. induction l as [|[op pts] l IH]; intros acc; cbn [fold_left]; [apply adds_refl|].
  eapply adds_trans; [|apply IH].
  unfold appops_step. destruct (appop_allowed op txt); [|apply adds_refl].
  cbn [fst]. apply adds_bump. reflexivity.
Qed.

Lemma appops_fold_adds txt s s' found :
  fold_left (appops_step txt) APPOPS_SIGNALS (s, []) = (s', found) ->
  adds ["AppOps許可"] s s'.
Proof.
  intros E. generalize (appops_fold_adds_gen txt APPOPS_SIGNALS (s, [])).
  rewrite E. exact (fun H => H).
Qed.

(** One step down the chain of tallies for a reason [r0] that the step
    cannot have appended. *)
Ltac skip_step :=
  lazymatch goal with
  | |- In ?r0 (snd ?S) <-> _ =>
    lazymatch S with
    | freq_rule ?n ?s =>
      refine (iff_trans (adds_skip _ _ _ r0 (freq_rule_adds n s) eq_refl) _)
    | name_rule ?p ?s =>
      refine (iff_trans (adds_skip _ _ _ r0 (name_rule_adds p s) eq_refl) _)
    | installer_rule ?i ?s =>
      refine (iff_trans (adds_skip _ _ _ r0 (installer_rule_adds i s) eq_refl) _)
    | a11y_rule ?t ?ps ?s =>
      refine (iff_trans (adds_skip _ _ _ r0 (a11y_rule_adds t ps s) eq_refl) _)
    | launcher_rule ?l ?n ?s =>
      refine (iff_trans (adds_skip _ _ _ r0 (launcher_rule_adds l n s) eq_refl) _)
    | when_rule ?c ?k ?r ?s =>
      refine (iff_trans (adds_skip _ _ _ r0 (when_rule_adds c k r s) eq_refl) _)
    | fold_left perm_step ?l ?s =>
      refine (iff_trans (adds_skip _ _ _ r0 (perm_fold_adds l s) eq_refl) _)
    | fold_left behavior_step ?l ?s =>
      refine (iff_trans (adds_skip _ _ _ r0 (behavior_fold_adds l s) eq_refl) _)
    | _ =>
      lazymatch goal with
      | E : try_get _ _ _ _ = (_, S) |- _ =>
        refine (iff_trans (adds_skip _ _ _ r0 (try_get_adds _ _ _ _ _ _ E) eq_refl) _)
      | E : location_rule _ _ _ = (S, _) |- _ =>
        refine (iff_trans (adds_skip _ _ _ r0 (location_rule_adds _ _ _ _ _ E) eq_refl) _)
      | E : fold_left (appops_step _) APPOPS_SIGNALS (_, []) = (S, _) |- _ =>
        refine (iff_trans (adds_skip _ _ _ r0 (appops_fold_adds _ _ _ _ E) eq_refl) _)
      end
    end
  end.

(** No step below [S] appended [r0]. *)
Ltac never_added := repeat skip_step; cbn [snd In]; tauto.

Lemma when_rule_hit c k r s :
  In r (snd (when_rule c k r s)) <-> In r (snd s) \/ c = true.
Proof.
  unfold when_rule. destruct c; cbn [bump snd].
  - rewrite in_app_iff. cbn [In]. tauto.
  - split; [tauto|]. intros [?|?]; [assumption | discriminate].
Qed.

Lemma a11y_rule_hit t perms s :
  In "AccessibilityService 定義の痕跡 (+15)" (snd (a11y_rule t perms s)) <->
  In "AccessibilityService 定義の痕跡 (+15)" (snd s) \/ a11y_trace t perms = true.
Proof.
  unfold a11y_rule. destruct (a11y_trace t perms); cbn [bump snd].
  - rewrite in_app_iff. cbn [In]. tauto.
  - split; [tauto|]. intros [?|?]; [assumption | discriminate].
Qed.

Lemma requested_perms_eq (s : string) :
  (if is_empty s then [] else parse_requested_permissions s) = parse_requested_permissions s.
Proof. destruct s; reflexivity. Qed.

Lemma appops_found_spec txt s s' found :
  fold_left (appops_step txt) APPOPS_SIGNALS (s, []) = (s', found) ->
  mem "SYSTEM_ALERT_WINDOW" found = appop_allowed "SYSTEM_ALERT_WINDOW" txt.
Proof.
  unfold APPOPS_SIGNALS. cbn [fold_left]. unfold appops_step.
  destruct (appop_allowed "SYSTEM_ALERT_WINDOW" txt),
           (appop_allowed "GET_USAGE_STATS" txt),
           (appop_allowed "REQUEST_INSTALL_PACKAGES" txt);
    cbn [fst snd]; intros [= _ <-]; reflexivity.
Qed.

(** ** The parsed permission set *)

Lemma set_add_In x y s : In y (set_add x s) <-> y = x \/ In y s.
Proof.
  unfold set_add. destruct (mem x s) eqn:E; cbn [In]; [|intuition congruence].
  apply mem_In in E. intuition congruence.
Qed.

Lemma insert_sorted_In x y l : In y (insert_sorted x l) <-> y = x \/ In y l.
Proof.
  induction l as [|z l IH]; cbn [insert_sorted In]; [intuition congruence|].
  destruct (String.leb x z); cbn [In]; rewrite ?IH; intuition congruence.
Qed.

Lemma sorted_In y l : In y (sorted l) <-> In y l.
Proof.
  unfold sorted. induction l as [|x l IH]; cbn [fold_right In]; [tauto|].
  rewrite insert_sorted_In, IH. intuition congruence.
Qed.

(** The literal [BIND_ACCESSIBILITY_SERVICE] anywhere in the dump puts
    the permission in the parsed set. *)
Lemma bind_forced (dump : string) :
  contains "BIND_ACCESSIBILITY_SERVICE" dump = true ->
  In "BIND_ACCESSIBILITY_SERVICE" (parse_requested_permissions dump).
Proof.
  intros H. unfold parse_requested_permissions. rewrite H.
  apply sorted_In, set_add_In. now left.
Qed.

Lemma contains_nonempty needle s :
  needle <> "" -> contains needle s = true -> is_empty s = false.
Proof. destruct s; [|reflexivity]. destruct needle; [congruence | discriminate]. Qed.

Lemma perm_step_hit s x :
  In "権限シグナル: BIND_ACCESSIBILITY_SERVICE (+35)" (snd (perm_step s x)) <->
  In "権限シグナル: BIND_ACCESSIBILITY_SERVICE (+35)" (snd s)
  \/ x = "BIND_ACCESSIBILITY_SERVICE".
Proof.
  unfold perm_step, PERM_SIGNALS. cbn [dict_get].
  repeat match goal with
         | |- context [String.eqb x ?k] =>
           destruct (String.eqb_spec x k);
             [subst x; cbn [bump snd]; rewrite in_app_iff; cbn [In];
              split; [intros [?|[?|[]]]; [now left | try discriminate; now right]
                     | intros [?|?]; [now left | try discriminate; right; now left]]
             |]
         end.
  tauto.
Qed.

Lemma perm_fold_hit l s :
  In "権限シグナル: BIND_ACCESSIBILITY_SERVICE (+35)" (snd (fold_left perm_step l s)) <->
  In "権限シグナル: BIND_ACCESSIBILITY_SERVICE (+35)" (snd s)
  \/ In "BIND_ACCESSIBILITY_SERVICE" l.
Proof.
  revert s. induction l as [|x l IH]; intros s; cbn [fold_left In]; [tauto|].
  rewrite IH, perm_step_hit. intuition congruence.
Qed.

Lemma a11y_trace_spec (dump : string) :
  a11y_trace dump (parse_requested_permissions dump) = true <->
  contains "AccessibilityService" dump = true /\
  ~ In "BIND_ACCESSIBILITY_SERVICE" (parse_requested_permissions dump).
Proof.
  unfold a11y_trace. rewrite <- mem_not_In.
  destruct (contains "AccessibilityService" dump) eqn:Hc.
  - rewrite (contains_nonempty "AccessibilityService" dump ltac:(discriminate) Hc).
    destruct (mem _ _); cbn; intuition congruence.
  - rewrite andb_false_r. cbn. intuition congruence.
Qed.

(** ** The accessibility trace *)

Ltac dump_answer adb p :=
  match goal with
  | E : try_get (dumpsys_package adb p) _ _ _ = _ |- _ =>
    apply try_get_answer in E; rewrite <- E
  end.

(** The reasons of the accessibility rules: the reason of the trace is
    recorded exactly when the dump holds "AccessibilityService" and
    BIND_ACCESSIBILITY_SERVICE is not in the parsed permission set; that
    set holds the permission whenever its literal occurs in the dump; so
    the reason of the permission weight, recorded exactly when the set
    holds the permission, and that of the trace never come together. *)
Lemma a11y_trace_reasons (al : Allowlist) (adb : Device) (t p : string) (n : Z) :
  is_allowlisted al p = false ->
  let dump := answer (dumpsys_package adb p) "" in
  let res := score_package al adb t p n in
  (In "AccessibilityService 定義の痕跡 (+15)" (reasons res) <->
   contains "AccessibilityService" dump = true /\
   ~ In "BIND_ACCESSIBILITY_SERVICE" (parse_requested_permissions dump)) /\
  (contains "BIND_ACCESSIBILITY_SERVICE" dump = true ->
   In "BIND_ACCESSIBILITY_SERVICE" (parse_requested_permissions dump)) /\
  ~ (In "権限シグナル: BIND_ACCESSIBILITY_SERVICE (+35)" (reasons res) /\
     In "AccessibilityService 定義の痕跡 (+15)" (reasons res)) /\
  (In "権限シグナル: BIND_ACCESSIBILITY_SERVICE (+35)" (reasons res) <->
   In "BIND_ACCESSIBILITY_SERVICE" (parse_requested_permissions dump)).
Proof.
  intros Hal dump res.
  assert (Hbonus :
    In "AccessibilityService 定義の痕跡 (+15)" (reasons res) <->
    contains "AccessibilityService" dump = true /\
    ~ In "BIND_ACCESSIBILITY_SERVICE" (parse_requested_permissions dump)).
  { subst res dump. open_score. rewrite Hal. cbn [reasons].
    repeat skip_step.
    refine (iff_trans (a11y_rule_hit _ _ _) _).
    match goal with
    | |- In ?r0 (snd ?S) \/ _ <-> _ =>
      assert (Hno : In r0 (snd S) <-> False) by never_added
    end.
    rewrite Hno. clear Hno. dump_answer adb p.
    rewrite requested_perms_eq, a11y_trace_spec. tauto. }
  assert (Hweight :
    In "権限シグナル: BIND_ACCESSIBILITY_SERVICE (+35)" (reasons res) <->
    In "BIND_ACCESSIBILITY_SERVICE" (parse_requested_permissions dump)).
  { subst res dump. open_score. rewrite Hal. cbn [reasons].
    repeat skip_step.
    refine (iff_trans (perm_fold_hit _ _) _).
    match goal with
    | |- In ?r0 (snd ?S) \/ _ <-> _ =>
      assert (Hno : In r0 (snd S) <-> False) by never_added
    end.
    rewrite Hno. clear Hno. dump_answer adb p.
    rewrite requested_perms_eq. tauto. }
  split; [exact Hbonus|]. split; [apply bind_forced|].
  split; [rewrite Hbonus, Hweight; tauto | exact Hweight].
Qed.

(** ** The installer in the composite rule *)

Lemma installer_rule_hit i o s :
  In ("非標準/未知のインストーラ: " ++ i) (snd (installer_rule o s)) <->
  In ("非標準/未知のインストーラ: " ++ i) (snd s)
  \/ (o = Some i /\ mem i trusted_installers = false).
Proof.
  unfold installer_rule. destruct o as [j|].
  - destruct (mem j trusted_installers) eqn:Ej; cbn [negb bump snd].
    + split; [tauto|]. intros [?|[[= ->] ?]]; [assumption | congruence].
    + rewrite in_app_iff. cbn [In]. split.
      * intros [?|[H|[]]]; [now left|]. apply append_inj_r in H. subst j. now right.
      * intros [?|[[= ->] _]]; [now left|]. right. now left.
  - cbn [bump snd]. rewrite in_app_iff. cbn [In]. split.
    + intros [?|[H|[]]]; [now left | discriminate H].
    + intros [?|[? _]]; [now left | discriminate].
Qed.

(** Read the gathered values as the answers of the device. *)
Ltac read_answers :=
  repeat match goal with
         | E : try_get _ _ _ _ = (?a, _) |- _ => apply try_get_answer in E; subst a
         end.

(** The reasons of the installer rules: the composite reason for high
    frequency, overlay and a non-standard installer is recorded exactly
    when the recent count is at least 5, overlay evidence is present and
    the installer is not in the trusted set; an installer that could not
    be determined counts as not trusted there, although the base rule
    for a known but untrusted installer does not fire for it, while
    every installer that fires the base rule also meets the composite
    test. *)
Lemma composite_installer_reasons (al : Allowlist) (adb : Device) (t p : string) (n : Z) :
  is_allowlisted al p = false ->
  let installer := answer (get_pkg_installer adb p) None in
  let dump := answer (dumpsys_package adb p) "" in
  let appops := answer (appops_get adb p) "" in
  let overlay :=
    (mem "SYSTEM_ALERT_WINDOW" (parse_requested_permissions dump)
     || appop_allowed "SYSTEM_ALERT_WINDOW" appops)%bool in
  let res := score_package al adb t p n in
  (In "高頻度前面表示 + 非標準インストーラ + overlay" (reasons res) <->
   5 <= n /\ overlay = true /\ not_trusted installer = true) /\
  (installer = None -> 5 <= n -> overlay = true ->
   In "高頻度前面表示 + 非標準インストーラ + overlay" (reasons res)) /\
  (forall i, In ("非標準/未知のインストーラ: " ++ i) (reasons res) <->
             installer = Some i /\ mem i trusted_installers = false) /\
  (forall i, In ("非標準/未知のインストーラ: " ++ i) (reasons res) ->
             not_trusted installer = true) /\
  (installer = None ->
   not_trusted installer = true /\
   forall i, ~ In ("非標準/未知のインストーラ: " ++ i) (reasons res)).
Proof.
  intros Hal installer dump appops overlay res.
  assert (Hcomp :
    In "高頻度前面表示 + 非標準インストーラ + overlay" (reasons res) <->
    5 <= n /\ overlay = true /\ not_trusted installer = true).
  { subst res overlay installer dump appops. open_score. rewrite Hal. cbn [reasons].
    refine (iff_trans (when_rule_hit _ _ _ _) _).
    match goal with
    | |- In ?r0 (snd ?S) \/ _ <-> _ =>
      assert (Hno : In r0 (snd S) <-> False) by never_added
    end.
    rewrite Hno. clear Hno.
    match goal with
    | E : fold_left (appops_step _) _ _ = _ |- _ =>
      rewrite (appops_found_spec _ _ _ _ E); clear E
    end.
    read_answers. rewrite requested_perms_eq, !andb_true_iff, Z.leb_le. tauto. }
  assert (Hbase : forall i,
    In ("非標準/未知のインストーラ: " ++ i) (reasons res) <->
    installer = Some i /\ mem i trusted_installers = false).
  { intros i. subst res overlay installer dump appops. open_score. rewrite Hal.
    cbn [reasons]. repeat skip_step.
    refine (iff_trans (installer_rule_hit _ _ _) _).
    match goal with
    | |- In ?r0 (snd ?S) \/ _ <-> _ =>
      assert (Hno : In r0 (snd S) <-> False) by never_added
    end.
    rewrite Hno. clear Hno. read_answers. tauto. }
  split; [exact Hcomp|]. split.
  { intros Hi Hn Ho. apply Hcomp. rewrite Hi. auto. }
  split; [exact Hbase|]. split.
  { intros i Hi. apply Hbase in Hi. destruct Hi as [-> Hi]. unfold not_trusted. now rewrite Hi. }
  intros Hi. split; [now rewrite Hi|].
  intros i Hin. apply Hbase in Hin. destruct Hin as [Hin _]. congruence.
Qed.

(** ** Observing a run of the policy *)

Lemma ledger_setdefault st : ledger (setdefault_actioned st) = ledger st.
Proof. destruct st as [[m|] l]; reflexivity. Qed.

Lemma setdefault_present st : actioned st <> None -> setdefault_actioned st = st.
Proof. destruct st as [[m|] l]; cbn; [reflexivity | congruence]. Qed.

Lemma ledger_lookup_present st p r : ledger st !! p = Some r -> actioned st <> None.
Proof.
  destruct st as [[m|] l]; cbn; [discriminate|].
  rewrite lookup_empty. discriminate.
Qed.

Lemma ledger_record st p r : ledger (record_action st p r) = <[p := r]> (ledger st).
Proof. reflexivity. Qed.

Lemma reason_lines_quiet (rs : list string) :
  policy_lines (map (fun r => Print ("  - " ++ r)) rs) = [] /\
  action_lines (map (fun r => Print ("  - " ++ r)) rs) = [] /\
  shell_calls (map (fun r => Print ("  - " ++ r)) rs) = [] /\
  saved_states (map (fun r => Print ("  - " ++ r)) rs) = [].
Proof.
  induction rs as [|r rs [H1 [H2 [H3 H4]]]]; [repeat split|].
  cbn [map]. unfold policy_lines, action_lines, shell_calls, saved_states in *.
  cbn [flat_map]. rewrite H1, H2, H3, H4. repeat split.
Qed.

Lemma score_log_quiet (res : ScoreResult) :
  policy_lines (score_log res) = [] /\ action_lines (score_log res) = [] /\
  shell_calls (score_log res) = [] /\ saved_states (score_log res) = [].
Proof.
  destruct (reason_lines_quiet (reasons res)) as [H1 [H2 [H3 H4]]].
  unfold score_log, policy_lines, action_lines, shell_calls, saved_states in *.
  cbn [flat_map]. rewrite H1, H2, H3, H4. repeat split.
Qed.

Lemma commands_quiet (p : string) (dry_run : bool) :
  policy_lines (force_stop p dry_run) = [] /\
  policy_lines (cmd_quarantine p dry_run) = [] /\
  policy_lines (cmd_remove p dry_run) = [].
Proof. destruct dry_run; repeat split. Qed.

Lemma policy_lines_app a b : policy_lines (a ++ b) = (policy_lines a ++ policy_lines b)%list.
Proof. apply flat_map_app. Qed.

Lemma shell_calls_app a b : shell_calls (a ++ b) = (shell_calls a ++ shell_calls b)%list.
Proof. apply flat_map_app. Qed.

Lemma action_lines_app a b : action_lines (a ++ b) = (action_lines a ++ action_lines b)%list.
Proof. apply flat_map_app. Qed.

Lemma saved_states_app a b : saved_states (a ++ b) = (saved_states a ++ saved_states b)%list.
Proof. apply flat_map_app. Qed.

(** ** Handled packages *)

Lemma apply_policy_skip st now res dry warn quar remove aggr r :
  ledger st !! pkg res = Some r ->
  apply_policy st now res dry warn quar remove aggr = (st, [PrintSkip (pkg res) r]).
Proof.
  intros H. unfold apply_policy.
  rewrite (setdefault_present st (ledger_lookup_present _ _ _ H)), H. reflexivity.
Qed.

Lemma apply_policy_keeps st now res dry warn quar remove aggr p r :
  ledger st !! p = Some r ->
  ledger (fst (apply_policy st now res dry warn quar remove aggr)) !! p = Some r.
Proof.
  intros H. unfold apply_policy.
  rewrite (setdefault_present st (ledger_lookup_present _ _ _ H)).
  destruct (ledger st !! pkg res) eqn:E; [exact H|].
  assert (Hne : pkg res <> p) by congruence.
  unfold act.
  repeat match goal with
         | |- context [if ?b then _ else _] => destruct b
         end; cbn [fst]; rewrite ?ledger_record, ?lookup_insert_ne; auto.
Qed.

(** C4: once a package has an entry in the ledger, every later call of
    [apply_policy] for it, whatever the score and the thresholds, prints
    the skip line and nothing else and leaves the state as it was; no
    call for any package removes the entry, so this holds along every
    sequence of calls. *)
Theorem handled_package_is_skipped (st : State) (p : string) (r : ActionRecord) :
  ledger st !! p = Some r ->
  (forall now res dry warn quar remove aggr,
      pkg res = p ->
      apply_policy st now res dry warn quar remove aggr = (st, [PrintSkip p r])) /\
  (forall calls,
      ledger (fst (run_policy st calls)) !! p = Some r /\
      Forall2 (fun c out => pkg (call_res c) = p -> out = [PrintSkip p r])
              calls (snd (run_policy st calls))).
Proof.
  intros H. split.
  - intros now res dry warn quar remove aggr <-. now apply apply_policy_skip.
  - intros calls. revert st H. induction calls as [|c calls IH]; intros st H.
    + split; [exact H | constructor].
    + cbn [run_policy].
      destruct (apply_call st c) as [st1 out] eqn:E1.
      assert (H1 : ledger st1 !! p = Some r).
      { replace st1 with (fst (apply_call st c)) by now rewrite E1.
        apply apply_policy_keeps, H. }
      specialize (IH st1 H1).
      destruct (run_policy st1 calls) as [st2 outs]. cbn [fst snd] in *.
      split; [apply IH|]. constructor; [|apply IH].
      intros Hp. unfold apply_call in E1. rewrite <- Hp in *.
      rewrite (apply_policy_skip _ _ _ _ _ _ _ _ _ H) in E1. congruence.
Qed.

(** ** Below the warning threshold *)

(** C7: for a package without a ledger entry and a score below
    [warn_threshold], [apply_policy] prints the score, the reasons and
    the record-only notice, issues no command, writes nothing, and
    leaves the ledger as it was, the package still without an entry. *)
Theorem below_warn_only_records (st : State) (now : string) (res : ScoreResult)
    (dry : bool) (warn quar remove : Z) (aggr : bool) :
  ledger st !! pkg res = None ->
  score res < warn ->
  let result := apply_policy st now res dry warn quar remove aggr in
  snd result = (score_log res ++ [Print "[POLICY] 記録のみ"])%list /\
  shell_calls (snd result) = [] /\
  action_lines (snd result) = [] /\
  saved_states (snd result) = [] /\
  ledger (fst result) = ledger st /\
  ledger (fst result) !! pkg res = None /\
  (actioned st <> None -> fst result = st).
Proof.
  intros Hnew Hlow result. subst result. unfold apply_policy.
  rewrite ledger_setdefault, Hnew.
  destruct (Z.ltb_spec (score res) warn) as [_|Hge]; [|lia].
  fold (score_log res). cbn [fst snd].
  destruct (score_log_quiet res) as [_ [H2 [H3 H4]]].
  rewrite shell_calls_app, action_lines_app, saved_states_app, H2, H3, H4.
  rewrite ledger_setdefault.
  repeat split; try assumption. apply setdefault_present.
Qed.

(** ** The safety override *)

Lemma act_observed st now res dry label name cmds log :
  policy_lines log = [] -> policy_lines cmds = [] ->
  let result := act st now res dry label name cmds log in
  policy_lines (snd result) = ["[POLICY] " ++ label] /\
  shell_calls (snd result) = (shell_calls log ++ shell_calls cmds)%list /\
  action_lines (snd result) = (action_lines log ++ action_lines cmds)%list /\
  ledger (fst result) !! pkg res =
    Some (mkActionRecord now (action_name name dry) (score res) (reasons res)).
Proof.
  intros Hl Hc. unfold act. cbn [fst snd].
  rewrite !policy_lines_app, !shell_calls_app, !action_lines_app, Hl, Hc.
  rewrite ledger_record, lookup_insert_eq.
  unfold policy_lines at 1, action_lines at 2. cbn [flat_map].
  rewrite startswith_app.
  replace (startswith ("[POLICY] " ++ label) "[ACTION] ") with false
    by (destruct label; reflexivity).
  cbn [app]. rewrite !app_nil_r. repeat split.
Qed.

Lemma safety_log_quiet res :
  policy_lines (score_log res ++ [safety_notice]) = [] /\
  shell_calls (score_log res ++ [safety_notice]) = [] /\
  action_lines (score_log res ++ [safety_notice]) = [].
Proof.
  destruct (score_log_quiet res) as [H1 [H2 [H3 _]]].
  rewrite policy_lines_app, shell_calls_app, action_lines_app, H1, H2, H3.
  repeat split.
Qed.

Ltac in_cases tac :=
  let x := fresh "x" in
  let H := fresh "H" in
  cbn; intros x H; repeat (destruct H as [<-|H]; [tac|]); destruct H.

(** A result marked [system_like] with a score of at least
    [remove_threshold]: no branch announces REMOVE or uninstalls; the
    quarantine branch is the one taken when the package has no ledger
    entry and the score reaches [warn_threshold] and [quar_threshold]. *)
Lemma system_like_cases (st : State) (now : string) (res : ScoreResult)
    (dry : bool) (warn quar remove : Z) (aggr : bool) :
  truthy_get (details res) "system_like" = true ->
  remove <= score res ->
  let result := apply_policy st now res dry warn quar remove aggr in
  ~ In "[POLICY] REMOVE" (policy_lines (snd result)) /\
  (forall args, In args (shell_calls (snd result)) -> is_uninstall args = false) /\
  (forall l, In l (action_lines (snd result)) -> startswith l "[ACTION] uninstall" = false) /\
  (ledger st !! pkg res = None -> warn <= score res -> quar <= score res ->
   policy_lines (snd result) = ["[POLICY] QUARANTINE"] /\
   In safety_notice (snd result) /\
   shell_calls (snd result) = shell_calls (cmd_quarantine (pkg res) dry) /\
   action_lines (snd result) = action_lines (cmd_quarantine (pkg res) dry) /\
   ledger (fst result) !! pkg res =
     Some (mkActionRecord now (action_name "quarantine" dry) (score res) (reasons res))).
Proof.
  intros Hsys Hrem result. subst result. unfold apply_policy.
  rewrite ledger_setdefault, Hsys.
  destruct (ledger st !! pkg res) as [r|] eqn:Hl.
  { cbn. repeat split; try tauto; discriminate. }
  fold (score_log res).
  destruct (score_log_quiet res) as [Q1 [Q2 [Q3 _]]].
  destruct (safety_log_quiet res) as [S1 [S2 S3]].
  destruct (commands_quiet (pkg res) dry) as [C1 [C2 _]].
  destruct (Z.ltb_spec (score res) warn) as [Hlow|Hwarn].
  { cbn [fst snd]. rewrite policy_lines_app, shell_calls_app, action_lines_app, Q1, Q2, Q3.
    cbn. repeat split; try tauto; try lia. intros [H|[]]. discriminate H. }
  cbn [negb]. rewrite andb_false_r.
  destruct (Z.leb_spec remove (score res)) as [_|?]; [|lia]. cbn [andb].
  fold safety_notice.
  destruct (Z.leb_spec quar (score res)) as [Hq|Hq].
  - pose proof (act_observed (setdefault_actioned st) now res dry "QUARANTINE" "quarantine"
                  (cmd_quarantine (pkg res) dry) _ S1 C2) as [A1 [A2 [A3 A4]]].
    rewrite A1, A2, A3, S2, S3. cbn [app].
    split; [intros [H|[]]; discriminate H|].
    split; [destruct dry; in_cases ltac:(reflexivity)|].
    split; [destruct dry; in_cases ltac:(reflexivity)|].
    intros _ _ _. repeat split; try assumption.
    unfold act. cbn [snd]. rewrite !in_app_iff. left. right. now left.
  - pose proof (act_observed (setdefault_actioned st) now res dry "force-stop only" "force-stop"
                  (force_stop (pkg res) dry) _ S1 C1) as [A1 [A2 [A3 A4]]].
    rewrite A1, A2, A3, S2, S3. cbn [app].
    split; [intros [H|[]]; discriminate H|].
    split; [destruct dry; in_cases ltac:(reflexivity)|].
    split; [destruct dry; in_cases ltac:(reflexivity)|].
    intros _ _ ?. lia.
Qed.

(** ** The window count is monotone *)

Lemma is_recent_widen float_sub t w1 w2 e :
  w1 <= w2 -> is_recent float_sub t w1 e = true -> is_recent float_sub t w2 e = true.
Proof.
  unfold is_recent. intros Hw H. apply Qle_bool_iff in H. apply Qle_bool_iff.
  eapply Qle_trans; [exact H|]. rewrite <- Zle_Qle. exact Hw.
Qed.

Lemma filter_length_le {A : Type} (f g : A -> bool) (l : list A) :
  (forall x, f x = true -> g x = true) ->
  (List.length (List.filter f l) <= List.length (List.filter g l))%nat.
Proof.
  intros H. induction l as [|x l IH]; cbn [List.filter]; [lia|].
  destruct (f x) eqn:Ef.
  - rewrite (H x Ef). cbn [List.length]. lia.
  - destruct (g x); cbn [List.length]; lia.
Qed.

(** C9: for the same recorded events and the same query time, a
    narrower window never counts more events than a wider one. *)
Theorem count_recent_monotone (float_sub : Q -> Q -> Q)
    (events_by_pkg : gmap string (list Event)) (t : Q) (p : string) (w1 w2 : Z) :
  w1 <= w2 ->
  count_recent float_sub events_by_pkg t p w1 <= count_recent float_sub events_by_pkg t p w2.
Proof.
  intros Hw. unfold count_recent. apply Nat2Z.inj_le, filter_length_le.
  intros e. now apply is_recent_widen.
Qed.

(** ** The hidden-overlay scenario *)

Lemma a11y_rule_additive t perms : additive (a11y_rule t perms).
Proof. intros s. unfold a11y_rule. destruct (a11y_trace t perms); cbn [bump fst]; lia. Qed.

Lemma launcher_rule_additive l n : additive (launcher_rule l n).
Proof.
  intros s. unfold launcher_rule. destruct l as [[|]|];
    try destruct (_ <=? n); cbn [bump fst]; lia.
Qed.

Lemma perm_weight_nonneg p : 0 <= perm_weight p.
Proof.
  unfold perm_weight. destruct (dict_get PERM_SIGNALS p) eqn:E; [|lia].
  apply PERM_SIGNALS_pos in E. lia.
Qed.

Lemma perm_step_fst s p : fst (perm_step s p) = fst s + perm_weight p.
Proof.
  unfold perm_step, perm_weight. destruct (dict_get PERM_SIGNALS p); cbn [bump fst]; lia.
Qed.

Lemma perm_fold_one l x s :
  In x l -> fst s + perm_weight x <= fst (fold_left perm_step l s).
Proof.
  revert s. induction l as [|y l IH]; intros s; cbn [In fold_left]; [tauto|].
  intros [->|Hin].
  - etransitivity; [|apply perm_fold_grows]. rewrite perm_step_fst. lia.
  - etransitivity; [|apply IH, Hin]. rewrite perm_step_fst.
    pose proof (perm_weight_nonneg y). lia.
Qed.

Lemma perm_fold_two l x y s :
  x <> y -> In x l -> In y l ->
  fst s + perm_weight x + perm_weight y <= fst (fold_left perm_step l s).
Proof.
  intros Hne. revert s. induction l as [|z l IH]; intros s; cbn [In fold_left]; [tauto|].
  intros [->|Hx] [->|Hy]; try congruence.
  - etransitivity; [|apply (perm_fold_one l y), Hy]. rewrite perm_step_fst. lia.
  - etransitivity; [|apply (perm_fold_one l x), Hx]. rewrite perm_step_fst. lia.
  - etransitivity; [|apply IH; assumption]. rewrite perm_step_fst.
    pose proof (perm_weight_nonneg z). lia.
Qed.

(** The overlay weight and what the accessibility evidence adds on top:
    the +35 weight when the permission was parsed, the +15 trace
    otherwise. *)
Lemma overlay_and_a11y dump perms s :
  In "SYSTEM_ALERT_WINDOW" perms ->
  contains "AccessibilityService" dump = true ->
  fst s + 50 <= fst (a11y_rule dump perms (fold_left perm_step perms s)).
Proof.
  intros Hsaw Has. rewrite a11y_rule_additive. unfold a11y_rule, a11y_trace.
  rewrite Has, (contains_nonempty "AccessibilityService" dump ltac:(discriminate) Has).
  destruct (mem "BIND_ACCESSIBILITY_SERVICE" perms) eqn:Eb; cbn [negb andb bump fst].
  - apply mem_In in Eb.
    pose proof (perm_fold_two perms "SYSTEM_ALERT_WINDOW" "BIND_ACCESSIBILITY_SERVICE" s
                  ltac:(discriminate) Hsaw Eb) as H.
    change (perm_weight "SYSTEM_ALERT_WINDOW") with 35 in H.
    change (perm_weight "BIND_ACCESSIBILITY_SERVICE") with 35 in H. lia.
  - pose proof (perm_fold_one perms "SYSTEM_ALERT_WINDOW" s Hsaw) as H.
    change (perm_weight "SYSTEM_ALERT_WINDOW") with 35 in H. lia.
Qed.

Lemma pkg_score_package al adb t p n : pkg (score_package al adb t p n) = p.
Proof.
  unfold score_package. destruct (is_allowlisted al p); [reflexivity|].
  repeat match goal with
         | |- context [match ?e with pair _ _ => _ end] =>
           destruct e as [? ?]; cbv beta iota
         end.
  reflexivity.
Qed.

(** The quarantine branch of [apply_policy]. *)
Lemma quarantine_branch (st : State) (now : string) (res : ScoreResult)
    (dry : bool) (warn quar remove : Z) (aggr : bool) :
  ledger st !! pkg res = None ->
  warn <= score res -> quar <= score res ->
  aggr = false \/ score res < remove ->
  let result := apply_policy st now res dry warn quar remove aggr in
  policy_lines (snd result) = ["[POLICY] QUARANTINE"] /\
  shell_calls (snd result) = shell_calls (cmd_quarantine (pkg res) dry) /\
  action_lines (snd result) = action_lines (cmd_quarantine (pkg res) dry) /\
  ledger (fst result) !! pkg res =
    Some (mkActionRecord now (action_name "quarantine" dry) (score res) (reasons res)).
Proof.
  intros Hnew Hwarn Hquar Hno result. subst result. unfold apply_policy.
  rewrite ledger_setdefault, Hnew. fold (score_log res). fold safety_notice.
  destruct (Z.ltb_spec (score res) warn); [lia|].
  assert (Hskip : ((remove <=? score res) && aggr
                   && negb (truthy_get (details res) "system_like"))%bool = false).
  { destruct Hno as [->|Hlt]; [now rewrite andb_false_r|].
    destruct (Z.leb_spec remove (score res)); [lia | reflexivity]. }
  rewrite Hskip. destruct (Z.leb_spec quar (score res)); [|lia].
  destruct (score_log_quiet res) as [Q1 [Q2 [Q3 _]]].
  destruct (safety_log_quiet res) as [S1 [S2 S3]].
  destruct (commands_quiet (pkg res) dry) as [_ [C2 _]].
  destruct (truthy_get (details res) "system_like" && (remove <=? score res))%bool.
  - pose proof (act_observed (setdefault_actioned st) now res dry "QUARANTINE" "quarantine"
                  (cmd_quarantine (pkg res) dry) _ S1 C2) as [A1 [A2 [A3 A4]]].
    rewrite A1, A2, A3, A4, S2, S3. repeat split.
  - pose proof (act_observed (setdefault_actioned st) now res dry "QUARANTINE" "quarantine"
                  (cmd_quarantine (pkg res) dry) _ Q1 C2) as [A1 [A2 [A3 A4]]].
    rewrite A1, A2, A3, A4, Q2, Q3. repeat split.
Qed.

Lemma location_rule_no_system paths s d s' d' :
  existsb system_path paths = false ->
  location_rule paths s d = (s', d') -> fst s' = fst s.
Proof.
  intros Hs E. destruct (location_rule_fst paths s d) as [_ [_ H]].
  rewrite E in H. exact (H Hs).
Qed.

(** Replace the gathered values by the answers of the device, keeping
    the equations of the steps. *)
Ltac name_answers :=
  repeat match goal with
         | E : try_get _ _ _ _ = (?a, _) |- _ =>
           is_var a; pose proof (try_get_answer _ _ _ _ _ _ E); subst a
         end.

Lemma scenario_score (al : Allowlist) (adb : Device) (t p : string) :
  is_allowlisted al p = false ->
  answer (get_pkg_installer adb p) None = None ->
  answer (query_launcher_presence adb p) None = Some false ->
  In "SYSTEM_ALERT_WINDOW"
     (parse_requested_permissions (answer (dumpsys_package adb p) "")) ->
  contains "AccessibilityService" (answer (dumpsys_package adb p) "") = true ->
  140 <= score (score_package al adb t p 10) /\
  (existsb system_path (answer (get_pkg_paths adb p) []) = false ->
   150 <= score (score_package al adb t p 10)).
Proof.
  intros Hal Hinst Hlaunch Hsaw Has.
  open_score. rewrite Hal. cbn [score]. name_answers.
  pose proof (contains_nonempty "AccessibilityService" _ ltac:(discriminate) Has) as Hne.
  pose proof Hsaw as Hmem. apply mem_In in Hmem.
  rewrite !requested_perms_eq in *.
  rewrite Hinst, Hlaunch, Hmem, Has, Hne in *.
  change (5 <=? 10) with true. cbn [orb andb negb not_trusted]. rewrite orb_true_r.
  match goal with
  | |- context [180 <? fst ?S] => score_facts S
  end.
  match goal with
  | E : fold_left (appops_step _) _ (a11y_rule ?d ?ps (fold_left perm_step ?ps ?s), _) = _ |- _ =>
    pose proof (overlay_and_a11y d ps s Hsaw Has)
  end.
  match goal with
  | E : location_rule ?ps _ _ = _ |- _ =>
    pose proof (fun H => location_rule_no_system ps _ _ _ _ H E) as Hdata
  end.
  repeat match goal with
         | |- context [fst (when_rule true ?k ?r ?s)] =>
           change (fst (when_rule true k r s)) with (fst s + k) in *
         | |- context [fst (launcher_rule (Some false) 10 ?s)] =>
           rewrite (launcher_rule_additive (Some false) 10 s) in *;
           change (fst (launcher_rule (Some false) 10 (0, []))) with 15 in *
         | H : context [fst (when_rule true ?k ?r ?s)] |- _ =>
           change (fst (when_rule true k r s)) with (fst s + k) in *
         | H : context [fst (launcher_rule (Some false) 10 ?s)] |- _ =>
           rewrite (launcher_rule_additive (Some false) 10 s) in *;
           change (fst (launcher_rule (Some false) 10 (0, []))) with 15 in *
         | H : context [fst (installer_rule None ?s)] |- _ =>
           change (fst (installer_rule None s)) with (fst s + 10) in *
         | H : context [fst (freq_rule 10 ?s)] |- _ =>
           change (fst (freq_rule 10 s)) with (fst s + 30) in *
         end.
  cbn [fst] in *.
  match goal with
  | |- context [180 <? ?x] => destruct (Z.ltb_spec 180 x)
  end; (split; [|intros Hs; specialize (Hdata Hs)]); lia.
Qed.

(** C2, as the code has it: with a recent count of 10, the overlay
    permission parsed from the dump, the text "AccessibilityService" in
    the dump, no installer, a launcher probe answering false and no
    allowlist match, the score is at least 140, and at least 150 when
    no install path lies in a system area (the declaration text alone
    earns +15, not +35); for a package without a ledger entry
    [apply_policy] with the default thresholds and aggressive removal
    off then quarantines it. *)
Theorem hidden_overlay_scenario (al : Allowlist) (adb : Device) (t p : string)
    (st : State) (now : string) (dry : bool) :
  is_allowlisted al p = false ->
  answer (get_pkg_installer adb p) None = None ->
  answer (query_launcher_presence adb p) None = Some false ->
  In "SYSTEM_ALERT_WINDOW"
     (parse_requested_permissions (answer (dumpsys_package adb p) "")) ->
  contains "AccessibilityService" (answer (dumpsys_package adb p) "") = true ->
  let res := score_package al adb t p 10 in
  140 <= score res /\
  (existsb system_path (answer (get_pkg_paths adb p) []) = false -> 150 <= score res) /\
  (ledger st !! p = None ->
   let result :=
     apply_policy st now res dry DEFAULT_WARN_THRESHOLD DEFAULT_QUAR_THRESHOLD
       DEFAULT_REMOVE_THRESHOLD false in
   policy_lines (snd result) = ["[POLICY] QUARANTINE"] /\
   shell_calls (snd result) = shell_calls (cmd_quarantine p dry) /\
   action_lines (snd result) = action_lines (cmd_quarantine p dry) /\
   ledger (fst result) !! p =
     Some (mkActionRecord now (action_name "quarantine" dry) (score res) (reasons res))).
Proof.
  intros Hal Hinst Hlaunch Hsaw Has res.
  destruct (scenario_score al adb t p Hal Hinst Hlaunch Hsaw Has) as [Hmin Hdata].
  fold res in Hmin, Hdata.
  split; [exact Hmin|]. split; [exact Hdata|].
  intros Hnew result.
  pose proof (pkg_score_package al adb t p 10) as Hp. fold res in Hp.
  rewrite <- Hp in Hnew |- *.
  apply quarantine_branch; try assumption;
    unfold DEFAULT_WARN_THRESHOLD, DEFAULT_QUAR_THRESHOLD; first [lia | now left].
Qed.

(** ** Concrete runs *)

(** The scanners on small inputs. *)
Example splitlines_mixed :
  splitlines ("a" ++ String "013"%char (String "010"%char ("b" ++ String "010"%char "")))
  = ["a"; "b"].
Proof. reflexivity. Qed.

Example findall_perm_line :
  findall_perm "XYZandroid.permission.FOO ab __ ___ A_B_ c"
  = ["XYZ"; "android.permission.FOO"; "___"; "A_B_"].
Proof. reflexivity. Qed.

Example parse_overlay_dump :
  parse_requested_permissions overlay_dump = ["SYSTEM_ALERT_WINDOW"].
Proof. reflexivity. Qed.

Example parse_forces_bind :
  parse_requested_permissions "flags: BIND_ACCESSIBILITY_SERVICE"
  = ["BIND_ACCESSIBILITY_SERVICE"].
Proof. reflexivity. Qed.

Example appop_allowed_spaced :
  appop_allowed "SYSTEM_ALERT_WINDOW" "Uid mode: system_alert_window :  ALLOW; time=+1h" = true.
Proof. reflexivity. Qed.

Example appop_allowed_needs_boundary :
  appop_allowed "SYSTEM_ALERT_WINDOW" "XSYSTEM_ALERT_WINDOW: allow" = false /\
  appop_allowed "SYSTEM_ALERT_WINDOW" "SYSTEM_ALERT_WINDOW: allowed" = false.
Proof. split; reflexivity. Qed.

Example reasons_of_overlay_run :
  reasons (score_package default_allowlist overlay_device "2024-05-01 10:00:00"
             "org.example.app" 10)
  = ["front-display頻度が高い (10/10min)";
     "インストーラ不明";
     "権限シグナル: SYSTEM_ALERT_WINDOW (+35)";
     "AccessibilityService 定義の痕跡 (+15)";
     "ランチャー無し/非通常 + 前面表示頻度 (HiddenAds系シグナル)";
     "overlay + accessibility の組み合わせ (+30)";
     "高頻度前面表示 + 非標準インストーラ + overlay"].
Proof. reflexivity. Qed.

(** C2 as stated fails: in the scenario the score is 150 for a package
    under /data/app and 140 for one under the system tree, both below
    155. *)
Lemma scenario_below_155 :
  is_allowlisted default_allowlist "org.example.app" = false /\
  answer (get_pkg_installer overlay_device "org.example.app") None = None /\
  answer (query_launcher_presence overlay_device "org.example.app") None = Some false /\
  mem "SYSTEM_ALERT_WINDOW"
    (parse_requested_permissions
       (answer (dumpsys_package overlay_device "org.example.app") "")) = true /\
  contains "AccessibilityService"
    (answer (dumpsys_package overlay_device "org.example.app") "") = true /\
  score (score_package default_allowlist overlay_device "2024-05-01 10:00:00"
           "org.example.app" 10) = 150 /\
  ~ 155 <= score (score_package default_allowlist overlay_device "2024-05-01 10:00:00"
                    "org.example.app" 10) /\
  score (score_package default_allowlist preinstalled_device "2024-05-01 10:00:00"
           "org.example.app" 10) = 140.
Proof. vm_compute. repeat split; try reflexivity. intros H. apply H. reflexivity. Qed.

Lemma hidden_overlay_scenario_witness :
  140 <= score (score_package default_allowlist overlay_device "2024-05-01 10:00:00"
                  "org.example.app" 10) /\
  policy_lines
    (snd (apply_policy fresh_state "2024-05-01 10:00:01"
            (score_package default_allowlist overlay_device "2024-05-01 10:00:00"
               "org.example.app" 10)
            true DEFAULT_WARN_THRESHOLD DEFAULT_QUAR_THRESHOLD DEFAULT_REMOVE_THRESHOLD
            false)) = ["[POLICY] QUARANTINE"].
Proof.
  assert (Hsaw : In "SYSTEM_ALERT_WINDOW"
            (parse_requested_permissions
               (answer (dumpsys_package overlay_device "org.example.app") "")))
    by (vm_compute; left; reflexivity).
  pose proof (hidden_overlay_scenario default_allowlist overlay_device
                "2024-05-01 10:00:00" "org.example.app" fresh_state
                "2024-05-01 10:00:01" true eq_refl eq_refl eq_refl Hsaw eq_refl) as H.
  split; [exact (proj1 H)|].
  exact (proj1 (proj2 (proj2 H) eq_refl)).
Defined.

Lemma handled_package_is_skipped_witness :
  ledger handled_state !! "org.example.app" = Some sample_record /\
  apply_policy handled_state "2024-05-02 09:00:00" system_result false 45 80 105 true
  = (handled_state, [PrintSkip "org.example.app" sample_record]).
Proof.
  assert (H : ledger handled_state !! "org.example.app" = Some sample_record)
    by reflexivity.
  split; [exact H|].
  exact (proj1 (handled_package_is_skipped handled_state "org.example.app" sample_record H)
           "2024-05-02 09:00:00" system_result false 45 80 105 true eq_refl).
Defined.

Lemma allowlisted_scores_zero_witness :
  (In "com.android.chrome" (exact default_allowlist) \/
   exists pfx, In pfx (prefixes default_allowlist) /\
               startswith "com.android.chrome" pfx = true) /\
  score (score_package default_allowlist overlay_device "2024-05-01 10:00:00"
           "com.android.chrome" 10) = 0 /\
  reasons (score_package default_allowlist overlay_device "2024-05-01 10:00:00"
             "com.android.chrome" 10) = ["allowlisted"].
Proof.
  assert (H : In "com.android.chrome" (exact default_allowlist) \/
              exists pfx, In pfx (prefixes default_allowlist) /\
                          startswith "com.android.chrome" pfx = true).
  { right. exists "com.android.". split; [left; reflexivity | reflexivity]. }
  split; [exact H|].
  exact (allowlisted_scores_zero default_allowlist overlay_device "2024-05-01 10:00:00"
           "com.android.chrome" 10 H).
Defined.

Lemma below_warn_only_records_witness :
  ledger fresh_state !! pkg low_result = None /\
  score low_result < 45 /\
  shell_calls (snd (apply_policy fresh_state "2024-05-01 10:00:00" low_result
                      false 45 80 105 false)) = [] /\
  ledger (fst (apply_policy fresh_state "2024-05-01 10:00:00" low_result
                 false 45 80 105 false)) = ledger fresh_state.
Proof.
  assert (Hn : ledger fresh_state !! pkg low_result = None) by reflexivity.
  assert (Hl : score low_result < 45) by (cbn; lia).
  pose proof (below_warn_only_records fresh_state "2024-05-01 10:00:00" low_result
                false 45 80 105 false Hn Hl) as H.
  split; [exact Hn|]. split; [exact Hl|].
  split; [exact (proj1 (proj2 H)) | exact (proj1 (proj2 (proj2 (proj2 (proj2 H)))))].
Defined.

Lemma count_recent_monotone_witness :
  300 <= 600 /\
  count_recent Qminus sample_events (1000 # 1) "org.example.app" 300
  <= count_recent Qminus sample_events (1000 # 1) "org.example.app" 600.
Proof.
  assert (H : 300 <= 600) by lia.
  split; [exact H|].
  exact (count_recent_monotone Qminus sample_events (1000 # 1) "org.example.app" 300 600 H).
Defined.

(** * Further properties of the code *)

(** ** The score as a sum *)

Lemma freq_rule_sum n : additive (freq_rule n).
Proof.
  intros s. unfold freq_rule.
  repeat match goal with |- context [if ?b then _ else _] => destruct b end;
    cbn [bump fst]; lia.
Qed.

Lemma name_rule_sum p : additive (name_rule p).
Proof. intros s. unfold name_rule. destruct (suspicious_name p); cbn [bump fst]; lia. Qed.

Lemma installer_rule_sum i : additive (installer_rule i).
Proof.
  intros s. unfold installer_rule. destruct i as [i|]; [destruct (negb _)|];
    cbn [bump fst]; lia.
Qed.

Lemma when_rule_sum c k r s : fst (when_rule c k r s) = fst s + (if c then k else 0).
Proof. unfold when_rule. destruct c; cbn [bump fst]; lia. Qed.

Lemma perm_fold_sum l : additive (fold_left perm_step l).
Proof.
  induction l as [|x l IH]; intros s; cbn [fold_left]; [cbn; lia|].
  rewrite IH, (IH (perm_step (0, []) x)), !perm_step_fst. cbn [fst]. lia.
Qed.

Lemma behavior_step_sum s e :
  fst (behavior_step s e) = fst s + fst (behavior_step (0, []) e).
Proof.
  unfold behavior_step. destruct (snd e); [|cbn; lia].
  destruct (dict_get _ _) as [[label pts]|]; cbn [bump fst]; lia.
Qed.

Lemma behavior_fold_sum l : additive (fold_left behavior_step l).
Proof.
  induction l as [|x l IH]; intros s; cbn [fold_left]; [cbn; lia|].
  rewrite IH, (IH (behavior_step (0, []) x)), behavior_step_sum. lia.
Qed.

Lemma appops_fold_split txt s :
  fold_left (appops_step txt) APPOPS_SIGNALS (s, [])
  = ((fst s + appops_points txt,
      (snd s ++ snd (fst (fold_left (appops_step txt) APPOPS_SIGNALS ((0, []), []))))%list),
     appops_allowed_list txt).
Proof.
  unfold appops_points, appops_allowed_list, APPOPS_SIGNALS. cbn [fold_left].
  unfold appops_step.
  destruct (appop_allowed "SYSTEM_ALERT_WINDOW" txt),
           (appop_allowed "GET_USAGE_STATS" txt),
           (appop_allowed "REQUEST_INSTALL_PACKAGES" txt);
    destruct s as [z l]; unfold bump; cbn [fst snd app];
    rewrite <- ?app_assoc, ?app_nil_r; cbn [app];
    (f_equal; f_equal; lia).
Qed.

Lemma appops_fold_parts txt s s' found :
  fold_left (appops_step txt) APPOPS_SIGNALS (s, []) = (s', found) ->
  fst s' = fst s + appops_points txt /\ found = appops_allowed_list txt.
Proof. rewrite appops_fold_split. intros [= <- <-]. split; reflexivity. Qed.

Lemma location_rule_located paths s d s' d' :
  location_rule paths s d = (s', d') -> fst s' = located paths (fst s).
Proof.
  unfold located, location_rule. destruct (is_nil paths); [intros [= <- _]; reflexivity|].
  destruct (existsb system_path paths); intros [= <- _]; reflexivity.
Qed.

(** Walk down the chain of steps that built the tally [s] and record
    what each one adds to the score. *)
Ltac sum_facts s :=
  lazymatch s with
  | freq_rule ?n ?s' => pose proof (freq_rule_sum n s'); sum_facts s'
  | name_rule ?p ?s' => pose proof (name_rule_sum p s'); sum_facts s'
  | installer_rule ?i ?s' => pose proof (installer_rule_sum i s'); sum_facts s'
  | a11y_rule ?t ?r ?s' => pose proof (a11y_rule_additive t r s'); sum_facts s'
  | launcher_rule ?l ?n ?s' => pose proof (launcher_rule_additive l n s'); sum_facts s'
  | when_rule ?c ?k ?r ?s' => pose proof (when_rule_sum c k r s'); sum_facts s'
  | fold_left perm_step ?l ?s' => pose proof (perm_fold_sum l s'); sum_facts s'
  | fold_left behavior_step ?l ?s' => pose proof (behavior_fold_sum l s'); sum_facts s'
  | (0, []) => idtac
  | _ =>
    lazymatch goal with
    | E : try_get _ _ _ ?s' = (_, s) |- _ =>
      pose proof (try_get_eq_fst _ _ _ _ _ _ E); sum_facts s'
    | E : location_rule _ ?s' _ = (s, _) |- _ =>
      pose proof (location_rule_located _ _ _ _ _ E); sum_facts s'
    | E : fold_left (appops_step _) APPOPS_SIGNALS (?s', []) = (s, _) |- _ =>
      pose proof (proj1 (appops_fold_parts _ _ _ _ E)); sum_facts s'
    end
  end.

Lemma clamp_min (x : Z) : (if 180 <? x then 180 else x) = Z.min 180 x.
Proof. destruct (Z.ltb_spec 180 x); lia. Qed.

Lemma score_package_sum (al : Allowlist) (adb : Device) (t p : string) (n : Z) :
  is_allowlisted al p = false ->
  score (score_package al adb t p n) = Z.min 180 (score_sum (evidence adb p) p n).
Proof.
  intros Hal. open_score. rewrite Hal. cbn [score]. rewrite clamp_min. f_equal.
  name_answers.
  match goal with
  | E : fold_left (appops_step _) _ _ = (_, ?found) |- _ =>
    pose proof (proj2 (appops_fold_parts _ _ _ _ E)); subst found
  end.
  match goal with |- fst ?S = _ => sum_facts S end.
  unfold score_sum, composite_points, overlay_evidence, a11y_evidence, usage_evidence,
    seen_perms, seen_flags, evidence, points.
  cbn [seen_installer seen_paths seen_launcher seen_dump seen_appops].
  match goal with
  | H : fst _ = located ?ps (fst ?s) |- context [located ?ps ?b] =>
    replace (fst s) with b in H by (cbn [fst] in *; lia)
  end.
  cbn [fst] in *. lia.
Qed.

(** ** Consequences of the sum *)

Lemma freq_points_mono n m : n <= m -> points (freq_rule n) <= points (freq_rule m).
Proof.
  intros H. unfold points, freq_rule.
  destruct (Z.leb_spec 8 n), (Z.leb_spec 5 n), (Z.leb_spec 3 n),
           (Z.leb_spec 8 m), (Z.leb_spec 5 m), (Z.leb_spec 3 m); cbn; lia.
Qed.

Lemma launcher_points_mono l n m :
  n <= m -> points (launcher_rule l n) <= points (launcher_rule l m).
Proof.
  intros H. unfold points, launcher_rule. destruct l as [[|]|]; [lia| |].
  - destruct (Z.leb_spec 3 n), (Z.leb_spec 3 m); cbn; lia.
  - destruct (Z.leb_spec 5 n), (Z.leb_spec 5 m); cbn; lia.
Qed.

Lemma located_mono paths a b : a <= b -> located paths a <= located paths b.
Proof.
  intros H. unfold located, location_rule. destruct (is_nil paths); [cbn; lia|].
  destruct (existsb system_path paths); cbn [fst]; lia.
Qed.

Lemma score_sum_mono e p n m : n <= m -> score_sum e p n <= score_sum e p m.
Proof.
  intros H. unfold score_sum, composite_points.
  pose proof (freq_points_mono n m H).
  pose proof (launcher_points_mono (seen_launcher e) n m H).
  pose proof (located_mono (seen_paths e)
                (points (freq_rule n) + points (name_rule p)
                 + points (installer_rule (seen_installer e)))
                (points (freq_rule m) + points (name_rule p)
                 + points (installer_rule (seen_installer e))) ltac:(lia)).
  assert ((if ((5 <=? n) && overlay_evidence e && not_trusted (seen_installer e))%bool
           then 15 else 0)
          <= (if ((5 <=? m) && overlay_evidence e && not_trusted (seen_installer e))%bool
              then 15 else 0)).
  { destruct (Z.leb_spec 5 n), (Z.leb_spec 5 m); try lia;
      destruct (overlay_evidence e), (not_trusted (seen_installer e)); cbn; lia. }
  lia.
Qed.

Lemma allowlisted_score al adb t p n :
  is_allowlisted al p = true -> score_package al adb t p n =
  mkScoreResult p 0 ["allowlisted"]
    [("pkg", VStr p); ("time", VStr t); ("allowlisted", VBool true);
     ("recent_count_10m", VInt n)].
Proof. intros H. unfold score_package. rewrite H. reflexivity. Qed.

(** X1: the score is the sum of what each rule yields on its own from
    the answers of the device, capped at 180; the deduction for a
    system-area path applies to the frequency, name and installer points
    only. *)
Theorem score_is_capped_sum (al : Allowlist) (adb : Device) (t p : string) (n : Z) :
  score (score_package al adb t p n)
  = if is_allowlisted al p then 0 else Z.min 180 (score_sum (evidence adb p) p n).
Proof.
  destruct (is_allowlisted al p) eqn:Hal.
  - now rewrite allowlisted_score.
  - now apply score_package_sum.
Qed.

(** X2: with the same evidence, more foreground displays never lower the
    score. *)
Theorem score_monotone_in_recent_count (al : Allowlist) (adb : Device) (t p : string)
    (n m : Z) :
  n <= m ->
  score (score_package al adb t p n) <= score (score_package al adb t p m).
Proof.
  intros H. destruct (is_allowlisted al p) eqn:Hal.
  - rewrite !allowlisted_score by assumption. cbn. lia.
  - rewrite !score_package_sum by assumption.
    pose proof (score_sum_mono (evidence adb p) p n m H). lia.
Qed.

(** X3: the score depends on the device only through the values its
    queries leave: a query that raises scores like one that returns the
    default, and the clock does not matter. *)
Theorem score_depends_on_answers (al : Allowlist) (adb1 adb2 : Device) (t1 t2 p : string)
    (n : Z) :
  evidence adb1 p = evidence adb2 p ->
  score (score_package al adb1 t1 p n) = score (score_package al adb2 t2 p n).
Proof.
  intros H. destruct (is_allowlisted al p) eqn:Hal.
  - now rewrite !allowlisted_score.
  - rewrite !score_package_sum by assumption. now rewrite H.
Qed.

(** ** The record of a scoring *)

Lemma dict_get_set {V : Type} (d : dict V) (k k' : string) (v : V) :
  dict_get (dict_set d k v) k' = if String.eqb k' k then Some v else dict_get d k'.
Proof.
  induction d as [|[k0 v0] d IH]; cbn [dict_set dict_get]; [reflexivity|].
  destruct (String.eqb_spec k k0) as [->|Hk]; cbn [dict_get].
  - destruct (String.eqb k' k0); reflexivity.
  - destruct (String.eqb_spec k' k0) as [->|Hk'].
    + destruct (String.eqb_spec k0 k); [congruence | reflexivity].
    + exact IH.
Qed.

Lemma location_rule_flags paths s d s' d' k :
  location_rule paths s d = (s', d') ->
  dict_get d' k =
  if (String.eqb k "system_like" && existsb system_path paths)%bool then Some (VBool true)
  else if (String.eqb k "user_app_like" && existsb user_path paths)%bool then Some (VBool true)
  else dict_get d k.
Proof.
  unfold location_rule. destruct paths as [|x paths].
  - cbn [is_nil existsb]. intros [= _ <-]. now rewrite !andb_false_r.
  - cbn [is_nil].
    destruct (existsb user_path (x :: paths)), (existsb system_path (x :: paths));
      intros [= _ <-]; rewrite ?dict_get_set, ?andb_true_r, ?andb_false_r;
      destruct (String.eqb_spec k "system_like") as [->|]; try reflexivity;
      destruct (String.eqb k "user_app_like"); reflexivity.
Qed.

Lemma explained_bump s k r : explained (bump s k r).
Proof. intros _. cbn. destruct (snd s); discriminate. Qed.

Lemma explained_note s r : explained (note s r).
Proof. intros _. cbn. destruct (snd s); discriminate. Qed.

Ltac explain_cases :=
  repeat match goal with
         | |- context [if ?b then _ else _] => destruct b
         end;
  first [ assumption | apply explained_bump ].

Lemma freq_rule_explained n s : explained s -> explained (freq_rule n s).
Proof. intros H. unfold freq_rule. explain_cases. Qed.

Lemma name_rule_explained p s : explained s -> explained (name_rule p s).
Proof. intros H. unfold name_rule. explain_cases. Qed.

Lemma installer_rule_explained i s : explained s -> explained (installer_rule i s).
Proof. intros H. unfold installer_rule. destruct i as [i|]; explain_cases. Qed.

Lemma a11y_rule_explained t perms s : explained s -> explained (a11y_rule t perms s).
Proof. intros H. unfold a11y_rule. explain_cases. Qed.

Lemma launcher_rule_explained l n s : explained s -> explained (launcher_rule l n s).
Proof. intros H. unfold launcher_rule. destruct l as [[|]|]; explain_cases. Qed.

Lemma when_rule_explained c k r s : explained s -> explained (when_rule c k r s).
Proof. intros H. unfold when_rule. explain_cases. Qed.

Lemma perm_fold_explained l s : explained s -> explained (fold_left perm_step l s).
Proof.
  revert s. induction l as [|x l IH]; intros s H; cbn [fold_left]; [exact H|].
  apply IH. unfold perm_step. destruct (dict_get PERM_SIGNALS x); explain_cases.
Qed.

Lemma behavior_fold_explained l s : explained s -> explained (fold_left behavior_step l s).
Proof.
  revert s. induction l as [|x l IH]; intros s H; cbn [fold_left]; [exact H|].
  apply IH. unfold behavior_step. destruct (snd x); [|exact H].
  destruct (dict_get _ _) as [[label pts]|]; [apply explained_bump | exact H].
Qed.

Lemma try_get_explained {A : Type} (q : outcome A) (d a : A) (l : string) s s' :
  try_get q d l s = (a, s') -> explained s -> explained s'.
Proof.
  destruct q; cbn; intros [= _ <-] H; [exact H | apply explained_note].
Qed.

Lemma location_rule_explained paths s d s' d' :
  location_rule paths s d = (s', d') -> explained s -> explained s'.
Proof.
  unfold location_rule. destruct (is_nil paths); [intros [= <- _] H; exact H|].
  destruct (existsb system_path paths); intros [= <- _] H; [|exact H].
  intros _. cbn. destruct (snd s); discriminate.
Qed.

Lemma appops_fold_explained txt s s' found :
  fold_left (appops_step txt) APPOPS_SIGNALS (s, []) = (s', found) ->
  explained s -> explained s'.
Proof.
  unfold APPOPS_SIGNALS. cbn [fold_left]. unfold appops_step.
  destruct (appop_allowed "SYSTEM_ALERT_WINDOW" txt),
           (appop_allowed "GET_USAGE_STATS" txt),
           (appop_allowed "REQUEST_INSTALL_PACKAGES" txt);
    cbn [fst snd]; intros [= <- _] H; first [exact H | apply explained_bump].
Qed.

(** Walk down the chain of steps: each keeps the tally explained. *)
Ltac explain :=
  repeat first
    [ apply freq_rule_explained
    | apply name_rule_explained
    | apply installer_rule_explained
    | apply a11y_rule_explained
    | apply launcher_rule_explained
    | apply when_rule_explained
    | apply perm_fold_explained
    | apply behavior_fold_explained
    | match goal with
      | E : try_get _ _ _ _ = (_, ?s) |- explained ?s =>
        apply (try_get_explained _ _ _ _ _ _ E)
      | E : location_rule _ _ _ = (?s, _) |- explained ?s =>
        apply (location_rule_explained _ _ _ _ _ E)
      | E : fold_left (appops_step _) _ _ = (?s, _) |- explained ?s =>
        apply (appops_fold_explained _ _ _ _ E)
      end ].

Ltac eval_key :=
  match goal with
  | |- context [String.eqb ?a ?b] =>
    let v := eval vm_compute in (String.eqb a b) in
    change (String.eqb a b) with v
  end.

Lemma score_package_record (al : Allowlist) (adb : Device) (t p : string) (n : Z) :
  is_allowlisted al p = false ->
  let res := score_package al adb t p n in
  (0 < score res -> reasons res <> []) /\
  dict_get (details res) "score" = Some (VInt (score res)) /\
  dict_get (details res) "installer" = Some (installer_val (seen_installer (evidence adb p))) /\
  dict_get (details res) "paths" = Some (VStrList (seen_paths (evidence adb p))) /\
  dict_get (details res) "launcher_present"
    = Some (launcher_val (seen_launcher (evidence adb p))) /\
  dict_get (details res) "system_like"
    = (if existsb system_path (seen_paths (evidence adb p)) then Some (VBool true) else None) /\
  dict_get (details res) "user_app_like"
    = (if existsb user_path (seen_paths (evidence adb p)) then Some (VBool true) else None).
Proof.
  intros Hal res. subst res. pattern (score_package al adb t p n).
  match goal with |- ?P _ => set (Q := P) end.
  open_score. rewrite Hal. subst Q. cbv beta.
  cbn [score reasons details evidence seen_installer seen_paths seen_launcher].
  split.
  { match goal with |- context [180 <? fst ?S] => assert (Hex : explained S) end.
    { explain. intros H. cbn in H. lia. }
    intros Hpos. apply Hex.
    match goal with
    | H : 0 < (if 180 <? ?x then _ else _) |- _ => destruct (Z.ltb_spec 180 x); lia
    end. }
  name_answers.
  match goal with
  | E : location_rule _ _ _ = _ |- _ =>
    pose proof (fun k => location_rule_flags _ _ _ _ _ k E) as Hloc
  end.
  match goal with |- context [is_empty ?x] => destruct (is_empty x) end;
    repeat split;
    repeat (rewrite dict_get_set; eval_key; cbv iota);
    rewrite ?Hloc; repeat eval_key; cbn [andb];
    repeat (rewrite dict_get_set; eval_key; cbv iota);
    try reflexivity;
    repeat match goal with |- context [existsb ?f ?l] => destruct (existsb f l) end;
    reflexivity.
Qed.

(** X4: a positive score always comes with at least one reason. *)
Theorem positive_score_has_reason (al : Allowlist) (adb : Device) (t p : string) (n : Z) :
  0 < score (score_package al adb t p n) ->
  reasons (score_package al adb t p n) <> [].
Proof.
  destruct (is_allowlisted al p) eqn:Hal.
  - rewrite allowlisted_score by assumption. discriminate.
  - apply (score_package_record al adb t p n Hal).
Qed.

Lemma try_get_hit {A : Type} (q : outcome A) (d a : A) (l ex : string) s s' :
  try_get q d l s = (a, s') ->
  (In (l ++ ": " ++ ex) (snd s') <-> In (l ++ ": " ++ ex) (snd s) \/ q = Raised ex).
Proof.
  destruct q as [x|ex']; cbn [try_get note]; intros [= _ <-].
  - split; [now left | intros [H|H]; [exact H | discriminate H]].
  - unfold note. cbn [snd]. rewrite in_app_iff. cbn [In]. split.
    + intros [H|[H|[]]]; [now left|]. right.
      apply append_inj_r in H. apply append_inj_r in H. now subst.
    + intros [H|[= ->]]; [now left | right; now left].
Qed.

(** After the steps above it, the note of one query. *)
Ltac note_of ex :=
  repeat skip_step;
  match goal with
  | E : try_get _ _ _ _ = (_, ?S) |- In _ (snd ?S) <-> _ =>
    refine (iff_trans (try_get_hit _ _ _ _ ex _ _ E) _)
  end;
  match goal with
  | |- In ?r0 (snd ?S) \/ _ <-> _ =>
    let Hno := fresh "Hno" in
    assert (Hno : In r0 (snd S) <-> False) by never_added;
    rewrite Hno; tauto
  end.

(** X5: for a package whose rules run, a query of the installer, the
    paths, the package dump or the AppOps that raises an exception with
    text ex leaves the reason made of the label of the query, a colon
    and ex, and such a reason is recorded in no other case.  (The
    query of the launcher handles its own exceptions.) *)
Theorem failed_queries_are_reported (al : Allowlist) (adb : Device) (t p : string) (n : Z) :
  is_allowlisted al p = false ->
  let rs := reasons (score_package al adb t p n) in
  (forall ex, In ("installer取得失敗: " ++ ex) rs <-> get_pkg_installer adb p = Raised ex) /\
  (forall ex, In ("path取得失敗: " ++ ex) rs <-> get_pkg_paths adb p = Raised ex) /\
  (forall ex, In ("dumpsys失敗: " ++ ex) rs <-> dumpsys_package adb p = Raised ex) /\
  (forall ex, In ("appops取得失敗: " ++ ex) rs <-> appops_get adb p = Raised ex).
Proof.
  intros Hal rs. subst rs. pattern (score_package al adb t p n).
  match goal with |- ?P _ => set (Q := P) end.
  open_score. rewrite Hal. subst Q. cbv beta. cbn [reasons].
  split; [|split; [|split]]; intros ex; note_of ex.
Qed.

(** X6: the details of a result agree with the result and with the
    evidence: the score entry is the score, absent for an allowlisted
    package; the system-like and user-app-like marks are set exactly
    when a path of the package lies in the system areas, or under
    /data/app/. *)
Theorem details_agree_with_result (al : Allowlist) (adb : Device) (t p : string) (n : Z) :
  let res := score_package al adb t p n in
  dict_get (details res) "score"
    = (if is_allowlisted al p then None else Some (VInt (score res))) /\
  truthy_get (details res) "system_like"
    = (negb (is_allowlisted al p) && existsb system_path (seen_paths (evidence adb p)))%bool /\
  truthy_get (details res) "user_app_like"
    = (negb (is_allowlisted al p) && existsb user_path (seen_paths (evidence adb p)))%bool.
Proof.
  cbn zeta. destruct (is_allowlisted al p) eqn:Hal.
  - rewrite allowlisted_score by assumption. repeat split.
  - destruct (score_package_record al adb t p n Hal) as [_ [H1 [_ [_ [_ [H2 H3]]]]]].
    unfold truthy_get. rewrite H1, H2, H3. cbn [negb andb].
    repeat split; repeat match goal with |- context [existsb ?f ?l] => destruct (existsb f l) end;
      reflexivity.
Qed.

(** ** What the policy does to the device and to the ledger *)

Lemma shell_calls_commands p dry :
  shell_calls (force_stop p dry) = (if dry then [] else firstn 1 (escalation p)) /\
  shell_calls (cmd_quarantine p dry) = (if dry then [] else firstn 2 (escalation p)) /\
  shell_calls (cmd_remove p dry) = (if dry then [] else firstn 3 (escalation p)).
Proof. destruct dry; repeat split. Qed.

Lemma saved_states_commands p dry :
  saved_states (force_stop p dry) = [] /\
  saved_states (cmd_quarantine p dry) = [] /\
  saved_states (cmd_remove p dry) = [].
Proof. destruct dry; repeat split. Qed.

Lemma act_effects st now res dry label name cmds log :
  shell_calls log = [] -> saved_states log = [] -> saved_states cmds = [] ->
  let result := act st now res dry label name cmds log in
  shell_calls (snd result) = shell_calls cmds /\
  saved_states (snd result) = [fst result] /\
  fst result = record_action st (pkg res)
                 (mkActionRecord now (action_name name dry) (score res) (reasons res)).
Proof.
  intros Hl Hs Hc. unfold act. cbn [fst snd].
  rewrite !shell_calls_app, !saved_states_app, Hl, Hs, Hc. cbn.
  rewrite !app_nil_r. repeat split.
Qed.

Lemma policy_log_quiet res (b : bool) :
  let log := if b then (score_log res ++ [safety_notice])%list else score_log res in
  shell_calls log = [] /\ saved_states log = [].
Proof.
  destruct (score_log_quiet res) as [_ [_ [H3 H4]]].
  destruct b; cbn zeta; rewrite ?shell_calls_app, ?saved_states_app, H3, H4; split; reflexivity.
Qed.

(** The three acting branches at once: how far the escalation goes, and
    under which name the entry is written. *)
Lemma apply_policy_acts st now res dry warn quar remove aggr :
  ledger st !! pkg res = None -> warn <= score res ->
  let result := apply_policy st now res dry warn quar remove aggr in
  exists (k : nat) (name : string),
    (if remove_test res remove aggr then k = 3%nat /\ name = "remove"
     else if quar <=? score res then k = 2%nat /\ name = "quarantine"
     else k = 1%nat /\ name = "force-stop") /\
    shell_calls (snd result) = (if dry then [] else firstn k (escalation (pkg res))) /\
    saved_states (snd result) = [fst result] /\
    fst result = record_action (setdefault_actioned st) (pkg res)
                   (mkActionRecord now (action_name name dry) (score res) (reasons res)).
Proof.
  intros Hnew Hwarn result. subst result. unfold apply_policy.
  rewrite ledger_setdefault, Hnew. fold (score_log res). fold safety_notice.
  destruct (Z.ltb_spec (score res) warn); [lia|].
  fold (remove_test res remove aggr).
  destruct (policy_log_quiet res
              (truthy_get (details res) "system_like" && (remove <=? score res))%bool)
    as [L1 L2]. cbn zeta in L1, L2.
  destruct (shell_calls_commands (pkg res) dry) as [C1 [C2 C3]].
  destruct (saved_states_commands (pkg res) dry) as [S1 [S2 S3]].
  destruct (remove_test res remove aggr); [|destruct (quar <=? score res)].
  - exists 3%nat, "remove". split; [now split|]. rewrite <- C3.
    now apply act_effects.
  - exists 2%nat, "quarantine". split; [now split|]. rewrite <- C2.
    now apply act_effects.
  - exists 1%nat, "force-stop". split; [now split|]. rewrite <- C1.
    now apply act_effects.
Qed.

Lemma apply_policy_idle st now res dry warn quar remove aggr :
  ledger st !! pkg res <> None \/ score res < warn ->
  let result := apply_policy st now res dry warn quar remove aggr in
  shell_calls (snd result) = [] /\ saved_states (snd result) = [] /\
  fst result = setdefault_actioned st.
Proof.
  intros H result. subst result. unfold apply_policy. rewrite ledger_setdefault.
  destruct (ledger st !! pkg res) as [r|] eqn:Hl; [repeat split|].
  destruct H as [H|H]; [congruence|].
  destruct (Z.ltb_spec (score res) warn); [|lia].
  fold (score_log res). destruct (score_log_quiet res) as [_ [_ [H3 H4]]].
  cbn [fst snd]. rewrite shell_calls_app, saved_states_app, H3, H4. repeat split.
Qed.

(** Either the call is idle or it acts. *)
Lemma apply_policy_cases st now res dry warn quar remove aggr :
  let result := apply_policy st now res dry warn quar remove aggr in
  (shell_calls (snd result) = [] /\ saved_states (snd result) = [] /\
   fst result = setdefault_actioned st /\
   (ledger st !! pkg res <> None \/ score res < warn))
  \/
  (ledger st !! pkg res = None /\ warn <= score res /\
   exists (k : nat) (name : string),
     (if remove_test res remove aggr then k = 3%nat /\ name = "remove"
      else if quar <=? score res then k = 2%nat /\ name = "quarantine"
      else k = 1%nat /\ name = "force-stop") /\
     shell_calls (snd result) = (if dry then [] else firstn k (escalation (pkg res))) /\
     saved_states (snd result) = [fst result] /\
     fst result = record_action (setdefault_actioned st) (pkg res)
                    (mkActionRecord now (action_name name dry) (score res) (reasons res))).
Proof.
  intros result. subst result.
  destruct (ledger st !! pkg res) as [r|] eqn:Hl.
  - left. destruct (apply_policy_idle st now res dry warn quar remove aggr) as [A [B C]].
    { left. congruence. }
    repeat split; try assumption. left. congruence.
  - destruct (Z.lt_ge_cases (score res) warn) as [Hlt|Hge].
    + left. destruct (apply_policy_idle st now res dry warn quar remove aggr) as [A [B C]].
      { now right. }
      repeat split; try assumption. now right.
    + right. split; [reflexivity|]. split; [assumption|].
      apply apply_policy_acts; assumption.
Qed.

Lemma In_firstn_escalation k p args :
  In args (firstn k (escalation p)) ->
  target args = p /\ (is_uninstall args = true -> (3 <= k)%nat).
Proof.
  destruct k as [|[|[|k]]]; cbn [firstn escalation]; rewrite ?firstn_nil; cbn [In]; intros H;
    repeat (destruct H as [<-|H]; [split; [reflexivity | cbn; first [discriminate | lia]]|]);
    destruct H.
Qed.

(** X7: a call uninstalls the package exactly when it is no dry run, the
    aggressive flag is set, the package has no ledger entry and is not
    marked system-like, and the score reaches both the warning and the
    removal threshold; the quarantine threshold plays no part. *)
Theorem uninstall_exactly_when (st : State) (now : string) (res : ScoreResult)
    (dry : bool) (warn quar remove : Z) (aggr : bool) :
  (exists args,
      In args (shell_calls (snd (apply_policy st now res dry warn quar remove aggr))) /\
      is_uninstall args = true)
  <->
  (dry = false /\ aggr = true /\ ledger st !! pkg res = None /\
   truthy_get (details res) "system_like" = false /\
   warn <= score res /\ remove <= score res).
Proof.
  split.
  - intros [args [Hin Hun]].
    destruct (apply_policy_cases st now res dry warn quar remove aggr)
      as [[A _]|[Hl [Hw [k [name [Hk [A _]]]]]]]; rewrite A in Hin; [destruct Hin|].
    destruct dry; [destruct Hin|].
    apply In_firstn_escalation in Hin as [_ Hk3]. specialize (Hk3 Hun).
    unfold remove_test in Hk.
    destruct (Z.leb_spec remove (score res)); cbn [andb] in Hk;
      [destruct aggr; cbn [andb] in Hk;
       [destruct (truthy_get (details res) "system_like"); cbn [negb] in Hk|]|];
      try (destruct (quar <=? score res); lia).
    repeat split; assumption.
  - intros [-> [-> [Hl [Hsys [Hw Hr]]]]].
    destruct (apply_policy_acts st now res false warn quar remove true Hl Hw)
      as [k [name [Hk [A _]]]]. cbn zeta in A.
    assert (Ht : remove_test res remove true = true).
    { unfold remove_test. rewrite Hsys.
      destruct (Z.leb_spec remove (score res)); [reflexivity | lia]. }
    rewrite Ht in Hk. destruct Hk as [-> _].
    exists ["pm"; "uninstall"; "--user"; "0"; pkg res]. rewrite A. split; [|reflexivity].
    cbn. tauto.
Qed.

(** X8: the commands of a call are an initial part of force-stop,
    disable, uninstall, all three on the package of the result: the app
    is stopped before it is disabled, disabled before it is uninstalled,
    and no other package is touched. *)
Theorem commands_follow_escalation (st : State) (now : string) (res : ScoreResult)
    (dry : bool) (warn quar remove : Z) (aggr : bool) :
  exists k : nat,
    shell_calls (snd (apply_policy st now res dry warn quar remove aggr))
    = firstn k (escalation (pkg res)).
Proof.
  destruct (apply_policy_cases st now res dry warn quar remove aggr)
    as [[A _]|[Hl [Hw [k [name [Hk [A _]]]]]]]; rewrite A.
  - now exists 0%nat.
  - destruct dry; [now exists 0%nat | now exists k].
Qed.

(** X9: a dry run issues no command, but it writes the ledger entry all
    the same, under a name that ends with (dry-run); a later call for
    the package, dry or not, is then skipped. *)
Theorem dry_run_blocks_later_runs (st : State) (now : string) (res : ScoreResult)
    (warn quar remove : Z) (aggr : bool) :
  ledger st !! pkg res = None -> warn <= score res ->
  let result := apply_policy st now res true warn quar remove aggr in
  shell_calls (snd result) = [] /\
  exists r : ActionRecord,
    ledger (fst result) !! pkg res = Some r /\
    endswith (ar_action r) "(dry-run)" = true /\
    forall now' res' dry' warn' quar' remove' aggr',
      pkg res' = pkg res ->
      apply_policy (fst result) now' res' dry' warn' quar' remove' aggr'
      = (fst result, [PrintSkip (pkg res) r]).
Proof.
  intros Hl Hw result. subst result.
  destruct (apply_policy_acts st now res true warn quar remove aggr Hl Hw)
    as [k [name [Hk [A [_ C]]]]].
  split; [exact A|].
  exists (mkActionRecord now (action_name name true) (score res) (reasons res)).
  assert (Hr : ledger (fst (apply_policy st now res true warn quar remove aggr)) !! pkg res
               = Some (mkActionRecord now (action_name name true) (score res) (reasons res))).
  { rewrite C, ledger_record. apply lookup_insert_eq. }
  split; [exact Hr|]. split.
  - cbn [ar_action action_name].
    destruct (remove_test res remove aggr); [|destruct (quar <=? score res)];
      destruct Hk as [_ ->]; reflexivity.
  - intros now' res' dry' warn' quar' remove' aggr' Hp. rewrite <- Hp in *.
    now apply apply_policy_skip.
Qed.

(** X10: a call changes the ledger in one way only: it adds the entry of
    the package it acted on, which had none; every other entry, and the
    last-seen times, stay as they were. *)
Theorem ledger_changes_by_one_entry (st : State) (now : string) (res : ScoreResult)
    (dry : bool) (warn quar remove : Z) (aggr : bool) :
  let result := apply_policy st now res dry warn quar remove aggr in
  last_seen (fst result) = last_seen st /\
  (ledger (fst result) = ledger st \/
   ledger st !! pkg res = None /\
   exists name : string,
     ledger (fst result)
     = <[pkg res := mkActionRecord now name (score res) (reasons res)]> (ledger st)).
Proof.
  intros result. subst result.
  destruct (apply_policy_cases st now res dry warn quar remove aggr)
    as [[_ [_ [C _]]]|[Hl [Hw [k [name [Hk [_ [_ C]]]]]]]]; rewrite C.
  - split; [destruct st as [[m|] l]; reflexivity|]. left. apply ledger_setdefault.
  - split; [destruct st as [[m|] l]; reflexivity|]. right. split; [exact Hl|].
    exists (action_name name dry). now rewrite ledger_record, ledger_setdefault.
Qed.

(** X11: between two results that differ in the score only, the one with
    the higher score gets at least the commands of the other, whatever
    the thresholds: a higher score never earns a milder action. *)
Theorem higher_score_no_milder (st : State) (now1 now2 : string) (res1 res2 : ScoreResult)
    (dry : bool) (warn quar remove : Z) (aggr : bool) :
  pkg res1 = pkg res2 -> details res1 = details res2 -> score res1 <= score res2 ->
  exists k : nat,
    shell_calls (snd (apply_policy st now1 res1 dry warn quar remove aggr))
    = firstn k (shell_calls (snd (apply_policy st now2 res2 dry warn quar remove aggr))).
Proof.
  intros Hp Hd Hs.
  destruct (apply_policy_cases st now1 res1 dry warn quar remove aggr)
    as [[A _]|[Hl [Hw [k1 [name1 [Hk1 [A _]]]]]]]; rewrite A.
  { now exists 0%nat. }
  destruct dry; [now exists 0%nat|].
  rewrite Hp in Hl.
  destruct (apply_policy_acts st now2 res2 false warn quar remove aggr Hl ltac:(lia))
    as [k2 [name2 [Hk2 [B _]]]]. cbn zeta in B. rewrite B, Hp.
  exists k1. rewrite firstn_firstn.
  replace (Init.Nat.min k1 k2) with k1; [reflexivity|].
  unfold remove_test in *. rewrite Hd in Hk1.
  destruct (Z.leb_spec remove (score res1)), (Z.leb_spec remove (score res2)),
           (Z.leb_spec quar (score res1)), (Z.leb_spec quar (score res2)); try lia;
    cbn [andb] in *;
    destruct (aggr && negb (truthy_get (details res2) "system_like"))%bool;
    destruct Hk1 as [-> _], Hk2 as [-> _]; reflexivity.
Qed.

(** ** The scoring and the policy together *)

(** X12: a package that is not allowlisted and has a path in a system
    area is never uninstalled by the policy applied to its scoring,
    whatever the score, the thresholds and the flags. *)
Theorem system_path_never_uninstalled (al : Allowlist) (adb : Device) (t p : string) (n : Z)
    (st : State) (now : string) (dry : bool) (warn quar remove : Z) (aggr : bool) :
  is_allowlisted al p = false ->
  existsb system_path (answer (get_pkg_paths adb p) []) = true ->
  Forall (fun args => is_uninstall args = false)
    (shell_calls (snd (apply_policy st now (score_package al adb t p n)
                         dry warn quar remove aggr))).
Proof.
  intros Hal Hsys.
  destruct (score_package_record al adb t p n Hal) as [_ [_ [_ [_ [_ [H2 _]]]]]].
  cbn [evidence seen_paths] in H2. rewrite Hsys in H2.
  assert (Ht : remove_test (score_package al adb t p n) remove aggr = false).
  { unfold remove_test, truthy_get. rewrite H2. cbn. apply andb_false_r. }
  destruct (apply_policy_cases st now (score_package al adb t p n) dry warn quar remove aggr)
    as [[A _]|[_ [_ [k [name [Hk [A _]]]]]]]; rewrite A; [constructor|].
  destruct dry; [constructor|]. rewrite Ht in Hk.
  destruct (quar <=? score (score_package al adb t p n)); destruct Hk as [-> _];
    repeat constructor.
Qed.

(** ** The event window *)

Lemma deque_append_length dq e :
  (List.length dq <= DEQUE_MAXLEN)%nat ->
  (List.length (deque_append dq e) <= DEQUE_MAXLEN)%nat.
Proof.
  unfold deque_append, DEQUE_MAXLEN. intros H.
  destruct (Nat.leb_spec 500 (List.length dq)).
  - destruct dq as [|x dq]; cbn [List.length] in *; [lia|].
    cbn [tl]. rewrite length_app. cbn. lia.
  - rewrite length_app. cbn. lia.
Qed.

Lemma record_event_bounded tool evt :
  bounded (tool_events tool) -> bounded (tool_events (record_event tool evt)).
Proof.
  intros H p dq. unfold record_event. cbn [tool_events].
  destruct (decide (ev_pkg evt = p)) as [<-|Hne].
  - rewrite lookup_insert_eq. intros [= <-]. apply deque_append_length.
    destruct (tool_events tool !! ev_pkg evt) as [d|] eqn:E; cbn [default].
    + exact (H _ _ E).
    + cbn. unfold DEQUE_MAXLEN. lia.
  - rewrite lookup_insert_ne by assumption. apply H.
Qed.

Lemma count_recent_le_length float_sub ev t p w :
  0 <= count_recent float_sub ev t p w
  <= Z.of_nat (List.length (default [] (ev !! p))).
Proof.
  unfold count_recent. split; [lia|]. apply Nat2Z.inj_le.
  induction (default [] (ev !! p)) as [|e l IH]; cbn [List.filter List.length]; [lia|].
  destruct (is_recent float_sub t w e); cbn [List.length]; lia.
Qed.

(** ** One iteration of the automatic loop *)

Lemma ledger_set_last_seen s p t : ledger (set_last_seen s p t) = ledger s.
Proof. reflexivity. Qed.

Lemma policy_effects_app a b :
  policy_effects (a ++ b) = (policy_effects a ++ policy_effects b)%list.
Proof. apply flat_map_app. Qed.

Lemma policy_effects_map acts : policy_effects (map Policy acts) = acts.
Proof.
  induction acts as [|a acts IH]; [reflexivity|].
  cbn [map]. unfold policy_effects in *. cbn [flat_map]. now rewrite IH.
Qed.

Lemma loop_shell_calls_app a b :
  loop_shell_calls (a ++ b) = (loop_shell_calls a ++ loop_shell_calls b)%list.
Proof. unfold loop_shell_calls. now rewrite policy_effects_app, shell_calls_app. Qed.

Lemma calls_on_app p a b : calls_on p (a ++ b) = (calls_on p a ++ calls_on p b)%list.
Proof. apply List.filter_app. Qed.

(** An iteration either leaves the policy alone or calls it once, on a
    package that passed the tests. *)
Lemma auto_step_cases float_sub al adb cfg tool last_eval line tk :
  let result := auto_step float_sub al adb cfg (tool, last_eval) line tk in
  (policy_effects (snd result) = [] /\
   ledger (tool_state (fst (fst result))) = ledger (tool_state tool) /\
   snd (fst result) = last_eval /\
   (tool_events (fst (fst result)) = tool_events tool
    \/ exists evt, tool_events (fst (fst result)) = tool_events (record_event tool evt)))
  \/
  (exists evt recent,
     parse_displayed_line (at_parse tk) line = Some evt /\
     is_allowlisted al (ev_pkg evt) = false /\
     cfg_min_count_for_inspect cfg <= recent /\
     float_lt (float_sub (at_eval tk) (default 0%Q (last_eval !! ev_pkg evt)))
       (cfg_cool_down_sec cfg) = false /\
     let res := score_package al adb (iso_score tk) (ev_pkg evt) recent in
     let call := apply_policy (tool_state (record_event tool evt)) (iso_policy tk) res
                   (cfg_dry_run cfg) (cfg_warn_threshold cfg) (cfg_quar_threshold cfg)
                   (cfg_remove_threshold cfg) (cfg_aggressive_remove cfg) in
     policy_effects (snd result) = snd call /\
     tool_state (fst (fst result)) = fst call /\
     tool_events (fst (fst result)) = tool_events (record_event tool evt) /\
     snd (fst result) = <[ev_pkg evt := at_eval tk]> last_eval).
Proof.
  intros result. subst result. unfold auto_step.
  destruct (parse_displayed_line (at_parse tk) line) as [evt|] eqn:Hp.
  2:{ left. cbn. repeat split. now left. }
  destruct (is_allowlisted al (ev_pkg evt)) eqn:Hal.
  { left. cbn. repeat split. right. now exists evt. }
  match goal with |- context [?r <? cfg_min_count_for_inspect cfg] => set (recent := r) end.
  destruct (Z.ltb_spec recent (cfg_min_count_for_inspect cfg)).
  { left. cbn. repeat split. right. now exists evt. }
  destruct (float_lt _ _) eqn:Hcool.
  { left. cbn. repeat split. right. now exists evt. }
  right. exists evt, recent.
  destruct (apply_policy _ _ _ _ _ _ _ _) as [s acts] eqn:E.
  cbn [fst snd tool_state tool_events].
  repeat split; try assumption.
  change ([Logged evt; Status evt recent] ++ map Policy acts ++ [Saved s])%list
    with ([Logged evt; Status evt recent] ++ (map Policy acts ++ [Saved s]))%list.
  rewrite !policy_effects_app, policy_effects_map. cbn. now rewrite app_nil_r.
Qed.

Lemma calls_on_escalation p q k :
  calls_on p (firstn k (escalation q)) = if String.eqb q p then firstn k (escalation q) else [].
Proof.
  unfold calls_on.
  destruct k as [|[|[|k]]]; cbn [firstn escalation]; rewrite ?firstn_nil;
    cbn [List.filter target List.last]; destruct (String.eqb q p); reflexivity.
Qed.

Lemma Forall_firstn_escalation (P : list string -> Prop) k p :
  (forall args, target args = p -> P args) -> Forall P (firstn k (escalation p)).
Proof.
  intros H. apply List.Forall_forall. intros args Hin.
  apply In_firstn_escalation in Hin as [Ht _]. now apply H.
Qed.

(** What one iteration does to the device: nothing, or an initial part
    of the escalation on a package that is not allowlisted and had no
    ledger entry. *)
Lemma auto_step_calls float_sub al adb cfg tool last_eval line tk :
  let result := auto_step float_sub al adb cfg (tool, last_eval) line tk in
  (loop_shell_calls (snd result) = [] /\
   ledger (tool_state (fst (fst result))) = ledger (tool_state tool))
  \/
  (exists (q : string) (k : nat) (r : ActionRecord),
     is_allowlisted al q = false /\
     ledger (tool_state tool) !! q = None /\
     loop_shell_calls (snd result)
     = (if cfg_dry_run cfg then [] else firstn k (escalation q)) /\
     ledger (tool_state (fst (fst result))) = <[q := r]> (ledger (tool_state tool))).
Proof.
  intros result. subst result.
  destruct (auto_step_cases float_sub al adb cfg tool last_eval line tk)
    as [[A [B _]]|[evt [recent [Hp [Hal [_ [_ H]]]]]]].
  { left. unfold loop_shell_calls. rewrite A. now split. }
  cbn zeta in H. destruct H as [A [B _]].
  unfold loop_shell_calls. rewrite A, B.
  match goal with |- context [apply_policy ?s ?t ?res ?d ?w ?q ?r ?a] =>
    destruct (apply_policy_cases s t res d w q r a)
      as [[C [_ [D _]]]|[Hl [_ [k [name [_ [C [_ D]]]]]]]]
  end.
  - left. rewrite C, D. split; [reflexivity|]. now rewrite ledger_setdefault.
  - right. rewrite pkg_score_package in *. unfold record_event in *.
    cbn [tool_state] in *. rewrite ledger_set_last_seen in Hl.
    eexists (ev_pkg evt), k, _. split; [exact Hal|]. split; [exact Hl|].
    split; [exact C|]. rewrite D, ledger_record, ledger_setdefault. reflexivity.
Qed.

(** A package with a ledger entry keeps it through a run and gets no
    command. *)
Lemma cmd_auto_handled float_sub al cfg lines : forall st p r,
  ledger (tool_state (fst st)) !! p = Some r ->
  let result := cmd_auto float_sub al cfg st lines in
  calls_on p (loop_shell_calls (snd result)) = [] /\
  ledger (tool_state (fst (fst result))) !! p = Some r.
Proof.
  induction lines as [|[[line tk] adb] lines IH]; intros [tool le] p r H; cbn zeta.
  { cbn. now split. }
  cbn [cmd_auto].
  pose proof (auto_step_calls float_sub al adb cfg tool le line tk) as Hs. cbn zeta in Hs.
  destruct (auto_step float_sub al adb cfg (tool, le) line tk) as [st1 out1].
  cbn [fst snd] in Hs, H.
  assert (H1 : calls_on p (loop_shell_calls out1) = [] /\
               ledger (tool_state (fst st1)) !! p = Some r).
  { destruct Hs as [[A B]|[q [k [r' [_ [Hq [A B]]]]]]].
    - rewrite A, B. now split.
    - assert (q <> p) by congruence.
      rewrite A, B, lookup_insert_ne by assumption. split; [|exact H].
      destruct (cfg_dry_run cfg); [reflexivity|].
      rewrite calls_on_escalation.
      destruct (String.eqb_spec q p); [contradiction | reflexivity]. }
  destruct H1 as [A B]. specialize (IH st1 p r B). cbn zeta in IH.
  destruct (cmd_auto float_sub al cfg st1 lines) as [st2 out2]. cbn [fst snd] in *.
  rewrite loop_shell_calls_app, calls_on_app, A. exact IH.
Qed.

(** X13: through a whole run of the automatic loop no command is issued
    on an allowlisted package, whatever the thresholds and the flags. *)
Theorem cmd_auto_spares_allowlisted (float_sub : Q -> Q -> Q) (al : Allowlist)
    (cfg : AutoConfig) (st : Tool * gmap string Q) (lines : list (string * Ticks * Device)) :
  Forall (fun args => is_allowlisted al (target args) = false)
         (loop_shell_calls (snd (cmd_auto float_sub al cfg st lines))).
Proof.
  revert st. induction lines as [|[[line tk] adb] lines IH]; intros [tool le].
  { constructor. }
  cbn [cmd_auto].
  pose proof (auto_step_calls float_sub al adb cfg tool le line tk) as Hs. cbn zeta in Hs.
  destruct (auto_step float_sub al adb cfg (tool, le) line tk) as [st1 out1].
  specialize (IH st1).
  destruct (cmd_auto float_sub al cfg st1 lines) as [st2 out2]. cbn [fst snd] in *.
  rewrite loop_shell_calls_app. apply Forall_app. split; [|exact IH].
  destruct Hs as [[A _]|[q [k [r [Hal [_ [A _]]]]]]]; rewrite A; [constructor|].
  destruct (cfg_dry_run cfg); [constructor|].
  apply Forall_firstn_escalation. now intros args ->.
Qed.

(** X14: in a run of the automatic loop in dry-run mode the policy issues
    none of its commands: no force-stop, no disable and no uninstall
    reaches the device.  (The scoring still queries the device.) *)
Theorem cmd_auto_dry_is_harmless (float_sub : Q -> Q -> Q) (al : Allowlist)
    (cfg : AutoConfig) (st : Tool * gmap string Q) (lines : list (string * Ticks * Device)) :
  cfg_dry_run cfg = true ->
  loop_shell_calls (snd (cmd_auto float_sub al cfg st lines)) = [].
Proof.
  intros Hdry. revert st. induction lines as [|[[line tk] adb] lines IH]; intros [tool le].
  { reflexivity. }
  cbn [cmd_auto].
  pose proof (auto_step_calls float_sub al adb cfg tool le line tk) as Hs. cbn zeta in Hs.
  destruct (auto_step float_sub al adb cfg (tool, le) line tk) as [st1 out1].
  specialize (IH st1).
  destruct (cmd_auto float_sub al cfg st1 lines) as [st2 out2]. cbn [fst snd] in *.
  rewrite loop_shell_calls_app, IH, app_nil_r.
  destruct Hs as [[A _]|[q [k [r [_ [_ [A _]]]]]]]; rewrite A; [reflexivity|].
  now rewrite Hdry.
Qed.

(** X15: through a whole run each package is acted on at most once: the
    commands on it are an initial part of force-stop, disable,
    uninstall; a package that has a ledger entry when the run starts
    gets none and keeps its entry. *)
Theorem cmd_auto_acts_once (float_sub : Q -> Q -> Q) (al : Allowlist)
    (cfg : AutoConfig) (st : Tool * gmap string Q) (lines : list (string * Ticks * Device))
    (p : string) :
  let result := cmd_auto float_sub al cfg st lines in
  (exists k : nat,
     calls_on p (loop_shell_calls (snd result)) = firstn k (escalation p)) /\
  (forall r, ledger (tool_state (fst st)) !! p = Some r ->
     calls_on p (loop_shell_calls (snd result)) = [] /\
     ledger (tool_state (fst (fst result))) !! p = Some r).
Proof.
  cbn zeta. split; [|intros r H; now apply cmd_auto_handled].
  revert st. induction lines as [|[[line tk] adb] lines IH]; intros [tool le].
  { now exists 0%nat. }
  cbn [cmd_auto].
  pose proof (auto_step_calls float_sub al adb cfg tool le line tk) as Hs. cbn zeta in Hs.
  destruct (auto_step float_sub al adb cfg (tool, le) line tk) as [st1 out1] eqn:E1.
  pose proof (cmd_auto_handled float_sub al cfg lines st1 p) as Hh. cbn zeta in Hh.
  specialize (IH st1).
  destruct (cmd_auto float_sub al cfg st1 lines) as [st2 out2]. cbn [fst snd] in *.
  rewrite loop_shell_calls_app, calls_on_app.
  destruct Hs as [[A _]|[q [k [r [_ [_ [A B]]]]]]]; rewrite A; [exact IH|].
  destruct (String.eqb_spec q p) as [->|Hne].
  - destruct (Hh r) as [Hrest _]; [rewrite B; apply lookup_insert_eq|].
    rewrite Hrest, app_nil_r.
    destruct (cfg_dry_run cfg); [now exists 0%nat|].
    exists k. rewrite calls_on_escalation, String.eqb_refl. reflexivity.
  - replace (calls_on p (if cfg_dry_run cfg then [] else firstn k (escalation q)))
      with (@nil (list string)); [exact IH|].
    destruct (cfg_dry_run cfg); [reflexivity|].
    rewrite calls_on_escalation. destruct (String.eqb_spec q p); [contradiction | reflexivity].
Qed.

Lemma cmd_auto_bounded float_sub al cfg lines : forall st,
  bounded (tool_events (fst st)) ->
  bounded (tool_events (fst (fst (cmd_auto float_sub al cfg st lines)))).
Proof.
  induction lines as [|[[line tk] adb] lines IH]; intros [tool le] H; [exact H|].
  cbn [cmd_auto].
  pose proof (auto_step_cases float_sub al adb cfg tool le line tk) as Hs. cbn zeta in Hs.
  destruct (auto_step float_sub al adb cfg (tool, le) line tk) as [st1 out1].
  specialize (IH st1).
  destruct (cmd_auto float_sub al cfg st1 lines) as [st2 out2]. cbn [fst snd] in *.
  apply IH.
  destruct Hs as [[_ [_ [_ [->|[evt ->]]]]]|[evt [recent [_ [_ [_ [_ [_ [_ [-> _]]]]]]]]]];
    [exact H | now apply record_event_bounded..].
Qed.

(** X16: in a run that starts with no recorded events, as every run of
    the tool does, no package ever has more than 500 events on record,
    so no count of recent events exceeds 500. *)
Theorem cmd_auto_window_bounded (float_sub : Q -> Q -> Q) (al : Allowlist)
    (cfg : AutoConfig) (st : Tool * gmap string Q) (lines : list (string * Ticks * Device))
    (t : Q) (p : string) (w : Z) :
  tool_events (fst st) = ∅ ->
  let events := tool_events (fst (fst (cmd_auto float_sub al cfg st lines))) in
  bounded events /\ 0 <= count_recent float_sub events t p w <= 500.
Proof.
  intros H0 events.
  assert (Hb : bounded events).
  { apply cmd_auto_bounded. rewrite H0. intros q dq Hq.
    rewrite lookup_empty in Hq. discriminate. }
  split; [exact Hb|].
  pose proof (count_recent_le_length float_sub events t p w) as Hc.
  destruct (events !! p) as [dq|] eqn:E; cbn [default from_option id] in Hc.
  - specialize (Hb _ _ E). unfold DEQUE_MAXLEN in Hb. lia.
  - cbn in Hc. lia.
Qed.

(** X17: after the loop has evaluated a package, a further event of the
    package within the cooldown is logged and counted but not evaluated
    again: the policy is not called, the ledger and the evaluation
    times stay as they were. *)
Theorem cooldown_suppresses_evaluation (float_sub : Q -> Q -> Q) (al : Allowlist)
    (adb1 adb2 : Device) (cfg : AutoConfig) (st : Tool * gmap string Q)
    (line1 line2 : string) (tk1 tk2 : Ticks) (e1 e2 : Event) :
  parse_displayed_line (at_parse tk1) line1 = Some e1 ->
  parse_displayed_line (at_parse tk2) line2 = Some e2 ->
  ev_pkg e2 = ev_pkg e1 ->
  let r1 := auto_step float_sub al adb1 cfg st line1 tk1 in
  let r2 := auto_step float_sub al adb2 cfg (fst r1) line2 tk2 in
  policy_effects (snd r1) <> [] ->
  float_lt (float_sub (at_eval tk2) (at_eval tk1)) (cfg_cool_down_sec cfg) = true ->
  policy_effects (snd r2) = [] /\
  snd r2 = [Logged e2;
            Status e2 (count_recent float_sub (tool_events (fst (fst r2))) (at_count tk2)
                         (ev_pkg e2) 600)] /\
  ledger (tool_state (fst (fst r2))) = ledger (tool_state (fst (fst r1))) /\
  snd (fst r2) = snd (fst r1).
Proof.
  intros Hp1 Hp2 Hpkg r1 r2 Hev Hcool. subst r1 r2. destruct st as [tool le].
  destruct (auto_step_cases float_sub al adb1 cfg tool le line1 tk1)
    as [[A _]|[evt [recent [Hp [_ [_ [_ H]]]]]]]; [contradiction|].
  cbn zeta in H. destruct H as [_ [_ [_ Hle]]].
  rewrite Hp1 in Hp. injection Hp as <-.
  destruct (auto_step float_sub al adb1 cfg (tool, le) line1 tk1) as [[tool1 le1] out1].
  cbn [fst snd] in *. subst le1.
  unfold auto_step. rewrite Hp2, Hpkg, lookup_insert_eq. cbn [default from_option id].
  rewrite Hcool.
  destruct (is_allowlisted al (ev_pkg e1));
    [|destruct (_ <? cfg_min_count_for_inspect cfg)]; cbn [fst snd tool_state tool_events];
    rewrite ?Hpkg; repeat split.
Qed.

(** ** Lines that are not events *)

Lemma displayed_at_word s m : displayed_at s = Some m -> startswith s "Displayed" = true.
Proof. unfold displayed_at. destruct (startswith s "Displayed"); [reflexivity | discriminate]. Qed.

Lemma displayed_search_word line m :
  displayed_search line = Some m -> contains "Displayed" line = true.
Proof.
  induction line as [|c t IH]; cbn [displayed_search contains].
  - destruct (displayed_at "") eqn:E; [|discriminate]. discriminate.
  - destruct (displayed_at (String c t)) eqn:E.
    + intros _. apply displayed_at_word in E. now rewrite E.
    + intros H. rewrite (IH H). apply orb_true_r.
Qed.

(** X18: a line that does not hold the word Displayed is no event: the
    parser returns nothing and both loops pass it by, with no output and
    no change of state. *)
Theorem other_lines_are_ignored (float_sub : Q -> Q -> Q) (al : Allowlist) (adb : Device)
    (cfg : AutoConfig) (st : Tool * gmap string Q) (show_raw : bool)
    (line : string) (tk : Ticks) :
  contains "Displayed" line = false ->
  parse_displayed_line (at_parse tk) line = None /\
  monitor_step float_sub show_raw (fst st) line tk = (fst st, []) /\
  auto_step float_sub al adb cfg st line tk = (st, []).
Proof.
  intros H.
  assert (Hp : parse_displayed_line (at_parse tk) line = None).
  { unfold parse_displayed_line. destruct (displayed_search line) as [m|] eqn:E; [|reflexivity].
    apply displayed_search_word in E. congruence. }
  split; [exact Hp|]. unfold monitor_step, auto_step. rewrite Hp.
  destruct st as [tool le]. split; reflexivity.
Qed.

(** ** Uninstalling in the automatic loop *)

Lemma remove_test_true res remove aggr :
  remove_test res remove aggr = true ->
  aggr = true /\ truthy_get (details res) "system_like" = false /\ remove <= score res.
Proof.
  unfold remove_test. intros H.
  apply andb_prop in H as [H Hs]. apply andb_prop in H as [Hr Ha].
  repeat split; [exact Ha | now apply negb_true_iff in Hs | now apply Z.leb_le].
Qed.

Lemma system_like_of_paths al adb t p n :
  is_allowlisted al p = false ->
  truthy_get (details (score_package al adb t p n)) "system_like"
  = existsb system_path (answer (get_pkg_paths adb p) []).
Proof.
  intros Hal.
  destruct (score_package_record al adb t p n Hal) as [_ [_ [_ [_ [_ [H _]]]]]].
  unfold truthy_get. rewrite H. cbn [evidence seen_paths].
  destruct (existsb system_path _); reflexivity.
Qed.

Lemma auto_step_uninstall float_sub al adb cfg tool last_eval line tk :
  Forall (fun args =>
            is_uninstall args = true ->
            cfg_aggressive_remove cfg = true /\ cfg_dry_run cfg = false /\
            existsb system_path (answer (get_pkg_paths adb (target args)) []) = false)
         (loop_shell_calls (snd (auto_step float_sub al adb cfg (tool, last_eval) line tk))).
Proof.
  destruct (auto_step_cases float_sub al adb cfg tool last_eval line tk)
    as [[A _]|[evt [recent [_ [Hal [_ [_ H]]]]]]].
  { unfold loop_shell_calls. rewrite A. constructor. }
  cbn zeta in H. destruct H as [A _]. unfold loop_shell_calls. rewrite A.
  match goal with |- context [apply_policy ?s ?t ?res ?d ?w ?q ?r ?a] =>
    destruct (apply_policy_cases s t res d w q r a)
      as [[C _]|[_ [_ [k [name [Hk [C _]]]]]]]
  end; rewrite C; [constructor|].
  destruct (cfg_dry_run cfg) eqn:Hdry; [constructor|].
  apply List.Forall_forall. intros args Hin Hun.
  rewrite pkg_score_package in Hin.
  apply In_firstn_escalation in Hin as [Ht Hk3]. specialize (Hk3 Hun).
  destruct (remove_test _ _ _) eqn:Hrt.
  - apply remove_test_true in Hrt as [Ha [Hs _]].
    rewrite system_like_of_paths in Hs by assumption.
    rewrite Ht. repeat split; assumption.
  - destruct (_ <=? _); lia.
Qed.

(** X19: every uninstall command of a run of the automatic loop was issued
    with the aggressive flag set, outside dry-run mode, and on a package
    for which the device, in an iteration of the run, reported no path
    in a system area. *)
Theorem cmd_auto_uninstalls_with_care (float_sub : Q -> Q -> Q) (al : Allowlist)
    (cfg : AutoConfig) (st : Tool * gmap string Q) (lines : list (string * Ticks * Device)) :
  Forall (fun args =>
            is_uninstall args = true ->
            cfg_aggressive_remove cfg = true /\ cfg_dry_run cfg = false /\
            Exists (fun turn =>
                      existsb system_path (answer (get_pkg_paths (snd turn) (target args)) [])
                      = false) lines)
         (loop_shell_calls (snd (cmd_auto float_sub al cfg st lines))).
Proof.
  revert st. induction lines as [|[[line tk] adb] lines IH]; intros [tool le].
  { constructor. }
  cbn [cmd_auto].
  pose proof (auto_step_uninstall float_sub al adb cfg tool le line tk) as Hs.
  destruct (auto_step float_sub al adb cfg (tool, le) line tk) as [st1 out1].
  specialize (IH st1).
  destruct (cmd_auto float_sub al cfg st1 lines) as [st2 out2]. cbn [fst snd] in *.
  rewrite loop_shell_calls_app. apply Forall_app. split.
  - eapply List.Forall_impl; [|exact Hs]. cbn beta. intros args H Hun.
    destruct (H Hun) as [Ha [Hd Hp]]. repeat split; try assumption.
    apply Exists_cons_hd. exact Hp.
  - eapply List.Forall_impl; [|exact IH]. cbn beta. intros args H Hun.
    destruct (H Hun) as [Ha [Hd Hp]]. repeat split; try assumption.
    now apply Exists_cons_tl.
Qed.

(** ** The event parser *)

Lemma startswith_cons c t d u :
  startswith (String c t) (String d u) = (Ascii.eqb d c && startswith t u)%bool.
Proof.
  unfold startswith. cbn [String.prefix].
  destruct (ascii_dec d c) as [->|H]; [now rewrite Ascii.eqb_refl|].
  apply Ascii.eqb_neq in H. now rewrite H.
Qed.

Lemma startswith_nil s : startswith s "" = true.
Proof. destruct s; reflexivity. Qed.

Lemma span_all f s : all_chars f (span f s) = true.
Proof.
  induction s as [|c t IH]; cbn; [reflexivity|].
  destruct (f c) eqn:E; cbn; [now rewrite E | reflexivity].
Qed.

Lemma is_empty_false s : is_empty s = false -> s <> "".
Proof. destruct s; cbn; intros H; [discriminate H | discriminate]. Qed.

Lemma displayed_at_groups s g1 g2 :
  displayed_at s = Some (g1, g2) ->
  g1 <> "" /\ all_chars is_pkg_char g1 = true /\ g2 <> "" /\ all_chars is_act_char g2 = true.
Proof.
  unfold displayed_at. destruct (startswith s "Displayed"); [|discriminate].
  destruct (_ <? _)%nat; [|discriminate].
  destruct (is_empty (span is_pkg_char _)) eqn:E1; [discriminate|].
  destruct (drop (String.length _) _) as [|c s3]; [discriminate|].
  destruct (Ascii.eqb c "/"); [|discriminate].
  destruct (is_empty (span is_act_char s3)) eqn:E2; [discriminate|].
  intros [= <- <-]. repeat split; auto using is_empty_false, span_all.
Qed.

Lemma displayed_search_groups s g1 g2 :
  displayed_search s = Some (g1, g2) ->
  g1 <> "" /\ all_chars is_pkg_char g1 = true /\ g2 <> "" /\ all_chars is_act_char g2 = true.
Proof.
  induction s as [|c t IH]; cbn [displayed_search].
  - destruct (displayed_at "") as [m|] eqn:E; [|discriminate].
    intros [= ->]. now apply displayed_at_groups in E.
  - destruct (displayed_at (String c t)) as [m|] eqn:E; [|exact IH].
    intros [= ->]. now apply displayed_at_groups in E.
Qed.

(** X20: an event the parser returns carries the time of the call and the
    line without its trailing white space; its package is a non-empty
    text of letters, digits, dots and underscores, its activity a
    non-empty text of these, dollar, slash and hyphen: neither holds
    white space or a character the shell would interpret. *)
Theorem parsed_event_is_well_formed (now : Q) (line : string) (evt : Event) :
  parse_displayed_line now line = Some evt ->
  ts evt = now /\ raw evt = rstrip line /\
  ev_pkg evt <> "" /\ all_chars is_pkg_char (ev_pkg evt) = true /\
  activity evt <> "" /\ all_chars is_act_char (activity evt) = true.
Proof.
  unfold parse_displayed_line.
  destruct (displayed_search line) as [[g1 g2]|] eqn:E; [|discriminate].
  intros [= <-]. cbn. apply displayed_search_groups in E. tauto.
Qed.

Lemma span_app f p rest :
  all_chars f p = true -> stops f rest = true -> span f (p ++ rest) = p.
Proof.
  intros Hp Hr. induction p as [|c t IH].
  - change ("" ++ rest) with rest. destruct rest as [|c r]; cbn in *; [reflexivity|].
    destruct (f c); [discriminate | reflexivity].
  - change (String c t ++ rest) with (String c (t ++ rest)). cbn [span all_chars] in *.
    apply andb_prop in Hp as [Hc Ht]. now rewrite Hc, IH.
Qed.

Lemma drop_app p rest : drop (String.length p) (p ++ rest) = rest.
Proof.
  induction p as [|c t IH]; [reflexivity|].
  change (String c t ++ rest) with (String c (t ++ rest)). exact IH.
Qed.

Lemma space_len_blank t : space_len (String " " t) = 1%nat.
Proof. destruct t as [|b [|c t]]; reflexivity. Qed.

Lemma space_len_pkg_char c t : is_pkg_char c = true -> space_len (String c t) = 0%nat.
Proof.
  destruct c as [[] [] [] [] [] [] [] []]; try discriminate; intros _;
    destruct t as [|b [|d t]]; reflexivity.
Qed.

Lemma lstrip_pkg_char c t : is_pkg_char c = true -> lstrip (String c t) = String c t.
Proof. intros H. unfold lstrip. cbn [lstrip_go]. now rewrite space_len_pkg_char. Qed.

Lemma startswith_no_D c t : Ascii.eqb "D" c = false -> startswith (String c t) "Displayed" = false.
Proof. intros H. now rewrite startswith_cons, H. Qed.

Lemma displayed_search_skip pre s :
  contains "D" pre = false -> s <> "" ->
  displayed_search (pre ++ s) = displayed_search s.
Proof.
  intros Hpre Hs. induction pre as [|c t IH]; [reflexivity|].
  cbn [contains] in Hpre. apply orb_false_elim in Hpre as [Hc Ht].
  change (String c t ++ s) with (String c (t ++ s)). cbn [displayed_search].
  rewrite startswith_cons, startswith_nil, andb_true_r in Hc.
  unfold displayed_at at 1. rewrite startswith_no_D by assumption. now apply IH.
Qed.

Lemma displayed_at_canonical p a rest :
  p <> "" -> all_chars is_pkg_char p = true ->
  a <> "" -> all_chars is_act_char a = true -> stops is_act_char rest = true ->
  displayed_at ("Displayed " ++ p ++ "/" ++ a ++ rest) = Some (p, a).
Proof.
  intros Hp Hpc Ha Hac Hr. unfold displayed_at.
  change ("Displayed " ++ p ++ "/" ++ a ++ rest)
    with ("Displayed" ++ String " " (p ++ "/" ++ a ++ rest)).
  rewrite startswith_app.
  change 9%nat with (String.length "Displayed"). rewrite drop_app.
  destruct p as [|c p]; [contradiction|].
  assert (Hc : is_pkg_char c = true) by (cbn in Hpc; now apply andb_prop in Hpc as [-> _]).
  replace (lstrip (String " " (String c p ++ "/" ++ a ++ rest)))
    with (String c p ++ "/" ++ a ++ rest).
  2:{ unfold lstrip. cbn [lstrip_go]. rewrite space_len_blank.
      change (String c p ++ "/" ++ a ++ rest) with (String c (p ++ "/" ++ a ++ rest)).
      cbn [lstrip_go]. now rewrite space_len_pkg_char. }
  replace (String.length (String c p ++ "/" ++ a ++ rest)
           <? String.length (String " " (String c p ++ "/" ++ a ++ rest)))%nat with true
    by (symmetry; apply Nat.ltb_lt; cbn [String.length]; lia).
  rewrite (span_app is_pkg_char (String c p) ("/" ++ a ++ rest) Hpc eq_refl).
  cbn [is_empty]. rewrite drop_app.
  change ("/" ++ a ++ rest) with (String "/" (a ++ rest)). cbn [Ascii.eqb Bool.eqb].
  rewrite (span_app is_act_char a rest Hac Hr).
  destruct a; [contradiction | reflexivity].
Qed.

(** X21: round trip of the event parser: a line whose text before the
    word Displayed holds no capital D, followed by one blank, a package
    name, a slash and an activity name, yields exactly that package and
    that activity, whatever follows the activity name. *)
Theorem parse_displayed_line_round_trip (now : Q) (pre p a rest : string) :
  contains "D" pre = false ->
  p <> "" -> all_chars is_pkg_char p = true ->
  a <> "" -> all_chars is_act_char a = true -> stops is_act_char rest = true ->
  let line := pre ++ "Displayed " ++ p ++ "/" ++ a ++ rest in
  parse_displayed_line now line = Some (mkEvent now p a (rstrip line)).
Proof.
  intros Hpre Hp Hpc Ha Hac Hr line. subst line. unfold parse_displayed_line.
  rewrite displayed_search_skip by (assumption || discriminate).
  assert (E : displayed_search ("Displayed " ++ p ++ "/" ++ a ++ rest) = Some (p, a)).
  { change ("Displayed " ++ p ++ "/" ++ a ++ rest)
      with (String "D" ("isplayed " ++ p ++ "/" ++ a ++ rest)).
    cbn [displayed_search].
    change (String "D" ("isplayed " ++ p ++ "/" ++ a ++ rest))
      with ("Displayed " ++ p ++ "/" ++ a ++ rest).
    now rewrite displayed_at_canonical. }
  now rewrite E.
Qed.

(** ** Sets of names in order *)

Lemma insert_sorted_HdRel a x l :
  String.leb a x = true -> HdRel (fun a b => String.leb a b = true) a l ->
  HdRel (fun a b => String.leb a b = true) a (insert_sorted x l).
Proof.
  intros Hax H. destruct l as [|y l]; cbn; [now constructor|].
  destruct (String.leb x y); constructor; [assumption|]. now inversion H.
Qed.

Lemma insert_sorted_Sorted x l :
  Sorted (fun a b => String.leb a b = true) l ->
  Sorted (fun a b => String.leb a b = true) (insert_sorted x l).
Proof.
  induction 1 as [|y l Hs IH Hhd]; cbn; [repeat constructor|].
  destruct (String.leb x y) eqn:E.
  - constructor; [now constructor|]. now constructor.
  - constructor; [exact IH|]. apply insert_sorted_HdRel; [|exact Hhd].
    destruct (String.leb_total x y) as [H|H]; congruence.
Qed.

Lemma sorted_Sorted l : Sorted (fun a b => String.leb a b = true) (sorted l).
Proof. induction l as [|x l IH]; cbn; [constructor | now apply insert_sorted_Sorted]. Qed.

Lemma insert_sorted_NoDup x l : ~ In x l -> List.NoDup l -> List.NoDup (insert_sorted x l).
Proof.
  intros Hx H. induction H as [|y l Hy Hl IH]; cbn.
  - constructor; [intros [] | constructor].
  - destruct (String.leb x y).
    + constructor; [exact Hx | now constructor].
    + constructor.
      * rewrite insert_sorted_In. intros [->|Hin]; [apply Hx; now left | contradiction].
      * apply IH. intros Hin. apply Hx. now right.
Qed.

Lemma sorted_NoDup l : List.NoDup l -> List.NoDup (sorted l).
Proof.
  induction 1 as [|x l Hx Hl IH]; cbn; [constructor|].
  apply insert_sorted_NoDup; [now rewrite sorted_In | exact IH].
Qed.

Lemma set_add_NoDup x s : List.NoDup s -> List.NoDup (set_add x s).
Proof.
  intros H. unfold set_add. destruct (mem x s) eqn:E; [exact H|].
  constructor; [now apply mem_not_In | exact H].
Qed.

Lemma sorted_ascending l : List.NoDup l -> ascending (sorted l).
Proof. intros H. split; [apply sorted_Sorted | now apply sorted_NoDup]. Qed.

(** ** The permission parser *)

Lemma all_AZ_no_dot r : all_chars is_AZ_ r = true -> contains "." r = false.
Proof.
  induction r as [|c t IH]; [reflexivity|]. cbn [all_chars contains].
  intros H. apply andb_prop in H as [Hc Ht]. rewrite (IH Ht), orb_false_r.
  rewrite startswith_cons, startswith_nil, andb_true_r.
  destruct (Ascii.eqb_spec "." c) as [<-|]; [discriminate | reflexivity].
Qed.

Lemma contains_dot_app pre r : contains "." (pre ++ String "." r) = true.
Proof.
  induction pre as [|c t IH].
  - change ("" ++ String "." r) with (String "." r). cbn [contains].
    now rewrite startswith_cons, startswith_nil.
  - change (String c t ++ String "." r) with (String c (t ++ String "." r)).
    cbn [contains]. rewrite IH. apply orb_true_r.
Qed.

Lemma last_dot_field_app pre r :
  contains "." r = false -> last_dot_field (pre ++ String "." r) = r.
Proof.
  intros Hr. induction pre as [|c t IH].
  - change ("" ++ String "." r) with (String "." r). cbn [last_dot_field].
    now rewrite Hr.
  - change (String c t ++ String "." r) with (String c (t ++ String "." r)).
    cbn [last_dot_field]. now rewrite contains_dot_app.
Qed.

Lemma span_AZ_all s : all_chars is_AZ_ (span_AZ_ s) = true.
Proof.
  induction s as [|c t IH]; cbn; [reflexivity|].
  destruct (is_AZ_ c) eqn:E; cbn; [now rewrite E | reflexivity].
Qed.

Lemma perm_name_no_prefix x :
  perm_name x -> startswith x "android.permission." = false.
Proof.
  intros [Hne Hall]. destruct x as [|c t]; [contradiction|].
  cbn [all_chars] in Hall. apply andb_prop in Hall as [Hc _].
  rewrite startswith_cons.
  destruct (Ascii.eqb_spec "a" c) as [<-|]; [discriminate | reflexivity].
Qed.

(** A token of the pattern: a run of three or more, or the prefix with a run. *)
Lemma match_perm_token_shape s tok :
  match_perm_token s = Some tok ->
  perm_name tok \/ exists r, perm_name r /\ tok = "android.permission." ++ r.
Proof.
  unfold match_perm_token.
  pose proof (span_AZ_all s) as H1. pose proof (span_AZ_all (drop 19 s)) as H2.
  set (r1 := span_AZ_ s) in *. set (r2 := span_AZ_ (drop 19 s)) in *. clearbody r1 r2.
  destruct (3 <=? String.length r1)%nat eqn:E3.
  - intros [= <-]. left. split; [|exact H1]. intros ->. discriminate E3.
  - destruct (startswith s "android.permission."); [|discriminate].
    destruct (1 <=? String.length r2)%nat eqn:E1; [|discriminate].
    intros [= <-]. right. exists r2. split; [|reflexivity].
    split; [|exact H2]. intros ->. discriminate E1.
Qed.

Lemma findall_perm_go_shape s : forall skip,
  Forall (fun tok => perm_name tok \/
                     exists r, perm_name r /\ tok = "android.permission." ++ r)
         (findall_perm_go skip s).
Proof.
  induction s as [|c t IH]; intros skip; cbn [findall_perm_go]; [constructor|].
  destruct skip as [|k]; [|apply IH].
  destruct (match_perm_token (String c t)) as [tok|] eqn:E; [|apply IH].
  constructor; [now apply match_perm_token_shape in E | apply IH].
Qed.

Lemma add_token_names perms x :
  (perm_name x \/ exists r, perm_name r /\ x = "android.permission." ++ r) ->
  List.NoDup perms /\ Forall perm_name perms ->
  List.NoDup (add_token perms x) /\ Forall perm_name (add_token perms x).
Proof.
  intros Hx [Hn Hf]. unfold add_token.
  assert (Hadd : forall y, perm_name y ->
            List.NoDup (set_add y perms) /\ Forall perm_name (set_add y perms)).
  { intros y Hy. split; [now apply set_add_NoDup|].
    apply List.Forall_forall. intros z Hz. apply set_add_In in Hz as [->|Hz]; [exact Hy|].
    now apply (proj1 (List.Forall_forall _ _) Hf). }
  destruct Hx as [Hx|[r [Hr ->]]].
  - rewrite perm_name_no_prefix by assumption.
    destruct (isupper x); [now apply Hadd | now split].
  - rewrite startswith_app. apply Hadd.
    change ("android.permission." ++ r) with ("android.permission" ++ String "." r).
    rewrite last_dot_field_app; [exact Hr|]. apply all_AZ_no_dot, Hr.
Qed.

Lemma add_line_names perms line :
  List.NoDup perms /\ Forall perm_name perms ->
  List.NoDup (add_line perms line) /\ Forall perm_name (add_line perms line).
Proof.
  intros H. unfold add_line. destruct (perm_line line); [|exact H].
  unfold findall_perm. generalize (findall_perm_go_shape line 0). revert perms H.
  induction (findall_perm_go 0 line) as [|x l IH]; intros perms H Hs; [exact H|].
  cbn [fold_left]. inversion Hs; subst. apply IH; [|assumption].
  now apply add_token_names.
Qed.

(** X22: the permission parser returns its names in ascending order, none
    twice, and every name is a non-empty text of capital letters and
    underscores: the prefix android.permission. is never part of one. *)
Theorem requested_permissions_are_names (dumpsys_txt : string) :
  ascending (parse_requested_permissions dumpsys_txt) /\
  Forall perm_name (parse_requested_permissions dumpsys_txt).
Proof.
  unfold parse_requested_permissions. cbv zeta.
  assert (H : List.NoDup (fold_left add_line (splitlines dumpsys_txt) []) /\
              Forall perm_name (fold_left add_line (splitlines dumpsys_txt) [])).
  { assert (H0 : List.NoDup (@nil string) /\ Forall perm_name []) by (split; constructor).
    revert H0. generalize (@nil string).
    induction (splitlines dumpsys_txt) as [|line l IH]; intros perms H; [exact H|].
    cbn [fold_left]. apply IH. now apply add_line_names. }
  set (perms := fold_left add_line (splitlines dumpsys_txt) []) in *.
  assert (H' : List.NoDup (if contains "BIND_ACCESSIBILITY_SERVICE" dumpsys_txt
                      then set_add "BIND_ACCESSIBILITY_SERVICE" perms else perms) /\
               Forall perm_name (if contains "BIND_ACCESSIBILITY_SERVICE" dumpsys_txt
                                 then set_add "BIND_ACCESSIBILITY_SERVICE" perms else perms)).
  { destruct (contains "BIND_ACCESSIBILITY_SERVICE" dumpsys_txt); [|exact H].
    destruct H as [Hn Hf]. split; [now apply set_add_NoDup|].
    apply List.Forall_forall. intros z Hz. apply set_add_In in Hz as [->|Hz].
    - split; [discriminate | reflexivity].
    - now apply (proj1 (List.Forall_forall _ _) Hf). }
  destruct H' as [Hn Hf]. split; [now apply sorted_ascending|].
  apply List.Forall_forall. intros z Hz. apply (proj1 (sorted_In _ _)) in Hz.
  exact (proj1 (List.Forall_forall _ _) Hf z Hz).
Qed.

(** ** Inventory *)

Lemma to_set_spec l :
  List.NoDup (Inventory.to_set l) /\ forall x, In x (Inventory.to_set l) <-> In x l.
Proof.
  unfold Inventory.to_set.
  assert (G : forall acc, List.NoDup acc ->
            List.NoDup (fold_left (fun s x => set_add x s) l acc) /\
            forall x, In x (fold_left (fun s x => set_add x s) l acc) <-> In x l \/ In x acc).
  { induction l as [|y l IH]; intros acc Hacc; cbn [fold_left].
    - split; [exact Hacc|]. intros x. cbn. tauto.
    - destruct (IH (set_add y acc) (set_add_NoDup y acc Hacc)) as [Hn Hin].
      split; [exact Hn|]. intros x. rewrite Hin, set_add_In. cbn. intuition congruence. }
  destruct (G [] (List.NoDup_nil _)) as [Hn Hin]. split; [exact Hn|].
  intros x. rewrite Hin. cbn. tauto.
Qed.

Lemma linebreak_len_visible c t : visible c = true -> linebreak_len (String c t) = 0%nat.
Proof.
  destruct c as [[] [] [] [] [] [] [] []]; try discriminate; intros _;
    destruct t as [|b [|d t]]; reflexivity.
Qed.

Lemma space_len_visible c t : visible c = true -> space_len (String c t) = 0%nat.
Proof.
  destruct c as [[] [] [] [] [] [] [] []]; try discriminate; intros _;
    destruct t as [|b [|d t]]; reflexivity.
Qed.

Lemma append_nil_r (s : string) : s ++ "" = s.
Proof.
  induction s as [|c s IH]; [reflexivity|].
  change (String c s ++ "") with (String c (s ++ "")). now rewrite IH.
Qed.

Lemma append_assoc (a b c : string) : (a ++ b) ++ c = a ++ (b ++ c).
Proof.
  induction a as [|x a IH]; [reflexivity|].
  change (String x (a ++ b) ++ c = String x (a ++ (b ++ c))).
  change (String x (a ++ b) ++ c) with (String x ((a ++ b) ++ c)). now rewrite IH.
Qed.

Lemma splitlines_go_line l : forall cur rest,
  all_chars visible l = true ->
  splitlines_go 0 cur (l ++ String "010" rest) = (cur ++ l) :: splitlines_go 0 "" rest.
Proof.
  induction l as [|c l IH]; intros cur rest H.
  - change ("" ++ String "010" rest) with (String "010" rest).
    cbn [splitlines_go]. replace (linebreak_len (String "010" rest)) with 1%nat
      by (destruct rest as [|b [|d r]]; reflexivity).
    now rewrite append_nil_r.
  - cbn [all_chars] in H. apply andb_prop in H as [Hc Hl].
    change (String c l ++ String "010" rest) with (String c (l ++ String "010" rest)).
    cbn [splitlines_go]. rewrite linebreak_len_visible by assumption.
    rewrite IH by assumption. now rewrite append_assoc.
Qed.

Lemma splitlines_listing lines :
  Forall (fun l => all_chars visible l = true) lines ->
  splitlines (listing lines) = lines.
Proof.
  unfold splitlines. induction 1 as [|l lines Hl _ IH]; [reflexivity|].
  cbn [listing fold_right]. fold (listing lines).
  now rewrite splitlines_go_line, IH.
Qed.

Lemma lstrip_visible l : all_chars visible l = true -> lstrip l = l.
Proof.
  destruct l as [|c l]; [reflexivity|]. cbn [all_chars]. intros H.
  apply andb_prop in H as [Hc _]. unfold lstrip. cbn [lstrip_go].
  now rewrite space_len_visible.
Qed.

Lemma rstrip_visible l : all_chars visible l = true -> rstrip l = l.
Proof.
  induction l as [|c l IH]; [reflexivity|]. intros H.
  cbn [rstrip]. unfold all_space. rewrite (lstrip_visible _ H). cbn [is_empty].
  cbn [all_chars] in H. apply andb_prop in H as [_ Hl]. now rewrite IH.
Qed.

Lemma strip_visible l : all_chars visible l = true -> strip l = l.
Proof. intros H. unfold strip. now rewrite lstrip_visible, rstrip_visible. Qed.

Lemma all_chars_app f a b :
  all_chars f a = true -> all_chars f b = true -> all_chars f (a ++ b) = true.
Proof.
  intros Ha Hb. induction a as [|c a IH]; [exact Hb|].
  change (String c a ++ b) with (String c (a ++ b)). cbn [all_chars] in *.
  apply andb_prop in Ha as [Hc Ha]. now rewrite Hc, IH.
Qed.

Lemma package_lines_listing entries :
  forallb plain_entry entries = true ->
  Inventory.package_lines (listing (map output_line entries))
  = map snd (List.filter fst entries).
Proof.
  intros H. unfold Inventory.package_lines.
  rewrite splitlines_listing.
  2:{ apply List.Forall_forall. intros l Hl. apply in_map_iff in Hl as [[b v] [<- Hin]].
      apply (proj1 (forallb_forall _ _) H) in Hin. unfold plain_entry in Hin.
      apply andb_prop in Hin as [Hv _]. cbn [fst snd] in *. unfold output_line. cbn [fst snd].
      destruct b; [|exact Hv]. now apply all_chars_app. }
  induction entries as [|[b v] entries IH]; [reflexivity|].
  cbn [forallb] in H. apply andb_prop in H as [He H].
  unfold plain_entry in He. apply andb_prop in He as [Hv Hb]. cbn [fst snd] in *.
  cbn [map flat_map List.filter fst]. rewrite (IH H). unfold output_line. cbn [fst snd].
  destruct b; cbn [orb negb] in Hb.
  - rewrite strip_visible by now apply all_chars_app.
    rewrite startswith_app.
    change (Inventory.after_colon ("package:" ++ v)) with v.
    now rewrite strip_visible.
  - rewrite strip_visible by assumption. apply negb_true_iff in Hb. now rewrite Hb.
Qed.

(** X23: round trip of the two scanners of package lines.  For an output
    of lines closed by line feeds, each made of visible characters, the
    lines that are not package lines not starting with package:,
    [get_pkg_paths] returns the values of the package lines, in their
    order and with their repetitions, and [list_user_packages] returns
    the same values in ascending order, each once; the other lines give
    nothing. *)
Theorem inventory_round_trip (entries : list (bool * string)) :
  forallb plain_entry entries = true ->
  let stdout := listing (map output_line entries) in
  Inventory.get_pkg_paths stdout = map snd (List.filter fst entries) /\
  ascending (Inventory.list_user_packages stdout) /\
  (forall x, In x (Inventory.list_user_packages stdout) <-> In (true, x) entries).
Proof.
  intros H stdout. subst stdout.
  unfold Inventory.get_pkg_paths, Inventory.list_user_packages.
  rewrite (package_lines_listing entries H).
  destruct (to_set_spec (map snd (List.filter fst entries))) as [Hn Hin].
  split; [reflexivity|]. split; [now apply sorted_ascending|].
  intros x. rewrite sorted_In, Hin, in_map_iff. split.
  - intros [[b v] [<- Hf]]. apply List.filter_In in Hf as [Hf Hb].
    cbn [fst snd] in *. now subst b.
  - intros Hx. exists (true, x). split; [reflexivity|].
    apply List.filter_In. now split.
Qed.

(** ** The window of a package *)

Lemma latest_short {A : Type} n (l : list A) : (List.length l <= n)%nat -> latest n l = l.
Proof. intros H. unfold latest. now replace (List.length l - n)%nat with 0%nat by lia. Qed.

Lemma deque_append_latest dq e :
  (List.length dq <= DEQUE_MAXLEN)%nat ->
  deque_append dq e = latest DEQUE_MAXLEN (dq ++ [e]).
Proof.
  intros H. unfold deque_append, latest. rewrite length_app. cbn [List.length].
  destruct (Nat.leb_spec DEQUE_MAXLEN (List.length dq)).
  - replace (List.length dq + 1 - DEQUE_MAXLEN)%nat with 1%nat by lia.
    destruct dq as [|x dq]; [cbn in *; unfold DEQUE_MAXLEN in *; lia | reflexivity].
  - now replace (List.length dq + 1 - DEQUE_MAXLEN)%nat with 0%nat by lia.
Qed.

Lemma latest_length {A : Type} n (l : list A) : (List.length (latest n l) <= n)%nat.
Proof. unfold latest. rewrite List.length_skipn. lia. Qed.

Lemma latest_app_latest {A : Type} n (l : list A) x :
  latest n (latest n l ++ [x]) = latest n (l ++ [x]).
Proof.
  destruct (Nat.le_gt_cases (List.length l) n) as [Hle|Hgt].
  - now rewrite (latest_short n l).
  - unfold latest. rewrite !length_app, List.length_skipn. cbn [List.length].
    rewrite !List.skipn_app, List.skipn_skipn, List.length_skipn. f_equal; f_equal; lia.
Qed.

Lemma record_events_window evts : forall tool p,
  (List.length (default [] (tool_events tool !! p)) <= DEQUE_MAXLEN)%nat ->
  default [] (tool_events (fold_left record_event evts tool) !! p)
  = latest DEQUE_MAXLEN (default [] (tool_events tool !! p) ++ events_of p evts).
Proof.
  induction evts as [|e evts IH]; intros tool p H; cbn [fold_left events_of List.filter].
  { rewrite app_nil_r. symmetry. now apply latest_short. }
  fold (events_of p evts).
  destruct (String.eqb_spec (ev_pkg e) p) as [<-|Hne].
  - rewrite IH; unfold record_event; cbn [tool_events]; rewrite lookup_insert_eq;
      cbn [default from_option id].
    + rewrite deque_append_latest by assumption.
      set (dq := default [] (tool_events tool !! ev_pkg e)).
      change (dq ++ e :: events_of (ev_pkg e) evts)%list
        with (dq ++ [e] ++ events_of (ev_pkg e) evts)%list.
      rewrite app_assoc.
      generalize (events_of (ev_pkg e) evts). intros rest.
      induction rest as [|x rest IHr] using rev_ind.
      * rewrite !app_nil_r. apply latest_short, latest_length.
      * rewrite !app_assoc, <- latest_app_latest, IHr, latest_app_latest. reflexivity.
    + apply deque_append_length. assumption.
  - rewrite IH; unfold record_event; cbn [tool_events];
      rewrite lookup_insert_ne by assumption; [reflexivity | assumption].
Qed.

(** X24: recording events one after the other leaves, for a package with
    no events before, its latest 500 events, in the order of arrival;
    events of other packages do not count against the 500. *)
Theorem window_keeps_latest_events (tool : Tool) (evts : list Event) (p : string) :
  tool_events tool !! p = None ->
  default [] (tool_events (fold_left record_event evts tool) !! p)
  = latest 500 (events_of p evts).
Proof.
  intros H. rewrite record_events_window; rewrite H; cbn [default from_option id].
  - reflexivity.
  - cbn. unfold DEQUE_MAXLEN. lia.
Qed.

(** ** The monitor loop *)

(** X25: the monitor loop only observes: it calls no policy, issues no
    command, and leaves the ledger as it was. *)
Theorem cmd_monitor_only_observes (float_sub : Q -> Q -> Q) (show_raw : bool) (tool : Tool)
    (lines : list (string * Ticks)) :
  let result := cmd_monitor float_sub show_raw tool lines in
  policy_effects (snd result) = [] /\
  loop_shell_calls (snd result) = [] /\
  ledger (tool_state (fst result)) = ledger (tool_state tool).
Proof.
  cbn zeta. revert tool. induction lines as [|[line tk] lines IH]; intros tool.
  { repeat split. }
  cbn [cmd_monitor].
  assert (Hs : policy_effects (snd (monitor_step float_sub show_raw tool line tk)) = [] /\
               ledger (tool_state (fst (monitor_step float_sub show_raw tool line tk)))
               = ledger (tool_state tool)).
  { unfold monitor_step. destruct (parse_displayed_line (at_parse tk) line) as [evt|].
    - cbn [fst snd]. split; [destruct show_raw; reflexivity | reflexivity].
    - now split. }
  destruct (monitor_step float_sub show_raw tool line tk) as [tool1 out1].
  specialize (IH tool1).
  destruct (cmd_monitor float_sub show_raw tool1 lines) as [tool2 out2].
  cbn [fst snd] in *. destruct Hs as [A B], IH as [C [D E]].
  unfold loop_shell_calls in *. rewrite policy_effects_app, A, C. repeat split.
  now rewrite E, B.
Qed.

(** ** The points of the accessibility trace *)

Lemma a11y_rule_points d ps : points (a11y_rule d ps) = if a11y_trace d ps then 15 else 0.
Proof. unfold points, a11y_rule. destruct (a11y_trace d ps); reflexivity. Qed.

Lemma a11y_trace_declared dump :
  a11y_trace dump (parse_requested_permissions dump)
  = (contains "AccessibilityService" dump
     && negb (mem "BIND_ACCESSIBILITY_SERVICE" (parse_requested_permissions dump)))%bool.
Proof. unfold a11y_trace. destruct dump; reflexivity. Qed.

Lemma perm_fold_total l s :
  fst (fold_left perm_step l s) = fst s + fold_right (fun x acc => perm_weight x + acc) 0 l.
Proof.
  revert s. induction l as [|x l IH]; intros s; cbn [fold_left fold_right]; [lia|].
  rewrite IH, perm_step_fst. lia.
Qed.

Lemma weights_split b l :
  List.NoDup l ->
  fold_right (fun x acc => perm_weight x + acc) 0 l
  = (if mem b l then perm_weight b else 0) + weights_but b l.
Proof.
  induction 1 as [|x l Hx Hl IH]; [reflexivity|].
  unfold weights_but. cbn [fold_right]. fold (weights_but b l).
  rewrite IH. unfold mem. cbn [existsb]. fold (mem b l).
  destruct (String.eqb_spec b x) as [->|Hne].
  - rewrite String.eqb_refl. cbn [orb].
    replace (mem x l) with false by (symmetry; now apply mem_not_In). lia.
  - replace (String.eqb x b) with false
      by (symmetry; apply String.eqb_neq; congruence).
    cbn [orb]. lia.
Qed.

Lemma add_token_NoDup perms x : List.NoDup perms -> List.NoDup (add_token perms x).
Proof.
  intros H. unfold add_token.
  destruct (startswith x "android.permission."); [now apply set_add_NoDup|].
  destruct (isupper x); [now apply set_add_NoDup | exact H].
Qed.

Lemma add_line_NoDup perms line : List.NoDup perms -> List.NoDup (add_line perms line).
Proof.
  unfold add_line. destruct (perm_line line); [|auto].
  generalize (findall_perm line). intros toks. revert perms.
  induction toks as [|x toks IH]; intros perms H; [exact H|].
  cbn [fold_left]. apply IH. now apply add_token_NoDup.
Qed.

Lemma parse_requested_permissions_NoDup dump :
  List.NoDup (parse_requested_permissions dump).
Proof.
  unfold parse_requested_permissions. cbv zeta. apply sorted_NoDup.
  assert (H : List.NoDup (fold_left add_line (splitlines dump) [])).
  { generalize (List.NoDup_nil string). generalize (@nil string).
    induction (splitlines dump) as [|line l IH]; intros perms H; [exact H|].
    cbn [fold_left]. apply IH. now apply add_line_NoDup. }
  destruct (contains "BIND_ACCESSIBILITY_SERVICE" dump); [now apply set_add_NoDup | exact H].
Qed.

(** C8: for a package whose rules run, the score is the capped sum of
    the other rules plus 15 exactly when the dump holds
    "AccessibilityService" and BIND_ACCESSIBILITY_SERVICE is not in the
    parsed permission set, and plus 0 otherwise; the reason of the bonus
    is recorded in the same case.  The parsed set holds the permission
    whenever its literal occurs in the dump.  The permission points are
    35 for BIND_ACCESSIBILITY_SERVICE when the set holds it, plus the
    weights of the other permissions; so the 35 and the 15 are never
    both added, and their reasons never both recorded. *)
Theorem a11y_trace_bonus (al : Allowlist) (adb : Device) (t p : string) (n : Z) :
  is_allowlisted al p = false ->
  let e := evidence adb p in
  let dump := answer (dumpsys_package adb p) "" in
  let perms := parse_requested_permissions dump in
  let declared :=
    (contains "AccessibilityService" dump
     && negb (mem "BIND_ACCESSIBILITY_SERVICE" perms))%bool in
  let res := score_package al adb t p n in
  score res
  = Z.min 180 (score_sum_without_a11y_trace e p n + (if declared then 15 else 0)) /\
  seen_perms e = perms /\
  points (fold_left perm_step perms)
  = (if mem "BIND_ACCESSIBILITY_SERVICE" perms then 35 else 0)
    + weights_but "BIND_ACCESSIBILITY_SERVICE" perms /\
  (mem "BIND_ACCESSIBILITY_SERVICE" perms && declared)%bool = false /\
  (In "AccessibilityService 定義の痕跡 (+15)" (reasons res) <-> declared = true) /\
  (contains "BIND_ACCESSIBILITY_SERVICE" dump = true ->
   In "BIND_ACCESSIBILITY_SERVICE" perms) /\
  (In "権限シグナル: BIND_ACCESSIBILITY_SERVICE (+35)" (reasons res) <->
   In "BIND_ACCESSIBILITY_SERVICE" perms) /\
  ~ (In "権限シグナル: BIND_ACCESSIBILITY_SERVICE (+35)" (reasons res) /\
     In "AccessibilityService 定義の痕跡 (+15)" (reasons res)).
Proof.
  intros Hal e dump perms declared res.
  assert (Hperms : seen_perms e = perms) by apply requested_perms_eq.
  destruct (a11y_trace_reasons al adb t p n Hal) as [R1 [R2 [R3 R4]]].
  fold dump in R1, R2, R4. fold perms in R1, R2, R4. fold res in R1, R3, R4.
  split.
  { subst res. rewrite score_package_sum by assumption. f_equal.
    unfold score_sum, score_sum_without_a11y_trace. fold e.
    rewrite a11y_rule_points, Hperms.
    change (seen_dump e) with dump. subst perms. rewrite a11y_trace_declared.
    fold declared. lia. }
  split; [exact Hperms|]. split.
  { unfold points. rewrite perm_fold_total.
    rewrite (weights_split "BIND_ACCESSIBILITY_SERVICE" perms)
      by apply parse_requested_permissions_NoDup.
    reflexivity. }
  split.
  { subst declared. destruct (mem "BIND_ACCESSIBILITY_SERVICE" perms);
      [apply andb_false_r | reflexivity]. }
  split.
  { rewrite R1. subst declared. rewrite andb_true_iff, negb_true_iff, mem_not_In. tauto. }
  split; [exact R2|]. split; [exact R4 | exact R3].
Qed.

(** ** The points of the composite rule on the installer *)

Lemma installer_rule_points i :
  points (installer_rule i)
  = match i with
    | None => 10
    | Some x => if mem x trusted_installers then 0 else 15
    end.
Proof.
  unfold points, installer_rule. destruct i as [x|]; [|reflexivity].
  destruct (mem x trusted_installers); reflexivity.
Qed.

Lemma appops_allowed_list_overlay txt :
  mem "SYSTEM_ALERT_WINDOW" (appops_allowed_list txt)
  = appop_allowed "SYSTEM_ALERT_WINDOW" txt.
Proof.
  unfold appops_allowed_list.
  eapply (appops_found_spec txt (0, [])). apply surjective_pairing.
Qed.

(** C10: for a package whose rules run, the score is the capped sum of
    the other rules plus 15 exactly when the recent count is at least 5,
    overlay evidence is present and the installer is not in the trusted
    set, and plus 0 otherwise; the reason of the rule is recorded in the
    same case.  An installer that could not be determined counts as not
    trusted there, so the 15 are added for it, although the base rule
    gives it 10 and keeps its own 15 for a known installer outside the
    trusted set; every installer that earns the base 15 also meets the
    composite test. *)
Theorem composite_installer_bonus (al : Allowlist) (adb : Device) (t p : string) (n : Z) :
  is_allowlisted al p = false ->
  let e := evidence adb p in
  let installer := answer (get_pkg_installer adb p) None in
  let dump := answer (dumpsys_package adb p) "" in
  let appops := answer (appops_get adb p) "" in
  let overlay :=
    (mem "SYSTEM_ALERT_WINDOW" (parse_requested_permissions dump)
     || appop_allowed "SYSTEM_ALERT_WINDOW" appops)%bool in
  let fires := ((5 <=? n) && overlay && not_trusted installer)%bool in
  let res := score_package al adb t p n in
  score res
  = Z.min 180 (score_sum_without_composite_installer e p n + (if fires then 15 else 0)) /\
  (installer = None -> 5 <= n -> overlay = true -> fires = true) /\
  points (installer_rule installer)
  = match installer with
    | None => 10
    | Some i => if mem i trusted_installers then 0 else 15
    end /\
  (points (installer_rule installer) = 15 -> not_trusted installer = true) /\
  (installer = None ->
   not_trusted installer = true /\ points (installer_rule installer) = 10) /\
  (In "高頻度前面表示 + 非標準インストーラ + overlay" (reasons res) <-> fires = true) /\
  (installer = None -> 5 <= n -> overlay = true ->
   In "高頻度前面表示 + 非標準インストーラ + overlay" (reasons res)) /\
  (forall i, In ("非標準/未知のインストーラ: " ++ i) (reasons res) <->
             installer = Some i /\ mem i trusted_installers = false) /\
  (forall i, In ("非標準/未知のインストーラ: " ++ i) (reasons res) ->
             not_trusted installer = true) /\
  (installer = None ->
   forall i, ~ In ("非標準/未知のインストーラ: " ++ i) (reasons res)).
Proof.
  intros Hal e installer dump appops overlay fires res.
  destruct (composite_installer_reasons al adb t p n Hal) as [R1 [R2 [R3 [R4 R5]]]].
  fold installer in R1, R2, R3, R4, R5. fold dump in R1, R2. fold appops in R1, R2.
  fold overlay in R1, R2. fold res in R1, R2, R3, R4, R5.
  assert (Hov : overlay_evidence e = overlay).
  { unfold overlay_evidence. rewrite appops_allowed_list_overlay.
    unfold seen_perms. change (seen_dump e) with dump. now rewrite requested_perms_eq. }
  split.
  { subst res. rewrite score_package_sum by assumption. f_equal.
    unfold score_sum, score_sum_without_composite_installer, composite_points,
      composite_points_without_installer. fold e.
    rewrite Hov. change (seen_installer e) with installer. fold fires. lia. }
  split.
  { intros Hi Hn Ho. subst fires. rewrite Hi, Ho.
    destruct (Z.leb_spec 5 n); [reflexivity | lia]. }
  split; [apply installer_rule_points|]. split.
  { rewrite installer_rule_points. unfold not_trusted.
    destruct installer as [i|]; [|reflexivity].
    destruct (mem i trusted_installers); [discriminate | reflexivity]. }
  split.
  { intros ->. split; reflexivity. }
  split.
  { rewrite R1. subst fires. rewrite !andb_true_iff, Z.leb_le. tauto. }
  split; [exact R2|]. split; [exact R3|]. split; [exact R4|].
  intros Hi. exact (proj2 (R5 Hi)).
Qed.

(** ** The safety notice and the quarantine threshold *)

(** C5 at an input where the claim fails: a package under the system
    tree scores 140, which is above the removal threshold 105 but below
    a quarantine threshold of 150; with aggressive removal on, the call
    prints the notice that says REMOVE is downgraded to QUARANTINE, and
    then announces force-stop only, issues only the force-stop command
    and records force-stop in the ledger. *)
Lemma safety_notice_without_quarantine :
  truthy_get (details preinstalled_result) "system_like" = true /\
  score preinstalled_result = 140 /\
  ledger fresh_state !! pkg preinstalled_result = None /\
  In safety_notice
     (snd (apply_policy fresh_state "2024-05-01 10:00:05" preinstalled_result
             false 45 150 105 true)) /\
  policy_lines (snd (apply_policy fresh_state "2024-05-01 10:00:05" preinstalled_result
                       false 45 150 105 true))
  = ["[POLICY] force-stop only"] /\
  shell_calls (snd (apply_policy fresh_state "2024-05-01 10:00:05" preinstalled_result
                      false 45 150 105 true))
  = [["am"; "force-stop"; "org.example.app"]] /\
  option_map ar_action
    (ledger (fst (apply_policy fresh_state "2024-05-01 10:00:05" preinstalled_result
                    false 45 150 105 true)) !! "org.example.app")
  = Some "force-stop".
Proof.
  split; [reflexivity|]. split; [reflexivity|]. split; [reflexivity|].
  split; [|repeat split; reflexivity].
  vm_compute. repeat (first [left; reflexivity | right]).
Qed.

(** X26: with thresholds in their order, warn <= quarantine <= remove, the
    safety override does what its notice says: for a result marked
    system-like with a score of at least the removal threshold and a
    package without a ledger entry, the call prints the notice,
    announces QUARANTINE, issues the commands of the quarantine and no
    uninstall, and records quarantine in the ledger, whatever the
    aggressive flag. *)
Theorem system_like_quarantined_when_ordered (st : State) (now : string)
    (res : ScoreResult) (dry : bool) (warn quar remove : Z) (aggr : bool) :
  truthy_get (details res) "system_like" = true ->
  ledger st !! pkg res = None ->
  warn <= quar -> quar <= remove -> remove <= score res ->
  let result := apply_policy st now res dry warn quar remove aggr in
  In safety_notice (snd result) /\
  policy_lines (snd result) = ["[POLICY] QUARANTINE"] /\
  shell_calls (snd result) = shell_calls (cmd_quarantine (pkg res) dry) /\
  action_lines (snd result) = action_lines (cmd_quarantine (pkg res) dry) /\
  (forall args, In args (shell_calls (snd result)) -> is_uninstall args = false) /\
  ledger (fst result) !! pkg res =
    Some (mkActionRecord now (action_name "quarantine" dry) (score res) (reasons res)).
Proof.
  intros Hsys Hl Hwq Hqr Hr result. subst result.
  destruct (system_like_cases st now res dry warn quar remove aggr Hsys Hr)
    as [_ [Hun [_ H]]].
  destruct (H Hl ltac:(lia) ltac:(lia)) as [A [B [C [D E]]]].
  repeat split; assumption.
Qed.

(** ** The loops on concrete runs *)

Example cmd_auto_removes_overlay_app :
  loop_shell_calls
    (snd (cmd_auto Qminus default_allowlist aggressive_config (fresh_tool, ∅)
            (four_events overlay_device)))
  = escalation "org.example.app".
Proof. vm_compute. reflexivity. Qed.

Example cmd_auto_spares_preinstalled_app :
  loop_shell_calls
    (snd (cmd_auto Qminus default_allowlist aggressive_config (fresh_tool, ∅)
            (four_events preinstalled_device)))
  = firstn 2 (escalation "org.example.app").
Proof. vm_compute. reflexivity. Qed.

Example list_user_packages_sample :
  Inventory.list_user_packages
    ("package:org.b" ++ String "010"
       ("package:org.a" ++ String "013" (String "010"
          ("  package:org.b  " ++ String "010" "junk"))))
  = ["org.a"; "org.b"].
Proof. reflexivity. Qed.

Example get_pkg_paths_sample :
  Inventory.get_pkg_paths (listing (map output_line sample_entries))
  = ["/data/app/org.example.app-1/base.apk";
     "/data/app/org.example.app-1/split_config.en.apk"].
Proof. vm_compute. reflexivity. Qed.

(** ** The properties on concrete inputs *)

Lemma score_monotone_in_recent_count_witness :
  score (score_package default_allowlist overlay_device "2024-05-01 10:00:00"
           "org.example.app" 2)
  <= score (score_package default_allowlist overlay_device "2024-05-01 10:00:00"
              "org.example.app" 9).
Proof.
  apply (score_monotone_in_recent_count default_allowlist overlay_device
           "2024-05-01 10:00:00" "org.example.app" 2 9).
  lia.
Defined.

Lemma score_depends_on_answers_witness :
  score (score_package default_allowlist silent_device "2024-05-01 10:00:00"
           "org.example.app" 4)
  = score (score_package default_allowlist quiet_device "2024-05-02 11:30:00"
             "org.example.app" 4).
Proof.
  apply (score_depends_on_answers default_allowlist silent_device quiet_device
           "2024-05-01 10:00:00" "2024-05-02 11:30:00" "org.example.app" 4).
  reflexivity.
Defined.

Lemma positive_score_has_reason_witness :
  reasons (score_package default_allowlist overlay_device "2024-05-01 10:00:00"
             "org.example.app" 10) <> [].
Proof.
  apply (positive_score_has_reason default_allowlist overlay_device
           "2024-05-01 10:00:00" "org.example.app" 10).
  vm_compute. reflexivity.
Defined.

Lemma failed_queries_are_reported_witness :
  In "installer取得失敗: timeout"
     (reasons (score_package default_allowlist flaky_device "2024-05-01 10:00:00"
                 "org.example.app" 0)) /\
  In "appops取得失敗: timeout"
     (reasons (score_package default_allowlist flaky_device "2024-05-01 10:00:00"
                 "org.example.app" 0)).
Proof.
  assert (Hal : is_allowlisted default_allowlist "org.example.app" = false)
    by reflexivity.
  pose proof (failed_queries_are_reported default_allowlist flaky_device
                "2024-05-01 10:00:00" "org.example.app" 0 Hal) as [H1 [_ [_ H4]]].
  split; [apply (proj2 (H1 "timeout")) | apply (proj2 (H4 "timeout"))]; reflexivity.
Defined.

Lemma system_path_never_uninstalled_witness :
  Forall (fun args => is_uninstall args = false)
    (shell_calls
       (snd (apply_policy fresh_state "2024-05-01 10:00:05"
               (score_package default_allowlist preinstalled_device "2024-05-01 10:00:00"
                  "org.example.app" 10)
               false 45 80 105 true))).
Proof.
  apply (system_path_never_uninstalled default_allowlist preinstalled_device
           "2024-05-01 10:00:00" "org.example.app" 10 fresh_state "2024-05-01 10:00:05"
           false 45 80 105 true); reflexivity.
Defined.

Lemma dry_run_blocks_later_runs_witness :
  shell_calls (snd (apply_policy fresh_state "2024-05-01 10:00:05" high_result
                      true 45 80 105 true)) = [] /\
  exists r : ActionRecord,
    ledger (fst (apply_policy fresh_state "2024-05-01 10:00:05" high_result
                   true 45 80 105 true)) !! "org.example.app" = Some r /\
    endswith (ar_action r) "(dry-run)" = true /\
    forall now' res' dry' warn' quar' remove' aggr',
      pkg res' = "org.example.app" ->
      apply_policy (fst (apply_policy fresh_state "2024-05-01 10:00:05" high_result
                           true 45 80 105 true))
        now' res' dry' warn' quar' remove' aggr'
      = (fst (apply_policy fresh_state "2024-05-01 10:00:05" high_result
                true 45 80 105 true),
         [PrintSkip "org.example.app" r]).
Proof.
  apply (dry_run_blocks_later_runs fresh_state "2024-05-01 10:00:05" high_result
           45 80 105 true); [reflexivity | cbn; lia].
Defined.

Lemma higher_score_no_milder_witness :
  exists k : nat,
    shell_calls (snd (apply_policy fresh_state "2024-05-01 10:00:05" low_result
                        false 25 80 105 true))
    = firstn k (shell_calls (snd (apply_policy fresh_state "2024-05-01 10:00:05" high_result
                                    false 25 80 105 true))).
Proof.
  apply (higher_score_no_milder fresh_state "2024-05-01 10:00:05" "2024-05-01 10:00:05"
           low_result high_result false 25 80 105 true);
    [reflexivity | reflexivity | cbn; lia].
Defined.

Lemma cmd_auto_dry_is_harmless_witness :
  loop_shell_calls
    (snd (cmd_auto Qminus default_allowlist dry_config (fresh_tool, ∅)
            [(sample_line, sample_ticks 1000000, overlay_device)])) = [].
Proof.
  apply (cmd_auto_dry_is_harmless Qminus default_allowlist dry_config (fresh_tool, ∅)
           [(sample_line, sample_ticks 1000000, overlay_device)]).
  reflexivity.
Defined.

Lemma cmd_auto_window_bounded_witness :
  0 <= count_recent Qminus
         (tool_events
            (fst (fst (cmd_auto Qminus default_allowlist dry_config (fresh_tool, ∅)
                         [(sample_line, sample_ticks 1000000, overlay_device)]))))
         (1000000 # 1) "org.example.app" 600
  <= 500.
Proof.
  apply (cmd_auto_window_bounded Qminus default_allowlist dry_config (fresh_tool, ∅)
           [(sample_line, sample_ticks 1000000, overlay_device)]
           (1000000 # 1) "org.example.app" 600).
  reflexivity.
Defined.

Lemma cooldown_suppresses_evaluation_witness :
  policy_effects
    (snd (auto_step Qminus default_allowlist overlay_device live_config
            (fst (auto_step Qminus default_allowlist overlay_device live_config
                    (fresh_tool, ∅) sample_line (sample_ticks 1000000)))
            sample_line (sample_ticks 1000100))) = [].
Proof.
  apply (cooldown_suppresses_evaluation Qminus default_allowlist overlay_device
           overlay_device live_config (fresh_tool, ∅) sample_line sample_line
           (sample_ticks 1000000) (sample_ticks 1000100)
           (sample_event 1000000) (sample_event 1000100));
    [reflexivity | reflexivity | reflexivity | vm_compute; discriminate | reflexivity].
Defined.

Lemma other_lines_are_ignored_witness :
  parse_displayed_line (1000000 # 1) "I ActivityManager: Start proc 4242:org.example.app"
  = None.
Proof.
  apply (other_lines_are_ignored Qminus default_allowlist quiet_device dry_config
           (fresh_tool, ∅) false
           "I ActivityManager: Start proc 4242:org.example.app" (sample_ticks 1000000)).
  reflexivity.
Defined.

Lemma parsed_event_is_well_formed_witness :
  all_chars is_pkg_char (ev_pkg (sample_event 1000000)) = true.
Proof.
  apply (parsed_event_is_well_formed (1000000 # 1) sample_line (sample_event 1000000)).
  reflexivity.
Defined.

Lemma parse_displayed_line_round_trip_witness :
  parse_displayed_line (1000000 # 1) sample_line = Some (sample_event 1000000).
Proof.
  apply (parse_displayed_line_round_trip (1000000 # 1) "I ActivityTaskManager: "
           "org.example.app" ".Main" ": +350ms");
    [reflexivity | discriminate | reflexivity | discriminate | reflexivity | reflexivity].
Defined.

Lemma window_keeps_latest_events_witness :
  default [] (tool_events (fold_left record_event
                             [sample_event 1000000; sample_event 1000100] fresh_tool)
              !! "org.example.app")
  = latest 500 (events_of "org.example.app" [sample_event 1000000; sample_event 1000100]).
Proof.
  apply (window_keeps_latest_events fresh_tool
           [sample_event 1000000; sample_event 1000100] "org.example.app").
  reflexivity.
Defined.

Lemma inventory_round_trip_witness :
  forallb plain_entry sample_entries = true /\
  Inventory.get_pkg_paths (listing (map output_line sample_entries))
  = map snd (List.filter fst sample_entries).
Proof.
  assert (H : forallb plain_entry sample_entries = true) by reflexivity.
  split; [exact H|].
  exact (proj1 (inventory_round_trip sample_entries H)).
Defined.

Lemma a11y_trace_bonus_witness :
  is_allowlisted default_allowlist "org.example.app" = false /\
  score (score_package default_allowlist overlay_device "2024-05-01 10:00:00"
           "org.example.app" 10)
  = Z.min 180 (score_sum_without_a11y_trace (evidence overlay_device "org.example.app")
                 "org.example.app" 10 + 15) /\
  In "AccessibilityService 定義の痕跡 (+15)"
     (reasons (score_package default_allowlist overlay_device "2024-05-01 10:00:00"
                 "org.example.app" 10)).
Proof.
  assert (Hal : is_allowlisted default_allowlist "org.example.app" = false)
    by reflexivity.
  pose proof (a11y_trace_bonus default_allowlist overlay_device "2024-05-01 10:00:00"
                "org.example.app" 10 Hal) as [H1 [_ [_ [_ [H5 _]]]]].
  split; [exact Hal|]. split; [exact H1|]. apply (proj2 H5). reflexivity.
Defined.

Lemma composite_installer_bonus_witness :
  is_allowlisted default_allowlist "org.example.app" = false /\
  answer (get_pkg_installer overlay_device "org.example.app") None = None /\
  score (score_package default_allowlist overlay_device "2024-05-01 10:00:00"
           "org.example.app" 5)
  = Z.min 180 (score_sum_without_composite_installer
                 (evidence overlay_device "org.example.app") "org.example.app" 5 + 15) /\
  In "高頻度前面表示 + 非標準インストーラ + overlay"
     (reasons (score_package default_allowlist overlay_device "2024-05-01 10:00:00"
                 "org.example.app" 5)).
Proof.
  assert (Hal : is_allowlisted default_allowlist "org.example.app" = false)
    by reflexivity.
  pose proof (composite_installer_bonus default_allowlist overlay_device
                "2024-05-01 10:00:00" "org.example.app" 5 Hal)
    as [H1 [_ [_ [_ [_ [_ [H7 _]]]]]]].
  split; [exact Hal|]. split; [reflexivity|]. split; [exact H1|].
  apply H7; [reflexivity | lia | reflexivity].
Defined.

Lemma system_like_quarantined_when_ordered_witness :
  In safety_notice
     (snd (apply_policy fresh_state "2024-05-01 10:00:00" system_result
             false 45 80 105 true)) /\
  policy_lines (snd (apply_policy fresh_state "2024-05-01 10:00:00" system_result
                       false 45 80 105 true))
  = ["[POLICY] QUARANTINE"].
Proof.
  pose proof (system_like_quarantined_when_ordered fresh_state "2024-05-01 10:00:00"
                system_result false 45 80 105 true) as H.
  destruct H as [A [B _]]; [reflexivity | reflexivity | lia | lia | cbn; lia |].
  split; [exact A | exact B].
Defined.
